(** * Operations_Router_News: [bin/convert_from_xsede.py]

    A shallow embedding of [Router.Warehouse_XSEDE_News] and of one turn of
    [Router.Run], the part of the router that merges the per-resource outage
    records of the legacy feed into one news item per outage and reconciles
    the warehouse tables [News] and [News_Associations] with the result.

    Conventions of the embedding.
    - A Python dict is an insertion-ordered association list ([PyDict]):
      iteration order is insertion order, as in Python 3.7 and later.
    - The dict objects of [input_obj] are referred to by their position in
      the list: [merged_obj] maps a URN to the position of the object it
      aliases, and the merge returns the objects as it leaves them, so the
      in-place updates of lines 301 to 304 are seen through both names.
    - A statement that can raise yields a [result]; [Raised e] is an
      exception that leaves [Warehouse_XSEDE_News], which catches nothing
      but [DataError] and [IntegrityError].
    - The Django models and the database are outside the repository: the
      tables are lists of rows, and which write fails, and with what
      exception object, is decided by a parameter ([raises]).

    The methods around the pass are embedded as well: [Setup] from line 114
    on, [Read_SOURCE], [Analyze_SOURCE], [exit] and the main program.
    - [Setup], [Read_SOURCE] and the main program work on the log alone and
      end by a return, by [sys.exit] or by an exception ([Router.L]).
    - An object whose type the code does not fix (a value of the
      configuration, a field of a database row, a value of a JSON record)
      is a [str] or another object, the latter by its truth value, what
      [str()] gives and what [len()] gives ([Router.value]).
    - [urlparse], the HTTP connection, [json.loads], the settings of Django
      and the table [News_Publisher] are parameters. *)

From Stdlib Require Import Ascii.
From stdpp Require Import base list strings pretty.

Open Scope string_scope.
Open Scope list_scope.

(** ** Python dictionaries *)

Module PyDict.

Definition dict (V : Type) : Type := list (string * V).

(** [d.get(k)] *)
Fixpoint get {V} (d : dict V) (k : string) : option V :=
  match d with
  | [] => None
  | (k', v) :: d' => if decide (k' = k) then Some v else get d' k
  end.

(** [k in d] *)
Definition contains {V} (d : dict V) (k : string) : bool :=
  match get d k with Some _ => true | None => false end.

(** [d[k] = v]: a key that is present keeps its place *)
Fixpoint set {V} (d : dict V) (k : string) (v : V) : dict V :=
  match d with
  | [] => [(k, v)]
  | (k', v') :: d' =>
      if decide (k' = k) then (k', v) :: d' else (k', v') :: set d' k v
  end.

(** [list(d)], the keys in iteration order *)
Definition keys {V} (d : dict V) : list string := d.*1.

(** [d.items()] *)
Definition items {V} (d : dict V) : list (string * V) := d.

End PyDict.

Import PyDict.

(** ** Exceptions and results *)

(** The exception classes of [django.db] that the function catches. *)
Inductive db_error_class := DataError | IntegrityError.

(** An exception object raised by the database layer.  [exn_message] is what
    [e.message] evaluates to: [None] when the object has no such attribute,
    which is the case of every exception of Python 3 that does not set one
    itself, [django.db.utils.Error] and its subclasses included. *)
Record db_error := {
  exn_class : db_error_class;
  exn_message : option string
}.

(** [type(e).__name__] *)
Definition type_name (e : db_error) : string :=
  match exn_class e with
  | DataError => "DataError"
  | IntegrityError => "IntegrityError"
  end.

(** The exceptions that can leave the function. *)
Inductive exception :=
  | KeyError (key : string)
  | AttributeError (name : string)
  | IndexError
  | DoesNotExist
  | ValueError
  | TypeError.

Inductive result (A : Type) :=
  | Normal (a : A)
  | Raised (e : exception).
Arguments Normal {A} a.
Arguments Raised {A} e.

(** ** [str.format]

    Only the replacement field [{}] is modelled, the one field the templates
    of the function use: each takes the next positional argument, and a field
    with no argument left raises [IndexError]. *)
Fixpoint format (template : string) (args : list string) : result string :=
  match template with
  | EmptyString => Normal EmptyString
  | String "{"%char (String "}"%char rest) =>
      match args with
      | [] => Raised IndexError
      | a :: args' =>
          match format rest args' with
          | Normal s => Normal (a +:+ s)
          | Raised e => Raised e
          end
      end
  | String c rest =>
      match format rest args with
      | Normal s => Normal (String c s)
      | Raised e => Raised e
      end
  end.

(** [s.startswith(prefix)] *)
Definition startswith (s prefix : string) : bool := String.prefix prefix s.

(** ** The feed's records *)

(** One element of [input_obj], a dict decoded from the feed.  The members
    the function reads are fields; [ResourceID] and [AffectedInfrastructure]
    are [None] when the dict has no such key (the function removes the first
    and adds the second), [OutageStart] and [OutageEnd] are [None] for a JSON
    null. *)
Record p_res := {
  ID : string;
  OutageID : string;
  ResourceID : option string;
  OutageType : string;
  Subject : string;
  Content : string;
  OutageStart : option string;
  OutageEnd : option string;
  AffectedInfrastructure : option (list string)
}.

(** [p.pop('ResourceID', None)] *)
Definition pop_ResourceID (p : p_res) : p_res :=
  {| ID := ID p; OutageID := OutageID p; ResourceID := None;
     OutageType := OutageType p; Subject := Subject p; Content := Content p;
     OutageStart := OutageStart p; OutageEnd := OutageEnd p;
     AffectedInfrastructure := AffectedInfrastructure p |}.

(** [p['AffectedInfrastructure'] = l] *)
Definition set_AffectedInfrastructure (p : p_res) (l : list string) : p_res :=
  {| ID := ID p; OutageID := OutageID p; ResourceID := ResourceID p;
     OutageType := OutageType p; Subject := Subject p; Content := Content p;
     OutageStart := OutageStart p; OutageEnd := OutageEnd p;
     AffectedInfrastructure := Some l |}.

(** ** Configuration *)

(** The attributes of [self] that [Setup] fills from the configuration. *)
Record config := {
  NEWSURNPREFIX : string;
  INPUTURNPREFIX : string;
  AFFILIATION : string;
  PUBLISHER : string
}.

(** ** The merge (lines 292 to 304) *)

(** The body of [for p_res in input_obj], for the object at position [i].
    [merged_obj[URN] = p_res] stores the position, and the three updates that
    follow go to the object at that position.  The branches that raise
    [IndexError] or [KeyError URN] stand for lookups that cannot fail: [i]
    is a position of the list, and line 304 follows lines 300 to 303. *)
Definition merge_body (cfg : config) (i : nat)
    (st : dict nat * list p_res) : result (dict nat * list p_res) :=
  let '(merged_obj, objects) := st in
  match objects !! i with
  | None => Raised IndexError
  | Some p =>
      if negb (startswith (ID p) (INPUTURNPREFIX cfg)) then Normal st
      else
        match format "{}{}" [NEWSURNPREFIX cfg; OutageID p] with
        | Raised e => Raised e
        | Normal URN =>
            match ResourceID p with
            | None => Raised (KeyError "ResourceID")
            | Some RESOURCE =>
                let '(merged_obj, objects) :=
                  if contains merged_obj URN then (merged_obj, objects)
                  else (set merged_obj URN i,
                        <[i := set_AffectedInfrastructure (pop_ResourceID p) []]>
                          objects) in
                match get merged_obj URN with
                | None => Raised (KeyError URN)
                | Some j =>
                    match objects !! j with
                    | None => Raised IndexError
                    | Some q =>
                        match AffectedInfrastructure q with
                        | None => Raised (KeyError "AffectedInfrastructure")
                        | Some l =>
                            Normal (merged_obj,
                                    <[j := set_AffectedInfrastructure q
                                             (l ++ [RESOURCE])]> objects)
                        end
                    end
                end
            end
        end
  end.

(** The loop, over the positions of [input_obj]. *)
Fixpoint merge_loop (cfg : config) (positions : list nat)
    (st : dict nat * list p_res) : result (dict nat * list p_res) :=
  match positions with
  | [] => Normal st
  | i :: rest =>
      match merge_body cfg i st with
      | Normal st' => merge_loop cfg rest st'
      | Raised e => Raised e
      end
  end.

(** Lines 293 to 304: [merged_obj] and the objects after the loop. *)
Definition merge (cfg : config) (input_obj : list p_res)
    : result (dict nat * list p_res) :=
  merge_loop cfg (seq 0 (length input_obj)) ([], input_obj).

(** What [merged_obj.items()] yields once each reference is followed. *)
Definition merged_items (merged_obj : dict nat) (objects : list p_res)
    : list (string * option p_res) :=
  (λ kv, (kv.1, objects !! kv.2)) <$> items merged_obj.

(** ** The warehouse tables ([news.models], outside the repository) *)

(** A value of [datetime.datetime], by its ISO text. *)
Inductive datetime := Datetime (iso : string).

Module models.

(** A row of [News]; [URN] is its primary key. *)
Record News := {
  URN : string;
  Subject : string;
  Content : string;
  NewsStart : option datetime;
  NewsEnd : option datetime;
  NewsType : string;
  DistributionOptions : option string;
  WebURL : string;
  Affiliation : string;
  Publisher : string
}.

(** A row of [News_Associations]; [id] is its primary key and [NewsItem] the
    URN of the news item it refers to. *)
Record News_Associations := {
  id : nat;
  NewsItem : string;
  AssociatedType : string;
  AssociatedID : string
}.

End models.

Record DB := {
  News_objects : list models.News;
  News_Associations_objects : list models.News_Associations;
  next_id : nat
}.

(** [str(item)] of an association, as line 341 states it. *)
Definition str_News_Associations (item : models.News_Associations)
    : result string :=
  format "{}->{}/{}"
    [models.NewsItem item; models.AssociatedType item; models.AssociatedID item].

(** [News.objects.filter(URN__startswith=prefix)] *)
Definition News_filter_startswith (prefix : string) (db : DB)
    : list models.News :=
  filter (λ item, startswith (models.URN item) prefix) (News_objects db).

(** [News_Associations.objects.filter(NewsItem__URN__startswith=prefix)] *)
Definition News_Associations_filter_startswith (prefix : string) (db : DB)
    : list models.News_Associations :=
  filter (λ item, startswith (models.NewsItem item) prefix)
    (News_Associations_objects db).

(** The effect of [News.objects.update_or_create(URN=..., defaults=...)]:
    the row of that URN is overwritten where there is one, and added
    otherwise. *)
Definition db_update_or_create (row : models.News) (db : DB) : DB :=
  {| News_objects :=
       if bool_decide (models.URN row ∈ models.URN <$> News_objects db)
       then (λ item, if decide (models.URN item = models.URN row)
                     then row else item) <$> News_objects db
       else News_objects db ++ [row];
     News_Associations_objects := News_Associations_objects db;
     next_id := next_id db |}.

(** The effect of saving a new association: a row with a fresh [id]. *)
Definition db_insert_association (NewsItem AssociatedType AssociatedID : string)
    (db : DB) : DB :=
  {| News_objects := News_objects db;
     News_Associations_objects :=
       News_Associations_objects db ++
         [{| models.id := next_id db; models.NewsItem := NewsItem;
             models.AssociatedType := AssociatedType;
             models.AssociatedID := AssociatedID |}];
     next_id := S (next_id db) |}.

(** The effect of deleting the association of primary key [pk]. *)
Definition db_delete_association (pk : nat) (db : DB) : DB :=
  {| News_objects := News_objects db;
     News_Associations_objects :=
       filter (λ item, models.id item ≠ pk) (News_Associations_objects db);
     next_id := next_id db |}.

(** The effect of [News.objects.filter(URN=URN).delete()]: the row goes, and
    with it the associations that refer to it (a delete that succeeds leaves
    no row that refers to a missing news item). *)
Definition db_delete_news (URN : string) (db : DB) : DB :=
  {| News_objects := filter (λ item, models.URN item ≠ URN) (News_objects db);
     News_Associations_objects :=
       filter (λ item, models.NewsItem item ≠ URN)
         (News_Associations_objects db);
     next_id := next_id db |}.

(** The writes the function sends to the database. *)
Inductive db_write :=
  | update_or_create (row : models.News)
  | save_News (row : models.News)
  | save_News_Associations (NewsItem AssociatedType AssociatedID : string)
  | delete_News_Associations (pk : nat)
  | delete_News (URN : string).

(** What lies outside the repository: [raises op db] is the exception the
    write [op] raises in the state [db], if any, and [parse_datetime] is
    Django's, which returns a value or raises. *)
Record environment := {
  raises : db_write → DB → option db_error;
  parse_datetime : option string → result (option datetime)
}.

(** ** The state the function works on *)

(** What is logged or handed to [FinishActivity]: a text, or the summary of
    line 408 by its three counts (its seconds are left out). *)
Inductive message :=
  | Text (s : string)
  | Processed (updates deletes skipped : nat).

(** A call of [self.logger], by its level. *)
Inductive log_record :=
  | debug (msg : message)
  | info (msg : message)
  | error (msg : message).

(** The database, the attributes of [self] that the function assigns, the
    calls of [self.logger] so far, and the calls of [pa.FinishActivity] so
    far. *)
Record world := {
  database : DB;
  cur : dict models.News;
  new : dict models.News;
  cur_assoc : dict models.News_Associations;
  new_assoc : dict models.News_Associations;
  STATS : dict nat;
  logger : list log_record;
  activity : list (bool * message)
}.

(** The world with one field changed. *)
Definition with_database (f : DB → DB) (w : world) : world :=
  {| database := f (database w); cur := cur w; new := new w;
     cur_assoc := cur_assoc w; new_assoc := new_assoc w; STATS := STATS w;
     logger := logger w; activity := activity w |}.

Definition with_cur (f : dict models.News → dict models.News) (w : world)
    : world :=
  {| database := database w; cur := f (cur w); new := new w;
     cur_assoc := cur_assoc w; new_assoc := new_assoc w; STATS := STATS w;
     logger := logger w; activity := activity w |}.

Definition with_new (f : dict models.News → dict models.News) (w : world)
    : world :=
  {| database := database w; cur := cur w; new := f (new w);
     cur_assoc := cur_assoc w; new_assoc := new_assoc w; STATS := STATS w;
     logger := logger w; activity := activity w |}.

Definition with_cur_assoc
    (f : dict models.News_Associations → dict models.News_Associations)
    (w : world) : world :=
  {| database := database w; cur := cur w; new := new w;
     cur_assoc := f (cur_assoc w); new_assoc := new_assoc w; STATS := STATS w;
     logger := logger w; activity := activity w |}.

Definition with_new_assoc
    (f : dict models.News_Associations → dict models.News_Associations)
    (w : world) : world :=
  {| database := database w; cur := cur w; new := new w;
     cur_assoc := cur_assoc w; new_assoc := f (new_assoc w); STATS := STATS w;
     logger := logger w; activity := activity w |}.

Definition with_STATS (f : dict nat → dict nat) (w : world) : world :=
  {| database := database w; cur := cur w; new := new w;
     cur_assoc := cur_assoc w; new_assoc := new_assoc w; STATS := f (STATS w);
     logger := logger w; activity := activity w |}.

Definition with_logger (f : list log_record → list log_record) (w : world)
    : world :=
  {| database := database w; cur := cur w; new := new w;
     cur_assoc := cur_assoc w; new_assoc := new_assoc w; STATS := STATS w;
     logger := f (logger w); activity := activity w |}.

Definition with_activity (f : list (bool * message) → list (bool * message))
    (w : world) : world :=
  {| database := database w; cur := cur w; new := new w;
     cur_assoc := cur_assoc w; new_assoc := new_assoc w; STATS := STATS w;
     logger := logger w; activity := f (activity w) |}.

(** [c[k]] of a [Counter]: a key that is missing counts zero. *)
Definition count (c : dict nat) (k : string) : nat := default 0 (get c k).

(** ** Statements: state and exceptions *)

(** A statement changes the world and either yields a value or raises; what
    it changed before it raised stays changed. *)
Definition M (A : Type) : Type := world → result A * world.

Definition ret {A} (a : A) : M A := λ w, (Normal a, w).

Definition bind {A B} (m : M A) (k : A → M B) : M B :=
  λ w, match m w with
       | (Normal a, w') => k a w'
       | (Raised e, w') => (Raised e, w')
       end.

Definition raise {A} (e : exception) : M A := λ w, (Raised e, w).

(** a value or an exception from a computation without effect *)
Definition lift {A} (r : result A) : M A := λ w, (r, w).

Definition read : M world := λ w, (Normal w, w).

Definition modify (f : world → world) : M unit := λ w, (Normal tt, f w).

#[global] Instance M_ret : MRet M := @ret.
#[global] Instance M_bind : MBind M := λ A B k m, bind m k.

(** [self.logger.debug], [.info], [.error] *)
Definition log (r : log_record) : M unit :=
  modify (with_logger (λ l, l ++ [r])).

(** [self.STATS.update({k})] *)
Definition STATS_update (k : string) : M unit :=
  modify (with_STATS (λ c, set c k (S (count c k)))).

(** A write inside a [try]: [Some e] when the database raises [e] (nothing
    is written), [None] when the write is done. *)
Definition attempt (env : environment) (op : db_write) (effect : DB → DB)
    : M (option db_error) :=
  λ w, match raises env op (database w) with
       | Some e => (Normal (Some e), w)
       | None => (Normal None, with_database effect w)
       end.

(** [e.message] *)
Definition getattr_message (e : db_error) : M string :=
  match exn_message e with
  | Some m => ret m
  | None => raise (AttributeError "message")
  end.

(** ** The snapshot (lines 281 to 290) *)

(** [for item in News.objects.filter(...): self.cur[item.URN] = item] *)
Definition load_cur (prefix : string) (db : DB) : dict models.News :=
  foldl (λ d item, set d (models.URN item) item) []
    (News_filter_startswith prefix db).

(** [for item in News_Associations.objects.filter(...):
       KEY = str(item); self.cur_assoc[KEY] = item] *)
Fixpoint load_cur_assoc (rows : list models.News_Associations)
    (d : dict models.News_Associations)
    : result (dict models.News_Associations) :=
  match rows with
  | [] => Normal d
  | item :: rest =>
      match str_News_Associations item with
      | Normal KEY => load_cur_assoc rest (set d KEY item)
      | Raised e => Raised e
      end
  end.

(** ** The news items and their associations (lines 306 to 355) *)

(** Lines 307 to 312. *)
Definition TYPE (OutageType : string) : string :=
  if decide (OutageType = "Reconfiguration") then "Reconfiguration"
  else if decide (OutageType = "Partial") then "Outage Partial"
  else "Outage Full".

(** The handlers of lines 332 to 335 and 352 to 355:
    [msg = template.format(type(e).__name__, what, e.message)], then
    [self.logger.error(msg)] and [return(False, msg)]. *)
Definition saving_handler (template what : string) (e : db_error)
    : M (option (bool * string)) :=
  m ← getattr_message e;
  msg ← lift (format template [type_name e; what; m]);
  log (error (Text msg));;
  mret (Some (false, msg)).

(** The handlers of lines 363 to 364 and 373 to 374:
    [self.logger.error(template.format(type(e).__name__, what, e.message))]. *)
Definition deleting_handler (template what : string) (e : db_error) : M unit :=
  m ← getattr_message e;
  msg ← lift (format template [type_name e; what; m]);
  log (error (Text msg)).

(** The body of [for resource in p_res['AffectedInfrastructure']], lines 338
    to 355; [Some r] when the body executes [return r]. *)
Definition association_body (env : environment) (URN : string)
    (resource : string) : M (option (bool * string)) :=
  let assoc_type := "Resource" in
  let assoc_id := resource in
  KEY ← lift (format "{}->{}/{}" [URN; assoc_type; assoc_id]);
  w ← read;
  match get (cur_assoc w) KEY with
  | Some item =>
      modify (with_new_assoc (λ d, set d KEY item));;
      mret None
  | None =>
      let associated_item :=
        {| models.id := next_id (database w); models.NewsItem := URN;
           models.AssociatedType := assoc_type;
           models.AssociatedID := assoc_id |} in
      r ← attempt env (save_News_Associations URN assoc_type assoc_id)
            (db_insert_association URN assoc_type assoc_id);
      match r with
      | Some e => saving_handler "{} saving Assoc KEY={} ({}): {}" KEY e
      | None =>
          modify (with_new_assoc (λ d, set d KEY associated_item));;
          msg ← lift (format "Assoc KEY={}" [KEY]);
          log (debug (Text msg));;
          mret None
      end
  end.

(** The loop of line 337; it stops at the first [return]. *)
Fixpoint association_loop (env : environment) (URN : string)
    (resources : list string) : M (option (bool * string)) :=
  match resources with
  | [] => mret None
  | resource :: rest =>
      r ← association_body env URN resource;
      match r with
      | Some returned => mret (Some returned)
      | None => association_loop env URN rest
      end
  end.

(** The body of [for (URN, p_res) in merged_obj.items()], lines 307 to 355,
    for the object [p] that [merged_obj[URN]] refers to.  [parse_datetime]
    is called inside the [try], but what it raises is not caught there.
    [news_item.save()] (line 328) writes the row of line 315 once more. *)
Definition news_body (cfg : config) (env : environment) (URN : string)
    (p : p_res) : M (option (bool * string)) :=
  let TYPE := TYPE (OutageType p) in
  WEBURL ← lift (format
    "https://operations-api.access-ci.org/wh2/news/v1/id/{}/?format=html" [URN]);
  start ← lift (parse_datetime env (OutageStart p));
  end_ ← lift (parse_datetime env (OutageEnd p));
  let news_item :=
    {| models.URN := URN; models.Subject := Subject p;
       models.Content := Content p; models.NewsStart := start;
       models.NewsEnd := end_; models.NewsType := TYPE;
       models.DistributionOptions := None; models.WebURL := WEBURL;
       models.Affiliation := AFFILIATION cfg;
       models.Publisher := PUBLISHER cfg |} in
  r ← attempt env (update_or_create news_item) (db_update_or_create news_item);
  match r with
  | Some e => saving_handler "{} saving News URN={} ({}): {}" URN e
  | None =>
      r ← attempt env (save_News news_item) (db_update_or_create news_item);
      match r with
      | Some e => saving_handler "{} saving News URN={} ({}): {}" URN e
      | None =>
          modify (with_new (λ d, set d URN news_item));;
          STATS_update "Update";;
          msg ← lift (format "News URN={}" [URN]);
          log (debug (Text msg));;
          match AffectedInfrastructure p with
          | None => raise (KeyError "AffectedInfrastructure")
          | Some resources => association_loop env URN resources
          end
      end
  end.

(** The loop of line 306; it stops at the first [return]. *)
Fixpoint news_loop (cfg : config) (env : environment)
    (items : list (string * option p_res)) : M (option (bool * string)) :=
  match items with
  | [] => mret None
  | (URN, o) :: rest =>
      match o with
      | None => raise IndexError
      | Some p =>
          r ← news_body cfg env URN p;
          match r with
          | Some returned => mret (Some returned)
          | None => news_loop cfg env rest
          end
      end
  end.

(** ** The deletions (lines 357 to 374) *)

(** The body of [for KEY in self.cur_assoc], with [item] for
    [self.cur_assoc[KEY]]; [objects.get(pk=...)] raises [DoesNotExist], which
    nothing catches, when the row is gone. *)
Definition delete_association_body (env : environment) (KEY : string)
    (item : models.News_Associations) : M unit :=
  w ← read;
  if contains (new_assoc w) KEY then mret tt
  else
    let pk := models.id item in
    if bool_decide (pk ∈ models.id <$> News_Associations_objects (database w))
    then
      r ← attempt env (delete_News_Associations pk) (db_delete_association pk);
      match r with
      | Some e => deleting_handler "{} deleting Assoc KEY={}: {}" KEY e
      | None =>
          msg ← lift (format "Deleted Assoc KEY={}" [KEY]);
          log (info (Text msg))
      end
    else raise DoesNotExist.

(** The loop of line 358. *)
Fixpoint delete_association_loop (env : environment)
    (items : list (string * models.News_Associations)) : M unit :=
  match items with
  | [] => mret tt
  | (KEY, item) :: rest =>
      delete_association_body env KEY item;;
      delete_association_loop env rest
  end.

(** The body of [for URN in self.cur]. *)
Definition delete_news_body (env : environment) (URN : string) : M unit :=
  w ← read;
  if contains (new w) URN then mret tt
  else
    r ← attempt env (delete_News URN) (db_delete_news URN);
    match r with
    | Some e => deleting_handler "{} deleting News URN={}: {}" URN e
    | None =>
        STATS_update "Delete";;
        msg ← lift (format "Deleted News URN={}" [URN]);
        log (info (Text msg))
    end.

(** The loop of line 367. *)
Fixpoint delete_news_loop (env : environment) (URNs : list string) : M unit :=
  match URNs with
  | [] => mret tt
  | URN :: rest => delete_news_body env URN;; delete_news_loop env rest
  end.

(** ** [Warehouse_XSEDE_News] (lines 280 to 375) *)

(** The pass: the snapshot, the merge, the news items with their
    associations, the two loops of deletions, and [return(True, '')]. *)
Definition Warehouse_XSEDE_News (cfg : config) (env : environment)
    (input_obj : list p_res) : M (bool * string) :=
  modify (with_cur (λ _, []));;
  modify (with_new (λ _, []));;
  w ← read;
  modify (with_cur (λ _, load_cur (NEWSURNPREFIX cfg) (database w)));;
  modify (with_cur_assoc (λ _, []));;
  modify (with_new_assoc (λ _, []));;
  loaded ← lift (load_cur_assoc
    (News_Associations_filter_startswith (NEWSURNPREFIX cfg) (database w)) []);
  modify (with_cur_assoc (λ _, loaded));;
  '(merged_obj, objects) ← lift (merge cfg input_obj);
  r ← news_loop cfg env (merged_items merged_obj objects);
  match r with
  | Some returned => mret returned
  | None =>
      w ← read;
      delete_association_loop env (items (cur_assoc w));;
      w ← read;
      delete_news_loop env (keys (cur w));;
      mret (true, "")
  end.

(** ** One turn of the loop of [Run] (lines 385 to 414)

    for the destination [warehouse]; [SOURCE_DATA] is what [Read_Cache] or
    [Read_SOURCE] returned, [None] for Python's [None]. *)
(** [if SOURCE_DATA:] (line 393): false for [None] and for the empty list. *)
Definition truthy (SOURCE_DATA : option (list p_res)) : bool :=
  match SOURCE_DATA with
  | Some (_ :: _) => true
  | _ => false
  end.

(** Lines 386 to 414 once the source is read. *)
Definition Run_turn (cfg : config) (env : environment)
    (SOURCE_DATA : option (list p_res)) : M unit :=
  modify (with_STATS (λ _, []));;
  if truthy SOURCE_DATA then
    '(rc, warehouse_msg) ←
      Warehouse_XSEDE_News cfg env (default [] SOURCE_DATA);
    w ← read;
    let summary_msg :=
      Processed (count (STATS w) "Update") (count (STATS w) "Delete")
        (count (STATS w) "Skip") in
    log (info summary_msg);;
    if (rc : bool) then modify (with_activity (λ l, l ++ [(rc, summary_msg)]))
    else modify (with_activity (λ l, l ++ [(rc, Text warehouse_msg)]))
  else mret tt.

(** ** The other methods of [Router] *)

Module Router.

(** *** Values *)

(** An object that is decoded from JSON, read from the database or given on
    the command line: a [str], or any other object, the latter by what the
    methods observe of it: its truth value, the text [str()] gives and what
    [len()] gives, [None] when it has no length. *)
Inductive value :=
  | Str (s : string)
  | Other (truth : bool) (text : string) (len : option nat).

(** Python's [None] *)
Definition None_ : value := Other false "None" None.

(** [bool(v)] *)
Definition truth (v : value) : bool :=
  match v with
  | Str s => negb (bool_decide (s = ""))
  | Other b _ _ => b
  end.

(** [str(v)], what [{}] gives in a template *)
Definition text (v : value) : string :=
  match v with
  | Str s => s
  | Other _ t _ => t
  end.

(** What [argparse] gives for an option: the [str], or [None]. *)
Definition argument (a : option string) : value :=
  match a with
  | Some s => Str s
  | None => None_
  end.

(** *** Strings *)

(** [s.find(c)] for a character [c]: the least index, or -1. *)
Fixpoint find (s : string) (c : ascii) : Z :=
  match s with
  | EmptyString => -1
  | String a s' =>
      if decide (a = c) then 0
      else let i := find s' c in
           if decide (i = -1)%Z then -1 else i + 1
  end%Z.

Fixpoint str_take (n : nat) (s : string) : string :=
  match n, s with
  | S n', String a s' => String a (str_take n' s')
  | _, _ => EmptyString
  end.

Fixpoint str_drop (n : nat) (s : string) : string :=
  match n, s with
  | S n', String _ s' => str_drop n' s'
  | _, _ => s
  end.

(** [s[i:j]] and [s[i:]], for indices that are not negative *)
Definition slice (s : string) (i j : Z) : string :=
  str_take (Z.to_nat j - Z.to_nat i) (str_drop (Z.to_nat i) s).

Definition slice_from (s : string) (i : Z) : string :=
  str_drop (Z.to_nat i) s.

(** [s.split(sep)] for a character [sep] *)
Fixpoint split (s : string) (sep : ascii) : list string :=
  match s with
  | EmptyString => [EmptyString]
  | String a s' =>
      if decide (a = sep) then EmptyString :: split s' sep
      else match split s' sep with
           | h :: t => String a h :: t
           | [] => [String a EmptyString]
           end
  end.

(** [c in s] for a character [c] *)
Fixpoint has_char (s : string) (c : ascii) : bool :=
  match s with
  | EmptyString => false
  | String a s' => if decide (a = c) then true else has_char s' c
  end.

(** *** Statements: the log, exceptions and [sys.exit] *)

(** What leaves a method other than by its return: [sys.exit(code)], a
    [NameError], an error of the operating system, or an exception of the
    classes of the pass. *)
Inductive raised :=
  | SystemExit (code : nat)
  | NameError (name : string)
  | OSError
  | Uncaught (e : exception).

Inductive outcome (A : Type) :=
  | Returns (a : A)
  | Raises (r : raised).
Arguments Returns {A} a.
Arguments Raises {A} r.

(** A statement adds to the calls of [self.logger] and returns or raises. *)
Definition L (A : Type) : Type := list log_record → outcome A * list log_record.

#[global] Instance L_ret : MRet L := λ A a l, (Returns a, l).
#[global] Instance L_bind : MBind L := λ A B k m l,
  match m l with
  | (Returns a, l') => k a l'
  | (Raises r, l') => (Raises r, l')
  end.

Definition raise {A} (r : raised) : L A := λ l, (Raises r, l).

(** [sys.exit(code)] *)
Definition sys_exit {A} (code : nat) : L A := raise (SystemExit code).

(** [self.logger.debug], [.info], [.error] *)
Definition log (r : log_record) : L unit := λ l, (Returns tt, l ++ [r]).

(** a value or an exception from a computation without effect *)
Definition lift {A} (r : result A) : L A :=
  match r with
  | Normal a => mret a
  | Raised e => raise (Uncaught e)
  end.

(** ['prefix' + v]: a [TypeError] unless [v] is a [str]. *)
Definition concat (prefix : string) (v : value) : L string :=
  match v with
  | Str s => mret (prefix +:+ s)
  | Other _ _ _ => raise (Uncaught TypeError)
  end.

(** *** [Setup] (lines 114 to 195)

    Lines 89 to 112 configure the logging module, the standard streams of a
    daemon and the signal handlers, and log the start of the program; the
    model takes [Setup] up where it works on the arguments and on the
    configuration. *)

(** The attributes of [self.args] that [Setup] reads from line 114 on. *)
Record Args := {
  args_src : option string;
  args_dest : option string;
  daemonaction : option string
}.

(** [self.src] and [self.dest]: a dict of four keys, each [None] or a [str]. *)
Record endpoint := {
  uri : option string;
  scheme : option string;
  path : option string;
  display : option string
}.

(** A row of [News_Publisher], by the two fields that are read. *)
Record News_Publisher := {
  NewsURNPrefix : value;
  OrganizationName : value
}.

(** What is outside the repository: [settings.DATABASES['default']['HOST']],
    [News_Publisher.objects.get(pk=...)], [None] when it raises
    [DoesNotExist], and [self.config_file]. *)
Record environment := {
  HOST : string;
  News_Publisher_get : value → option News_Publisher;
  config_file : string
}.

(** The attributes of [self] that [Setup] assigns. *)
Record attributes := {
  src : endpoint;
  dest : endpoint;
  peak_sleep : nat;
  offpeak_sleep : nat;
  max_stale : nat;
  ORGANIZATIONID : value;
  PUBLISHER : News_Publisher;
  AFFILIATION : value;
  NEWSURNPREFIX : value;
  INPUTURNPREFIX : value;
  PUBLISHERNAME : value
}.

(** [self.config.get(key, default)] *)
Definition config_get (config : dict value) (key : string) (default : value)
    : value :=
  match get config key with
  | Some v => v
  | None => default
  end.

(** Lines 125 to 129, and 146 to 150: the argument, else the entry [key] of
    the configuration, else [fallback]. *)
Definition argument_or_config (arg : value) (config : dict value)
    (key fallback : string) : value :=
  let arg :=
    if negb (truth arg) then
      match get config key with
      | Some v => v
      | None => arg
      end
    else arg in
  if negb (truth arg) then Str fallback else arg.

(** Lines 130 to 144, for [self.args.src] as lines 125 to 129 leave it. *)
Definition Setup_src (arg : value) : L endpoint :=
  match arg with
  | Other _ _ _ => raise (Uncaught (AttributeError "find"))
  | Str s =>
      let idx := find s ":" in
      let '(scheme, path) :=
        if (0 <? idx)%Z then (slice s 0 idx, Some (slice_from s (idx + 1)))
        else (s, None) in
      if bool_decide (scheme ∉ ["file"; "http"; "https"]) then
        log (error (Text "Source not {file, http, https}"));;
        sys_exit 1
      else
        path ←
          (if bool_decide (scheme ∈ ["http"; "https"]) then
             match path with
             | None => raise (Uncaught TypeError)
             | Some p =>
                 if bool_decide (slice p 0 2 ≠ "//") then
                   log (error (Text ("Source URL not followed by " +:+
                                     String "034" ("//" +:+ String "034" ""))));;
                   sys_exit 1
                 else mret (Some (slice_from p 2))
             end
           else mret path);
        mret {| uri := Some s; scheme := Some scheme; path := path;
                display := Some s |}
  end.

(** Lines 151 to 163, for [self.args.dest] as lines 146 to 150 leave it. *)
Definition Setup_dest (env : environment) (arg : value) : L endpoint :=
  match arg with
  | Other _ _ _ => raise (Uncaught (AttributeError "find"))
  | Str s =>
      let idx := find s ":" in
      let '(scheme, path) :=
        if (0 <? idx)%Z then (slice s 0 idx, Some (slice_from s (idx + 1)))
        else (s, None) in
      if bool_decide (scheme ∉ ["file"; "analyze"; "warehouse"]) then
        log (error (Text "Destination not {file, analyze, warehouse}"));;
        sys_exit 1
      else
        display ←
          (if decide (scheme = "warehouse") then
             lift (format "{}@database={}" [scheme; HOST env])
           else mret s);
        mret {| uri := Some s; scheme := Some scheme; path := path;
                display := Some display |}
  end.

(** Lines 114 to 195.  [peak_sleep], [offpeak_sleep] and [max_stale] are the
    parameters of the method, in minutes. *)
Definition Setup (args : Args) (config : dict value) (env : environment)
    (peak_sleep offpeak_sleep max_stale : nat) : L attributes :=
  src ← Setup_src
    (argument_or_config (argument (args_src args)) config "SOURCE_URL"
       "file:./news.json");
  dest ← Setup_dest env
    (argument_or_config (argument (args_dest args)) config "DESTINATION"
       "analyze");
  if bool_decide (scheme src = Some "file" ∧ scheme dest = Some "file") then
    log (error (Text "Source and Destination can not both be a {file}"));;
    sys_exit 1
  else
    let ORGANIZATIONID := config_get config "ORGANIZATIONID" (Str "NONE") in
    if negb (truth ORGANIZATIONID) then
      log (error (Text "Required ORGANIZATIONID configuration is missing"));;
      sys_exit 1
    else
      match News_Publisher_get env ORGANIZATIONID with
      | None =>
          log (error (Text
            "Configured ORGANIZATIONID is not a registered News Publisher"));;
          sys_exit 1
      | Some PUBLISHER =>
          let AFFILIATION := config_get config "AFFILIATION" (Str "NONE") in
          let NEWSURNPREFIX :=
            if truth (NewsURNPrefix PUBLISHER) then NewsURNPrefix PUBLISHER
            else config_get config "NEWSURNPREFIX"
                   (Other true "['NONE']" (Some 1)) in
          let INPUTURNPREFIX :=
            config_get config "INPUTURNPREFIX" (Str "NONE") in
          let PUBLISHERNAME := OrganizationName PUBLISHER in
          (if decide (daemonaction args = Some "start") then
             if bool_decide (scheme src ∉ [Some "http"; Some "https"] ∨
                             scheme dest ∉ [Some "warehouse"]) then
               log (error (Text
                 "Can only daemonize when source=[http|https] and destination=warehouse"));;
               sys_exit 1
             else mret tt
           else mret tt);;
          msg ← concat "Source: " (argument (display src));
          log (info (Text msg));;
          msg ← concat "Destination: " (argument (display dest));
          log (info (Text msg));;
          log (info (Text ("Config: " +:+ config_file env)));;
          msg ← concat "Affiliation: " AFFILIATION;
          log (info (Text msg));;
          msg ← lift (format "Publisher: {} ({})"
                        [text PUBLISHERNAME; text ORGANIZATIONID]);
          log (info (Text msg));;
          msg ← concat "NewsURNPrefix: " NEWSURNPREFIX;
          log (info (Text msg));;
          msg ← concat "InputURNPrefix: " INPUTURNPREFIX;
          log (info (Text msg));;
          mret {| src := src; dest := dest;
                  peak_sleep := peak_sleep * 60;
                  offpeak_sleep := offpeak_sleep * 60;
                  max_stale := max_stale * 60;
                  ORGANIZATIONID := ORGANIZATIONID; PUBLISHER := PUBLISHER;
                  AFFILIATION := AFFILIATION; NEWSURNPREFIX := NEWSURNPREFIX;
                  INPUTURNPREFIX := INPUTURNPREFIX;
                  PUBLISHERNAME := PUBLISHERNAME |}
      end.

(** *** [Read_SOURCE] (lines 221 to 252) *)

(** The fields of [urlparse(url)] that are read. *)
Module urlp.
Record t := {
  scheme : string;
  netloc : string;
  path : string
}.
End urlp.

(** An HTTP response: [response.status], [response.reason] and what
    [response.read()] gives. *)
Record response := {
  status : nat;
  reason : string;
  body : string
}.

(** What is outside the repository: [urlparse]; the connection and the
    request to a host and port for a path, which return or raise; the
    response to it; and [json.loads], which gives the decoded object or
    raises [ValueError] with a text. *)
Record network (A : Type) := {
  urlparse : string → urlp.t;
  request : string → string → string → option raised;
  getresponse : string → string → string → outcome response;
  json_loads : string → A + string
}.
Arguments urlparse {A} n.
Arguments request {A} n.
Arguments getresponse {A} n.
Arguments json_loads {A} n.

(** Lines 229 to 234: the host and the port of the connection. *)
Definition host_port (u : urlp.t) : L (string * string) :=
  hp ←
    (if has_char (urlp.netloc u) ":" then
       match split (urlp.netloc u) ":" with
       | [host; port] => mret (host, port)
       | _ => raise (Uncaught ValueError)
       end
     else mret (urlp.netloc u, ""));
  let '(host, port) := hp in
  let port :=
    if decide (port = "") then
      if decide (urlp.scheme u = "http") then "80" else "443"
    else port in
  mret (host, port).

Definition Read_SOURCE {A} (net : network A) (url : string) : L (option A) :=
  let u := urlparse net url in
  if bool_decide (urlp.scheme u = "" ∨ urlp.netloc u = "" ∨ urlp.path u = "")
  then
    msg ← lift (format "SOURCE URL is not valid: {}" [url]);
    log (error (Text msg));;
    sys_exit 1
  else if bool_decide (urlp.scheme u ∉ ["http"; "https"]) then
    msg ← lift (format "SOURCE URL scheme is not valid: {}" [url]);
    log (error (Text msg));;
    sys_exit 1
  else
    '(host, port) ← host_port u;
    match request net host port (urlp.path u) with
    | Some r => raise r
    | None =>
        msg ← lift (format "HTTP GET  {}" [url]);
        log (debug (Text msg));;
        match getresponse net host port (urlp.path u) with
        | Raises r => raise r
        | Returns resp =>
            msg ← lift (format "HTTP RESP {} {} (returned {}/bytes)"
                          [pretty (status resp); reason resp;
                           pretty (String.length (body resp))]);
            log (debug (Text msg));;
            match json_loads net (body resp) with
            | inr e =>
                msg ← lift (format
                  "Response not in expected JSON format ({})" [e]);
                log (error (Text msg));;
                mret None
            | inl input_json => mret (Some input_json)
            end
        end
    end.

End Router.

(** ** [Analyze_SOURCE] (lines 254 to 258)

    A record of the feed is a dict here; the method works on [self.STATS]
    and on the log, as the pass does. *)

(** [p[k]] *)
Definition subscript (p : dict Router.value) (k : string) : M Router.value :=
  match get p k with
  | Some v => mret v
  | None => raise (KeyError k)
  end.

(** [len(v)] *)
Definition len (v : Router.value) : M nat :=
  match v with
  | Router.Str s => mret (String.length s)
  | Router.Other _ _ (Some n) => mret n
  | Router.Other _ _ None => raise TypeError
  end.

(** The body of [for p_res in input_obj]: the four arguments of [format]
    are evaluated from left to right, the fourth as well, which the
    template has no field for. *)
Definition Analyze_body (p : dict Router.value) : M unit :=
  STATS_update "Update";;
  view_node ← subscript p "view_node";
  affected ← subscript p "affected_infrastructure_elements";
  n ← len affected;
  start_timestamp ← subscript p "start_timestamp";
  resource_descriptive_name ← subscript p "resource_descriptive_name";
  msg ← lift (format
    ("Item={}, Affected={}, StartDatetime=" +:+
       String "034" ("{}" +:+ String "034" ""))
    [Router.text view_node; pretty n; Router.text start_timestamp;
     Router.text resource_descriptive_name]);
  log (info (Text msg)).

Fixpoint Analyze_SOURCE (input_obj : list (dict Router.value)) : M unit :=
  match input_obj with
  | [] => mret tt
  | p :: rest => Analyze_body p;; Analyze_SOURCE rest
  end.

(** ** One turn of the loop of [Run] for the destination [analyze]

    Lines 386 to 409 once the source is read.  [if SOURCE_DATA:] is false
    for [None] and for the empty list, and [FinishActivity] is called for
    the destination [warehouse] only. *)
Definition Run_turn_analyze (SOURCE_DATA : option (list (dict Router.value)))
    : M unit :=
  modify (with_STATS (λ _, []));;
  match SOURCE_DATA with
  | Some (p :: rest) =>
      Analyze_SOURCE (p :: rest);;
      w ← read;
      let summary_msg :=
        Processed (count (STATS w) "Update") (count (STATS w) "Delete")
          (count (STATS w) "Skip") in
      log (info summary_msg)
  | _ => mret tt
  end.

(** ** [exit] (lines 216 to 219) and the main program (lines 421 to 432) *)

(** [exit(rc)] for [rc] an [int] or [None]; [sys.exit(None)] ends the
    process with the status 0, as [sys.exit(0)] does. *)
Definition exit {A} (rc : option nat) : Router.L A :=
  match rc with
  | Some (S n) =>
      msg ← Router.lift (format "Exiting with rc={}" [pretty (S n)]);
      Router.log (error (Text msg));;
      Router.sys_exit (S n)
  | _ => Router.sys_exit 0
  end.

(** The main program once the router is made and the PID file is held.
    [Run] returns nothing, so that [rc] is [None] when it returns;
    [SystemExit] is no [Exception] and leaves the [try] as it came;
    [name] and [text] give [type(e).__name__] and [str(e)] of what is
    caught. *)
Definition main (Setup : Router.L Router.attributes)
    (Run : Router.attributes → Router.L unit)
    (name text : Router.raised → string) : Router.L Empty_set :=
  λ l,
    match (a ← Setup; Run a) l with
    | (Router.Returns _, l') => exit None l'
    | (Router.Raises (Router.SystemExit code), l') =>
        (Router.Raises (Router.SystemExit code), l')
    | (Router.Raises e, l') =>
        (msg ← Router.lift (format "{} Exception: {}" [name e; text e]);
         Router.log (error (Text msg));;
         exit (Some 1)) l'
    end.

(** ** Example data *)

(** The configuration and the batch of the example of the specification. *)
Definition example_cfg : config :=
  {| NEWSURNPREFIX := "urn:ogf:glue2:access-ci.org:news:";
     INPUTURNPREFIX := "xsede:";
     AFFILIATION := "access-ci.org";
     PUBLISHER := "xsede.org" |}.

(** A record as the feed gives it. *)
Definition feed_record (id oid rid kind subject : string) : p_res :=
  {| ID := id; OutageID := oid; ResourceID := Some rid; OutageType := kind;
     Subject := subject; Content := ""; OutageStart := None; OutageEnd := None;
     AffectedInfrastructure := None |}.

Definition example_batch : list p_res :=
  [ feed_record "xsede:1" "A" "r1" "Partial" "S";
    feed_record "xsede:1" "A" "r2" "Partial" "ignored" ].

(** A database layer in which no write fails. *)
Definition no_failure : environment :=
  {| raises := λ _ _, None;
     parse_datetime := λ o : option string, Normal (Datetime <$> o) |}.

(** Empty tables, and a world that has seen no pass. *)
Definition empty_DB : DB :=
  {| News_objects := []; News_Associations_objects := []; next_id := 1 |}.

Definition initial_world (db : DB) : world :=
  {| database := db; cur := []; new := []; cur_assoc := []; new_assoc := [];
     STATS := []; logger := []; activity := [] |}.

(** The world after the pass of the example batch over the empty tables:
    one news item and its two associations. *)
Definition example_world : world :=
  (Run_turn example_cfg no_failure (Some example_batch)
     (initial_world empty_DB)).2.

(** The rows of [example_world]. *)
Definition example_news : models.News :=
  {| models.URN := "urn:ogf:glue2:access-ci.org:news:A";
     models.Subject := "S"; models.Content := "";
     models.NewsStart := None; models.NewsEnd := None;
     models.NewsType := "Outage Partial"; models.DistributionOptions := None;
     models.WebURL :=
       "https://operations-api.access-ci.org/wh2/news/v1/id/urn:ogf:glue2:access-ci.org:news:A/?format=html";
     models.Affiliation := "access-ci.org"; models.Publisher := "xsede.org" |}.

Definition example_association (pk : nat) (resource : string)
    : models.News_Associations :=
  {| models.id := pk; models.NewsItem := "urn:ogf:glue2:access-ci.org:news:A";
     models.AssociatedType := "Resource"; models.AssociatedID := resource |}.


(** A later batch of the same outage, now on another resource. *)
Definition moved_batch : list p_res :=
  [ feed_record "xsede:1" "A" "r2" "Partial" "S" ].

(** A batch with one record, which the filter of line 296 skips. *)
Definition foreign_batch : list p_res :=
  [ feed_record "access:7" "B" "r9" "Full" "T" ].


Definition django_IntegrityError : db_error :=
  {| exn_class := IntegrityError; exn_message := None |}.

(** An exception object that does carry a [message]. *)
Definition DataError_with_message : db_error :=
  {| exn_class := DataError; exn_message := Some "value too long" |}.


(** A database layer that refuses to delete the association [pk] with [e]. *)
Definition delete_association_fails (pk : nat) (e : db_error) : environment :=
  {| raises := λ op _,
       match op with
       | delete_News_Associations pk' =>
           if decide (pk' = pk) then Some e else None
       | _ => None
       end;
     parse_datetime := λ o : option string, Normal (Datetime <$> o) |}.

(** Tables that hold a news item of another publisher and its association. *)
Definition other_news : models.News :=
  {| models.URN := "urn:ogf:glue2:tacc.utexas.edu:news:7";
     models.Subject := "Maintenance"; models.Content := "";
     models.NewsStart := None; models.NewsEnd := None;
     models.NewsType := "Maintenance"; models.DistributionOptions := None;
     models.WebURL := "https://tacc.utexas.edu/news/7";
     models.Affiliation := "access-ci.org";
     models.Publisher := "tacc.utexas.edu" |}.

Definition other_association : models.News_Associations :=
  {| models.id := 1; models.NewsItem := "urn:ogf:glue2:tacc.utexas.edu:news:7";
     models.AssociatedType := "Resource"; models.AssociatedID := "r1" |}.

Definition shared_DB : DB :=
  {| News_objects := [other_news];
     News_Associations_objects := [other_association]; next_id := 2 |}.

(** A later batch: the outage [A] is over, [B] is on one resource and [C]
    on two. *)
Definition later_batch : list p_res :=
  [ feed_record "xsede:2" "B" "r1" "Full" "T";
    feed_record "xsede:3" "C" "r2" "Full" "U";
    feed_record "xsede:3" "C" "r3" "Full" "U" ].

(** The command line, the configuration and the registered publisher of a
    daemon that reads the feed into the warehouse. *)
Definition example_args : Router.Args :=
  {| Router.args_src := Some "https://info.xsede.org/wh1/outages/v1/outages/Current/";
     Router.args_dest := Some "warehouse";
     Router.daemonaction := Some "start" |}.

Definition example_config : dict Router.value :=
  [ ("ORGANIZATIONID", Router.Str "xsede.org");
    ("AFFILIATION", Router.Str "access-ci.org");
    ("INPUTURNPREFIX", Router.Str "xsede:") ].

Definition example_publisher : Router.News_Publisher :=
  {| Router.NewsURNPrefix := Router.Str "urn:ogf:glue2:access-ci.org:news:";
     Router.OrganizationName := Router.Str "XSEDE" |}.

Definition example_environment : Router.environment :=
  {| Router.HOST := "localhost";
     Router.News_Publisher_get := λ pk,
       match pk with
       | Router.Str "xsede.org" => Some example_publisher
       | _ => None
       end;
     Router.config_file := "conf/convert_from_xsede.conf" |}.

(** A publisher that is registered with no URN prefix. *)
Definition bare_environment : Router.environment :=
  {| Router.HOST := "localhost";
     Router.News_Publisher_get := λ pk,
       match pk with
       | Router.Str "xsede.org" =>
           Some {| Router.NewsURNPrefix := Router.None_;
                   Router.OrganizationName := Router.Str "XSEDE" |}
       | _ => None
       end;
     Router.config_file := "conf/convert_from_xsede.conf" |}.

(** A command line whose source is of no scheme that is read, and one whose
    source is a scheme alone. *)
Definition ftp_args : Router.Args :=
  {| Router.args_src := Some "ftp://info.xsede.org/outages.json";
     Router.args_dest := None; Router.daemonaction := None |}.

Definition https_args : Router.Args :=
  {| Router.args_src := Some "https";
     Router.args_dest := None; Router.daemonaction := None |}.

(** A record as [Analyze_SOURCE] reads it, and a record of the outage feed
    as the pass reads it. *)
Definition analyzed_record : dict Router.value :=
  [ ("view_node", Router.Str "12345");
    ("affected_infrastructure_elements",
     Router.Other true "[{'SiteID': 'tacc.xsede.org'}]" (Some 1));
    ("start_timestamp", Router.Str "2023-02-16 08:00:00");
    ("resource_descriptive_name", Router.Str "TACC Stampede2") ].

Definition outage_record : dict Router.value :=
  [ ("ID", Router.Str "xsede:1"); ("OutageID", Router.Str "A");
    ("ResourceID", Router.Str "r1"); ("OutageType", Router.Str "Partial");
    ("Subject", Router.Str "S"); ("Content", Router.Str "");
    ("OutageStart", Router.None_); ("OutageEnd", Router.None_) ].

(** The parts of two URLs, and a server that answers every request with an
    empty list. *)
Definition example_urlp : Router.urlp.t :=
  {| Router.urlp.scheme := "https"; Router.urlp.netloc := "info.xsede.org";
     Router.urlp.path := "/wh1/outages/v1/outages/Current/" |}.

Definition ipv6_urlp : Router.urlp.t :=
  {| Router.urlp.scheme := "https"; Router.urlp.netloc := "[::1]:8443";
     Router.urlp.path := "/outages" |}.

Definition example_network : Router.network (list (dict Router.value)) :=
  {| Router.urlparse := λ url,
       if decide (url = "https://[::1]:8443/outages") then ipv6_urlp
       else example_urlp;
     Router.request := λ _ _ _, None;
     Router.getresponse := λ _ _ _,
       Router.Returns {| Router.status := 200; Router.reason := "OK";
                         Router.body := "[]" |};
     Router.json_loads := λ s,
       if decide (s = "[]") then inl [] else inr "Expecting value" |}.

(** The one record the merge makes of the example batch. *)
Definition example_merged : p_res :=
  {| ID := "xsede:1"; OutageID := "A"; ResourceID := None;
     OutageType := "Partial"; Subject := "S"; Content := "";
     OutageStart := None; OutageEnd := None;
     AffectedInfrastructure := Some ["r1"; "r2"] |}.

(** ** Notions the statements use *)

(** The record passes the filter of line 296. *)
Definition passes (cfg : config) (p : p_res) : Prop :=
  startswith (ID p) (INPUTURNPREFIX cfg).

#[global] Instance passes_dec cfg p : Decision (passes cfg p).
Proof. unfold passes. apply _. Defined.

(** The URN of line 298. *)
Definition URN_of (cfg : config) (p : p_res) : string :=
  NEWSURNPREFIX cfg +:+ OutageID p.

(** The records of a batch that pass the filter and bear the URN. *)
Definition group (cfg : config) (URN : string) (batch : list p_res)
    : list p_res :=
  filter (λ p, passes cfg p ∧ URN_of cfg p = URN) batch.

(** The elements of a list in the order of their first occurrence. *)
Definition first_seen (l : list string) : list string :=
  foldl (λ acc x, if bool_decide (x ∈ acc) then acc else acc ++ [x]) [] l.

(** The record has the key [ResourceID]. *)
Definition has_ResourceID (p : p_res) : Prop := is_Some (ResourceID p).

#[global] Instance has_ResourceID_dec p : Decision (has_ResourceID p).
Proof. unfold has_ResourceID. apply _. Defined.

(** What the loop of lines 294 to 304 has established once the first [k]
    records of the batch are done. *)
Definition merge_inv (cfg : config) (batch : list p_res) (k : nat)
    (st : dict nat * list p_res) : Prop :=
  length st.2 = length batch ∧
  keys st.1 = first_seen (URN_of cfg <$> filter (passes cfg) (take k batch)) ∧
  (∀ URN j, get st.1 URN = Some j →
     j < k ∧ ∃ p, batch !! j = Some p ∧ passes cfg p ∧ URN_of cfg p = URN ∧
       (∀ j' q, j' < j → batch !! j' = Some q → passes cfg q →
          URN_of cfg q ≠ URN) ∧
       st.2 !! j =
         Some (set_AffectedInfrastructure (pop_ResourceID p)
                 (omap ResourceID (group cfg URN (take k batch))))) ∧
  (∀ i, (∀ URN, get st.1 URN ≠ Some i) → st.2 !! i = batch !! i).

(** The position [i] of the batch holds the first record of its group. *)
Definition first_of_group (cfg : config) (batch : list p_res) (i : nat)
    : Prop :=
  ∃ p, batch !! i = Some p ∧ passes cfg p ∧
    ∀ j q, j < i → batch !! j = Some q → passes cfg q →
      URN_of cfg q ≠ URN_of cfg p.

(** The key of line 341. *)
Definition KEY_of (URN assoc_type assoc_id : string) : string :=
  URN +:+ "->" +:+ assoc_type +:+ "/" +:+ assoc_id.

(** The URNs of the news items of the namespace. *)
Definition persisted_URNs (cfg : config) (db : DB) : list string :=
  models.URN <$> News_filter_startswith (NEWSURNPREFIX cfg) db.

(** The key of an association row, [str(item)]. *)
Definition key_of (item : models.News_Associations) : string :=
  KEY_of (models.NewsItem item) (models.AssociatedType item)
    (models.AssociatedID item).

(** The keys of the associations of the namespace, one per row. *)
Definition persisted_keys (cfg : config) (db : DB) : list string :=
  key_of <$> News_Associations_filter_startswith (NEWSURNPREFIX cfg) db.

(** The URNs of the merged batch. *)
Definition merged_URNs (merged : list (string * option p_res)) : list string :=
  merged.*1.

(** The keys of the pairs of a URN and one of its resources in the merged
    batch, one per occurrence. *)
Definition merged_keys (merged : list (string * option p_res)) : list string :=
  merged ≫= λ kv,
    KEY_of kv.1 "Resource" <$> default [] (kv.2 ≫= AffectedInfrastructure).

(** The world once lines 281 to 290 have run. *)
Definition snapshot (cfg : config) (w : world) : world :=
  {| database := database w;
     cur := load_cur (NEWSURNPREFIX cfg) (database w);
     new := [];
     cur_assoc :=
       foldl (λ d item, set d (key_of item) item) []
         (News_Associations_filter_startswith (NEWSURNPREFIX cfg) (database w));
     new_assoc := [];
     STATS := STATS w; logger := logger w; activity := activity w |}.

(** The entries of [self.cur_assoc] that the loop of line 358 deletes. *)
Definition obsolete_associations (new_assoc : dict models.News_Associations)
    (items : list (string * models.News_Associations))
    : list models.News_Associations :=
  (filter (λ kv, ¬ contains new_assoc kv.1) items).*2.

(** The keys of [self.cur] that the loop of line 367 deletes. *)
Definition obsolete_news (new : dict models.News) (URNs : list string)
    : list string :=
  filter (λ URN, ¬ contains new URN) URNs.

(** The two worlds differ at most in the database, the counters and the
    log. *)
Definition same_dicts (w w' : world) : Prop :=
  cur w' = cur w ∧ new w' = new w ∧ cur_assoc w' = cur_assoc w ∧
  new_assoc w' = new_assoc w ∧ activity w' = activity w.

(** What the merge yields, read off the batch: one entry per URN in the order
    of first occurrence, each the first record of its group without
    [ResourceID] and with the [ResourceID]s of the group, in their order, as
    [AffectedInfrastructure]. *)
Definition merged_spec (cfg : config) (batch : list p_res)
    : list (string * option p_res) :=
  (λ URN,
     (URN,
      (λ p, set_AffectedInfrastructure (pop_ResourceID p)
              (omap ResourceID (group cfg URN batch)))
        <$> head (group cfg URN batch)))
    <$> first_seen (URN_of cfg <$> filter (passes cfg) batch).

(** No write is refused. *)
Definition never_raises (env : environment) : Prop :=
  ∀ op db, raises env op db = None.

(** What the loop of lines 306 to 355 has established, from the world [w0]
    of line 305 on, once the news items of the URNs [U] with the keys [K] of
    their resources are done: [self.new] and [self.new_assoc] hold them, the
    news items are in [News], and every key that the snapshot did not have
    has a row added to [News_Associations]. *)
Definition news_inv (w0 : world) (U K : list string) (w1 : world) : Prop :=
  cur w1 = cur w0 ∧ cur_assoc w1 = cur_assoc w0 ∧
  (∀ u, u ∈ keys (new w1) ↔ u ∈ U) ∧
  (∀ k, k ∈ keys (new_assoc w1) ↔ k ∈ K) ∧
  (∀ u, u ∈ models.URN <$> News_objects (database w1) ↔
        u ∈ models.URN <$> News_objects (database w0) ∨ u ∈ U) ∧
  (next_id (database w0) ≤ next_id (database w1))%nat ∧
  ∃ added,
    News_Associations_objects (database w1) =
      News_Associations_objects (database w0) ++ added ∧
    Forall (λ b, models.NewsItem b ∈ U ∧ key_of b ∈ K ∧
                 (next_id (database w0) ≤ models.id b)%nat) added ∧
    (∀ k, k ∈ K →
       k ∈ keys (cur_assoc w0) ∨ ∃ b, b ∈ added ∧ key_of b = k).

(** Unfolds the statements down to functions on worlds. *)
(** *** What a statement keeps *)

(** The statement [m] leaves the world in the relation [R] to the world it
    started from, whether it returns or raises. *)
Definition keeps {A} (R : world → world → Prop) (m : M A) : Prop :=
  ∀ w, R w (m w).2.

(** The counters other than [Update] and [Delete] are as before. *)
Definition other_counters (w w' : world) : Prop :=
  ∀ k, k ≠ "Update" → k ≠ "Delete" → count (STATS w') k = count (STATS w) k.

(** The rows of the tables outside the namespace of [prefix]. *)
Definition foreign_News (prefix : string) (db : DB) : list models.News :=
  filter (λ item, ¬ startswith (models.URN item) prefix) (News_objects db).

Definition foreign_News_Associations (prefix : string) (db : DB)
    : list models.News_Associations :=
  filter (λ item, ¬ startswith (models.NewsItem item) prefix)
    (News_Associations_objects db).

(** Where the rows outside the namespace were [N] and [A], they still are. *)
Definition foreign_rows (prefix : string) (N : list models.News)
    (A : list models.News_Associations) (w w' : world) : Prop :=
  foreign_News prefix (database w) = N ∧
  foreign_News_Associations prefix (database w) = A →
  foreign_News prefix (database w') = N ∧
  foreign_News_Associations prefix (database w') = A.

(** [self.cur] and [self.cur_assoc] are as before. *)
Definition same_snapshot (w w' : world) : Prop :=
  cur w' = cur w ∧ cur_assoc w' = cur_assoc w.

(** The counters are as before. *)
Definition same_STATS (w w' : world) : Prop := STATS w' = STATS w.

(** [self.new] is as before. *)
Definition same_new (w w' : world) : Prop := new w' = new w.

(** *** The other methods *)

(** How [Setup_src] and [Setup_dest] end when they do not return. *)
Definition stopped (l : list log_record) (r : Router.raised)
    (l' : list log_record) : Prop :=
  (r = Router.SystemExit 1 ∧ ∃ msg, l' = l ++ [error (Text msg)]) ∨
  (r = Router.Uncaught TypeError ∧ l' = l) ∨
  (r = Router.Uncaught (AttributeError "find") ∧ l' = l).

(** The keys [Analyze_SOURCE] reads of a record, in the order it reads
    them. *)
Definition analyzed_keys : list string :=
  ["view_node"; "affected_infrastructure_elements"; "start_timestamp";
   "resource_descriptive_name"].

(** The record has the four keys, and [len()] of its affected elements. *)
Definition analyzable (p : dict Router.value) : Prop :=
  Forall (λ k, is_Some (get p k)) analyzed_keys ∧
  ∀ b text, get p "affected_infrastructure_elements" ≠
              Some (Router.Other b text None).

(** The text of line 258. *)
Definition Item_text (view_node affected start_timestamp : string) : string :=
  "Item=" +:+ view_node +:+ ", Affected=" +:+ affected +:+
  ", StartDatetime=" +:+ String "034" (start_timestamp +:+ String "034" "").

(** *** Tables in step with a batch *)

(** The row of lines 315 to 326 for the news item [URN] of the record [p],
    with what [parse_datetime] gave for its start and its end. *)
Definition news_row (cfg : config) (URN : string) (p : p_res)
    (start end_ : option datetime) : models.News :=
  {| models.URN := URN; models.Subject := Subject p;
     models.Content := Content p; models.NewsStart := start;
     models.NewsEnd := end_; models.NewsType := TYPE (OutageType p);
     models.DistributionOptions := None;
     models.WebURL :=
       "https://operations-api.access-ci.org/wh2/news/v1/id/" +:+ URN +:+
       "/?format=html";
     models.Affiliation := AFFILIATION cfg;
     models.Publisher := PUBLISHER cfg |}.

(** [News] holds the news item of the record as the pass writes it: there
    is a row of that URN, and every row of that URN is the row of lines 315
    to 326. *)
Definition holds_news (cfg : config) (env : environment) (db : DB)
    (URN : string) (p : p_res) : Prop :=
  ∀ start end_,
    parse_datetime env (OutageStart p) = Normal start →
    parse_datetime env (OutageEnd p) = Normal end_ →
    URN ∈ models.URN <$> News_objects db ∧
    ∀ item, item ∈ News_objects db → models.URN item = URN →
      item = news_row cfg URN p start end_.

(** The tables are in step with the batch: [News] holds the news item of
    every merged record, the keys of the associations of the namespace are
    those of the merged pairs, and the namespace has no other news item. *)
Definition in_step (cfg : config) (env : environment) (batch : list p_res)
    (db : DB) : Prop :=
  (∀ URN p, (URN, Some p) ∈ merged_spec cfg batch →
     holds_news cfg env db URN p) ∧
  (∀ KEY, KEY ∈ persisted_keys cfg db ↔
          KEY ∈ merged_keys (merged_spec cfg batch)) ∧
  (∀ URN, URN ∈ persisted_URNs cfg db →
          URN ∈ merged_URNs (merged_spec cfg batch)).

(** The statement wrote nothing and forgot nothing: the tables and the
    snapshot are as before, and [self.new] and [self.new_assoc] have the
    keys they had. *)
Definition quiet (w w' : world) : Prop :=
  database w' = database w ∧ cur w' = cur w ∧ cur_assoc w' = cur_assoc w ∧
  (∀ u, u ∈ keys (new w) → u ∈ keys (new w')) ∧
  (∀ k, k ∈ keys (new_assoc w) → k ∈ keys (new_assoc w')).

(** The rows of [News] of the URN. *)
Definition rows_of (URN : string) (db : DB) : list models.News :=
  filter (λ item, models.URN item = URN) (News_objects db).

(** The rows of the URN are as before. *)
Definition same_rows (URN : string) (w w' : world) : Prop :=
  rows_of URN (database w') = rows_of URN (database w).

(** [News] is as before. *)
Definition same_News (w w' : world) : Prop :=
  News_objects (database w') = News_objects (database w).

Ltac unfold_M :=
  unfold mbind, M_bind, mret, M_ret, bind, ret, read, modify, lift, raise,
    log, STATS_update, attempt, getattr_message.

(** Unfolds the statements of [Router] down to functions on logs. *)
Ltac unfold_L :=
  unfold mbind, Router.L_bind, mret, Router.L_ret, Router.log, Router.sys_exit,
    Router.lift, Router.concat, Router.raise.

(** * Lemmas *)

(** ** Dictionaries *)

Section dict_lemmas.
Context {V : Type}.
Implicit Types (d : dict V) (k : string) (v : V).

Lemma get_is_Some d k : is_Some (get d k) ↔ k ∈ keys d.
Proof.
  unfold keys. induction d as [|[k' v'] d IH]; simpl.
  - split; [intros [? ?]; done | intros ?%elem_of_nil; done].
  - rewrite elem_of_cons. case_decide; subst.
    + split; [by left | eauto].
    + rewrite IH. split; [by right | by intros [?|?]].
Qed.

Lemma get_None d k : get d k = None ↔ k ∉ keys d.
Proof. rewrite <- get_is_Some, eq_None_not_Some. done. Qed.

Lemma contains_true d k : contains d k = true ↔ k ∈ keys d.
Proof.
  rewrite <- get_is_Some. unfold contains.
  destruct (get d k).
  - split; eauto.
  - split; [done | intros [? ?]; done].
Qed.

Lemma contains_false d k : contains d k = false ↔ k ∉ keys d.
Proof. rewrite <- contains_true. destruct (contains d k); naive_solver. Qed.

Lemma get_set_eq d k v : get (set d k v) k = Some v.
Proof.
  induction d as [|[k' v'] d IH]; simpl.
  - by rewrite decide_True.
  - case_decide; simpl; [by rewrite decide_True | by rewrite decide_False].
Qed.

Lemma get_set_ne d k k' v : k ≠ k' → get (set d k v) k' = get d k'.
Proof.
  intros Hne. induction d as [|[k0 v0] d IH]; simpl.
  - by rewrite decide_False.
  - case_decide; simpl; subst.
    + by rewrite !decide_False.
    + case_decide; done.
Qed.

Lemma set_absent d k v : k ∉ keys d → set d k v = d ++ [(k, v)].
Proof.
  unfold keys. induction d as [|[k0 v0] d IH]; simpl; [done|].
  rewrite not_elem_of_cons. intros [Hne Hd].
  rewrite decide_False by done. by rewrite IH.
Qed.

Lemma keys_set_present d k v : k ∈ keys d → keys (set d k v) = keys d.
Proof.
  unfold keys. induction d as [|[k0 v0] d IH]; simpl.
  - intros ?%elem_of_nil. done.
  - case_decide; simpl; [done|].
    rewrite elem_of_cons. intros [?|?]; [congruence|]. f_equal. by apply IH.
Qed.

Lemma elem_of_get d k v : NoDup (keys d) → (k, v) ∈ d → get d k = Some v.
Proof.
  unfold keys. induction d as [|[k0 v0] d IH]; simpl.
  - intros _ ?%elem_of_nil. done.
  - rewrite NoDup_cons, elem_of_cons. intros [Hk0 Hnd] [Heq|Hin].
    + simplify_eq. by rewrite decide_True.
    + rewrite decide_False; [auto|].
      intros ->. apply Hk0. apply list_elem_of_fmap. by exists (k, v).
Qed.

End dict_lemmas.

(** ** Strings and [format] *)

Lemma app_empty_r (s : string) : s +:+ "" = s.
Proof.
  induction s as [|c s IH]; [done|].
  change (String c (s +:+ "") = String c s). by f_equal.
Qed.

(** ** The order of first occurrence *)

Lemma first_seen_snoc l x :
  first_seen (l ++ [x]) =
    if bool_decide (x ∈ first_seen l) then first_seen l
    else first_seen l ++ [x].
Proof. unfold first_seen. by rewrite foldl_app. Qed.

Lemma elem_of_first_seen l x : x ∈ first_seen l ↔ x ∈ l.
Proof.
  induction l as [|y l IH] using rev_ind.
  - done.
  - rewrite first_seen_snoc. case_bool_decide as Hy.
    + rewrite elem_of_app, list_elem_of_singleton, <- IH.
      split; [auto | intros [?| ->]; done].
    + by rewrite !elem_of_app, IH.
Qed.

Lemma NoDup_first_seen l : NoDup (first_seen l).
Proof.
  induction l as [|y l IH] using rev_ind.
  - constructor.
  - rewrite first_seen_snoc. case_bool_decide as Hy; [done|].
    apply NoDup_app. split_and!; [done | | apply NoDup_singleton].
    intros z Hz ->%list_elem_of_singleton. done.
Qed.

(** ** The merge loop *)

Lemma merge_loop_app cfg l1 l2 st :
  merge_loop cfg (l1 ++ l2) st =
    match merge_loop cfg l1 st with
    | Normal st' => merge_loop cfg l2 st'
    | Raised e => Raised e
    end.
Proof.
  revert st. induction l1 as [|i l1 IH]; intros st; simpl; [done|].
  destruct (merge_body cfg i st); [apply IH | done].
Qed.

Lemma filter_snoc {A} (P : A → Prop) `{!∀ x, Decision (P x)} l x :
  filter P (l ++ [x]) = if decide (P x) then filter P l ++ [x] else filter P l.
Proof.
  rewrite filter_app. case_decide.
  - by rewrite (filter_cons_True P).
  - rewrite (filter_cons_False P) by done. by rewrite filter_nil, app_nil_r.
Qed.

Lemma filter_none {A} (P : A → Prop) `{!∀ x, Decision (P x)} l :
  (∀ x, x ∈ l → ¬ P x) → filter P l = [].
Proof.
  induction l as [|x l IH]; intros Hl; [done|].
  rewrite filter_cons_False by (apply Hl; left).
  apply IH. intros y Hy. apply Hl. by right.
Qed.

Lemma group_snoc cfg URN l p :
  group cfg URN (l ++ [p]) =
    if decide (passes cfg p ∧ URN_of cfg p = URN) then group cfg URN l ++ [p]
    else group cfg URN l.
Proof. unfold group. by rewrite filter_snoc. Qed.

Lemma URN_seen cfg batch k j q :
  j < k → batch !! j = Some q → passes cfg q →
  URN_of cfg q ∈ first_seen (URN_of cfg <$> filter (passes cfg) (take k batch)).
Proof.
  intros Hjk Hj Hq. apply elem_of_first_seen, list_elem_of_fmap_2.
  apply list_elem_of_filter. split; [done|].
  apply list_elem_of_lookup. exists j. by rewrite lookup_take_lt.
Qed.

Lemma group_unseen cfg batch k URN :
  URN ∉ first_seen (URN_of cfg <$> filter (passes cfg) (take k batch)) →
  group cfg URN (take k batch) = [].
Proof.
  intros Hno. unfold group. apply filter_none.
  intros q Hq [Hpass HU]. apply Hno. subst URN.
  apply elem_of_first_seen, list_elem_of_fmap_2, list_elem_of_filter. done.
Qed.

Lemma merge_body_inv cfg batch k p st :
  batch !! k = Some p → has_ResourceID p →
  merge_inv cfg batch k st →
  ∃ st', merge_body cfg k st = Normal st' ∧ merge_inv cfg batch (S k) st'.
Proof.
  destruct st as [m objs].
  intros Hk [r Hr] (Hlen & Hkeys & Hget & Hother); simpl in *.
  assert (Hobjk : objs !! k = Some p).
  { rewrite Hother; [done|]. intros URN [? _]%Hget. lia. }
  unfold merge_body, merge_inv. rewrite Hobjk, (take_S_r _ _ _ Hk).
  rewrite filter_snoc.
  destruct (startswith (ID p) (INPUTURNPREFIX cfg)) eqn:Hpass; simpl.
  - assert (Hp : passes cfg p) by (unfold passes; by rewrite Hpass).
    rewrite decide_True by done.
    rewrite fmap_app. change (URN_of cfg <$> [p]) with [URN_of cfg p].
    rewrite first_seen_snoc, <- Hkeys. simpl.
    rewrite app_empty_r, Hr. fold (URN_of cfg p).
    destruct (contains m (URN_of cfg p)) eqn:Hc.
    + pose proof Hc as Hin%contains_true.
      apply get_is_Some in Hin as Hj. destruct Hj as [j Hj].
      rewrite Hj.
      destruct (Hget _ _ Hj) as (Hjk & q & Hbj & Hq & HqU & Hfirst & Hoj).
      rewrite Hoj. simpl. eexists. split; [done|]. simpl.
      rewrite bool_decide_true by done. split_and!.
      * by rewrite length_insert.
      * done.
      * intros URN' j' Hj'.
        destruct (Hget _ _ Hj') as (Hjk' & q' & Hbj' & Hq' & HqU' & Hf' & Hoj').
        split; [lia|]. exists q'. split_and!; try done.
        rewrite group_snoc.
        destruct (decide (URN' = URN_of cfg p)) as [->|Hne].
        -- assert (j' = j) as -> by congruence.
           rewrite decide_True by done.
           rewrite list_lookup_insert_eq by (by eapply lookup_lt_Some).
           rewrite omap_app. simpl. rewrite Hr. simpl.
           assert (q' = q) as -> by congruence. done.
        -- rewrite decide_False by (intros [_ ?]; done).
           rewrite list_lookup_insert_ne; [done|].
           intros ->. apply Hne. congruence.
      * intros i Hi. rewrite list_lookup_insert_ne; [auto|].
        intros ->. by apply (Hi (URN_of cfg p)).
    + pose proof Hc as Hnot%contains_false.
      rewrite get_set_eq.
      assert (Hlt : k < length objs) by (by eapply lookup_lt_Some).
      rewrite list_lookup_insert_eq by done. simpl.
      eexists. split; [done|]. simpl.
      rewrite bool_decide_false by done. split_and!.
      * by rewrite !length_insert.
      * rewrite set_absent by done. unfold keys. by rewrite fmap_app.
      * intros URN' j'.
        destruct (decide (URN' = URN_of cfg p)) as [->|Hne].
        -- rewrite get_set_eq. intros [= <-]. split; [lia|].
           exists p. split_and!; try done.
           ++ intros j' q Hj' Hq Hqp HU. apply Hnot. rewrite Hkeys, <- HU.
              by eapply URN_seen.
           ++ rewrite list_lookup_insert_eq by (by rewrite length_insert).
              rewrite group_snoc, decide_True by done.
              rewrite group_unseen by (by rewrite <- Hkeys).
              simpl. by rewrite Hr.
        -- rewrite get_set_ne by done. intros Hj'.
           destruct (Hget _ _ Hj') as (Hjk' & q' & Hbj' & Hq' & HqU' & Hf' & Hoj').
           split; [lia|]. exists q'. split_and!; try done.
           rewrite !list_lookup_insert_ne by lia.
           rewrite group_snoc, decide_False by (intros [_ ?]; done). done.
      * intros i Hi.
        assert (i ≠ k).
        { intros ->. apply (Hi (URN_of cfg p)). by rewrite get_set_eq. }
        rewrite !list_lookup_insert_ne by done. apply Hother.
        intros URN HU. apply (Hi URN). rewrite get_set_ne; [done|].
        intros <-. apply Hnot, get_is_Some. eauto.
  - assert (Hp : ¬ passes cfg p) by (unfold passes; rewrite Hpass; intros []).
    rewrite decide_False by done.
    eexists. split; [done|]. simpl. split_and!; try done.
    + intros URN j Hj.
      destruct (Hget _ _ Hj) as (Hjk & q & Hbj & Hq & HqU & Hfirst & Hoj).
      split; [lia|]. exists q. split_and!; try done.
      rewrite group_snoc, decide_False by (intros [? _]; done). done.
Qed.

Lemma merge_loop_inv cfg batch (k : nat) :
  Forall has_ResourceID batch → (k ≤ length batch)%nat →
  ∃ st, merge_loop cfg (seq 0 k) ([], batch) = Normal st ∧
        merge_inv cfg batch k st.
Proof.
  intros Hall. induction k as [|k IH]; intros Hk.
  - exists ([], batch). split; [done|]. unfold merge_inv; simpl.
    split_and!; done.
  - destruct IH as (st & Hrun & Hinv); [lia|].
    destruct (lookup_lt_is_Some_2 batch k) as [p Hp]; [lia|].
    destruct (merge_body_inv cfg batch k p st) as (st' & Hbody & Hinv');
      [done | | done |].
    { eapply Forall_lookup_1; eauto. }
    exists st'. split; [|done].
    rewrite seq_S, merge_loop_app, Hrun. simpl. by rewrite Hbody.
Qed.

Lemma merge_correct cfg batch :
  Forall has_ResourceID batch →
  ∃ merged_obj objects,
    merge cfg batch = Normal (merged_obj, objects) ∧
    merge_inv cfg batch (length batch) (merged_obj, objects).
Proof.
  intros Hall.
  destruct (merge_loop_inv cfg batch (length batch)) as ([m objs] & ? & ?);
    [done | lia |].
  by exists m, objs.
Qed.

Lemma head_group_first cfg batch URN j p :
  batch !! j = Some p → passes cfg p → URN_of cfg p = URN →
  (∀ j' q, j' < j → batch !! j' = Some q → passes cfg q →
     URN_of cfg q ≠ URN) →
  head (group cfg URN batch) = Some p.
Proof.
  intros Hj Hp HU Hfirst.
  rewrite <- (take_drop_middle batch j p Hj). unfold group.
  rewrite filter_app, (filter_none _ (take j batch)).
  - by rewrite filter_cons_True.
  - intros q [j' [Hq Hlt]]%elem_of_take [Hpass HqU].
    by eapply Hfirst.
Qed.

Lemma URN_of_inj cfg p q : URN_of cfg p = URN_of cfg q ↔ OutageID p = OutageID q.
Proof.
  unfold URN_of. split; [|by intros ->].
  apply String.app_inj.
Qed.

Lemma merged_position cfg batch m objs i p :
  merge_inv cfg batch (length batch) (m, objs) →
  batch !! i = Some p → passes cfg p →
  (∀ j q, j < i → batch !! j = Some q → passes cfg q →
     URN_of cfg q ≠ URN_of cfg p) →
  get m (URN_of cfg p) = Some i.
Proof.
  intros (Hlen & Hkeys & Hget & Hother) Hi Hp Hfirst; simpl in *.
  assert (Hin : URN_of cfg p ∈ keys m).
  { rewrite Hkeys. eapply URN_seen; eauto. by eapply lookup_lt_Some. }
  apply get_is_Some in Hin as [j Hj]. rewrite Hj. f_equal.
  destruct (Hget _ _ Hj) as (Hjk & q & Hbj & Hq & HqU & Hfirstj & Hoj).
  destruct (Nat.lt_trichotomy j i) as [Hlt|[->|Hgt]]; [|done|].
  - exfalso. by eapply (Hfirst j q).
  - exfalso. by eapply (Hfirstj i p).
Qed.

Lemma Some_omap_ResourceID l :
  Forall has_ResourceID l → Some <$> omap ResourceID l = ResourceID <$> l.
Proof.
  induction 1 as [|p l [r Hr] _ IH]; [done|].
  simpl. rewrite Hr. simpl. f_equal. apply IH.
Qed.

Lemma merged_items_spec cfg batch m objs :
  merge_inv cfg batch (length batch) (m, objs) →
  merged_items m objs = merged_spec cfg batch.
Proof.
  intros (Hlen & Hkeys & Hget & Hother); simpl in *.
  rewrite firstn_all in *.
  unfold merged_items, merged_spec, items. rewrite <- Hkeys. unfold keys.
  rewrite <- list_fmap_compose.
  assert (Hnd : NoDup (keys m)) by (rewrite Hkeys; apply NoDup_first_seen).
  apply list_fmap_ext. intros n [URN j] Hn. simpl.
  apply list_elem_of_lookup_2, (elem_of_get _ _ _ Hnd) in Hn.
  destruct (Hget _ _ Hn) as (Hjk & q & Hbj & Hq & HqU & Hfirst & Hoj).
  rewrite Hoj, (head_group_first cfg batch URN j q); done.
Qed.

Lemma length_first_seen_fmap {A} `{EqDecision A} (f : A → string)
    `{!Inj (=) (=) f} (l : list A) :
  length (first_seen (f <$> l)) = length (remove_dups l).
Proof.
  rewrite <- (length_fmap f (remove_dups l)).
  apply Permutation_length, NoDup_Permutation.
  - apply NoDup_first_seen.
  - apply NoDup_fmap_2; [done | apply NoDup_remove_dups].
  - intros x. rewrite elem_of_first_seen, !list_elem_of_fmap.
    by setoid_rewrite elem_of_remove_dups.
Qed.

Lemma group_filter_passes cfg URN batch :
  group cfg URN (filter (passes cfg) batch) = group cfg URN batch.
Proof. unfold group. apply list_filter_filter_l. by intros p [? _]. Qed.

Lemma merged_spec_filter_passes cfg batch :
  merged_spec cfg (filter (passes cfg) batch) = merged_spec cfg batch.
Proof.
  unfold merged_spec. rewrite list_filter_filter_l by done.
  apply list_fmap_ext. intros _ URN _. by rewrite group_filter_passes.
Qed.

(** ** Steps of the pass when no write is refused *)

Lemma delete_association_body_skip env KEY item w :
  contains (new_assoc w) KEY = true →
  delete_association_body env KEY item w = (Normal tt, w).
Proof.
  intros H. unfold delete_association_body. unfold_M. by rewrite H.
Qed.

Lemma delete_association_body_delete env KEY item w :
  never_raises env →
  contains (new_assoc w) KEY = false →
  models.id item ∈ models.id <$> News_Associations_objects (database w) →
  ∃ msg,
    delete_association_body env KEY item w =
      (Normal tt,
       with_logger (λ l, l ++ [info (Text msg)])
         (with_database (db_delete_association (models.id item)) w)).
Proof.
  intros Hno H Hin. unfold delete_association_body. unfold_M.
  rewrite H, bool_decide_true, Hno by done. simpl. eauto.
Qed.

Lemma delete_news_body_skip env URN w :
  contains (new w) URN = true →
  delete_news_body env URN w = (Normal tt, w).
Proof. intros H. unfold delete_news_body. unfold_M. by rewrite H. Qed.

Lemma delete_news_body_delete env URN w :
  never_raises env →
  contains (new w) URN = false →
  ∃ msg,
    delete_news_body env URN w =
      (Normal tt,
       with_logger (λ l, l ++ [info (Text msg)])
         (with_STATS (λ c, set c "Delete" (S (count c "Delete")))
            (with_database (db_delete_news URN) w))).
Proof.
  intros Hno H. unfold delete_news_body. unfold_M.
  rewrite H, Hno. simpl. eauto.
Qed.

Lemma same_dicts_refl w : same_dicts w w.
Proof. by repeat split. Qed.

Lemma filter_all {A} (P : A → Prop) `{!∀ x, Decision (P x)} (l : list A) :
  (∀ x, x ∈ l → P x) → filter P l = l.
Proof.
  induction l as [|x l IH]; intros Hl; [done|].
  rewrite filter_cons_True by (apply Hl; left).
  f_equal. apply IH. intros y Hy. apply Hl. by right.
Qed.

Lemma delete_association_loop_spec env items w :
  never_raises env →
  NoDup (models.id <$> obsolete_associations (new_assoc w) items) →
  (∀ pk, pk ∈ models.id <$> obsolete_associations (new_assoc w) items →
     pk ∈ models.id <$> News_Associations_objects (database w)) →
  ∃ w',
    delete_association_loop env items w = (Normal tt, w') ∧
    News_objects (database w') = News_objects (database w) ∧
    News_Associations_objects (database w') =
      filter (λ a, models.id a ∉
                models.id <$> obsolete_associations (new_assoc w) items)
        (News_Associations_objects (database w)) ∧
    next_id (database w') = next_id (database w) ∧
    STATS w' = STATS w ∧ same_dicts w w'.
Proof.
  intros Hno. revert w.
  induction items as [|[KEY item] items IH]; intros w Hnd Hin.
  - exists w. simpl. split_and!; try done; try apply same_dicts_refl.
    symmetry. apply filter_all. intros a _. apply not_elem_of_nil.
  - simpl. unfold obsolete_associations in *.
    destruct (contains (new_assoc w) KEY) eqn:Hc.
    + rewrite filter_cons_False in * by (simpl; rewrite Hc; auto).
      unfold_M. rewrite delete_association_body_skip by done.
      apply IH; done.
    + rewrite filter_cons_True in * by (simpl; rewrite Hc; auto).
      simpl in *. apply NoDup_cons in Hnd as [Hitem Hnd].
      destruct (delete_association_body_delete env KEY item w) as [msg Hbody];
        [done | done | apply Hin; left |].
      unfold_M. rewrite Hbody.
      set (w1 := with_logger _ _).
      destruct (IH w1) as (w' & Hrun & HN & HA & Hid & HS & Hsame).
      { done. }
      { intros pk Hpk. simpl.
        specialize (Hin pk ltac:(by right)).
        apply list_elem_of_fmap in Hin as (a & -> & Hain).
        apply list_elem_of_fmap_2, list_elem_of_filter. split; [|done].
        intros Heq. apply Hitem. by rewrite <- Heq. }
      exists w'. split; [done|]. simpl in *. split_and!; try done.
      rewrite HA. rewrite list_filter_filter. apply list_filter_iff.
      intros a. rewrite elem_of_cons. tauto.
Qed.

Lemma count_set_eq (c : dict nat) k n : count (set c k n) k = n.
Proof. unfold count. by rewrite get_set_eq. Qed.

Lemma count_set_ne (c : dict nat) k k' n :
  k ≠ k' → count (set c k n) k' = count c k'.
Proof. intros. unfold count. by rewrite get_set_ne. Qed.

Lemma delete_news_loop_spec env URNs w :
  never_raises env →
  ∃ w',
    delete_news_loop env URNs w = (Normal tt, w') ∧
    database w' =
      foldl (λ db URN, db_delete_news URN db) (database w)
        (obsolete_news (new w) URNs) ∧
    count (STATS w') "Delete" =
      count (STATS w) "Delete" + length (obsolete_news (new w) URNs) ∧
    (∀ k, k ≠ "Delete" → count (STATS w') k = count (STATS w) k) ∧
    same_dicts w w'.
Proof.
  intros Hno. revert w. induction URNs as [|URN URNs IH]; intros w.
  - exists w. simpl. split_and!; try done; try lia; apply same_dicts_refl.
  - simpl. unfold obsolete_news in *.
    destruct (contains (new w) URN) eqn:Hc.
    + rewrite filter_cons_False by (rewrite Hc; auto).
      unfold_M. rewrite delete_news_body_skip by done. apply IH.
    + rewrite filter_cons_True by (rewrite Hc; auto).
      destruct (delete_news_body_delete env URN w) as [msg Hbody]; [done..|].
      unfold_M. rewrite Hbody. set (w1 := with_logger _ _).
      destruct (IH w1) as (w' & Hrun & Hdb & Hcount & Hother & Hsame).
      exists w'. split; [done|]. simpl in *. split_and!; try done.
      * rewrite Hcount, count_set_eq. lia.
      * intros k Hk. rewrite Hother, count_set_ne by done. done.
Qed.

Lemma delete_news_fold db (obsolete : list string) :
  News_objects (foldl (λ db URN, db_delete_news URN db) db obsolete) =
    filter (λ item, models.URN item ∉ obsolete) (News_objects db) ∧
  News_Associations_objects
      (foldl (λ db URN, db_delete_news URN db) db obsolete) =
    filter (λ item, models.NewsItem item ∉ obsolete)
      (News_Associations_objects db) ∧
  next_id (foldl (λ db URN, db_delete_news URN db) db obsolete) = next_id db.
Proof.
  revert db. induction obsolete as [|URN obsolete IH]; intros db; simpl.
  - split_and!; [| |done]; symmetry; apply filter_all; intros ? _;
      apply not_elem_of_nil.
  - destruct (IH (db_delete_news URN db)) as (-> & -> & ->). simpl.
    split_and!; [| |done]; rewrite list_filter_filter;
      apply list_filter_iff; intros a; rewrite elem_of_cons; naive_solver.
Qed.

Lemma format_KEY a b c : format "{}->{}/{}" [a; b; c] = Normal (KEY_of a b c).
Proof. simpl. by rewrite app_empty_r. Qed.

Lemma load_cur_assoc_ok rows d :
  load_cur_assoc rows d =
    Normal (foldl (λ d item, set d (key_of item) item) d rows).
Proof.
  revert d. induction rows as [|item rows IH]; intros d; [done|].
  change (load_cur_assoc (item :: rows) d) with
    (match str_News_Associations item with
     | Normal KEY => load_cur_assoc rows (set d KEY item)
     | Raised e => Raised e
     end).
  unfold str_News_Associations. rewrite format_KEY. apply IH.
Qed.

Lemma Warehouse_unfold cfg env batch w m objs :
  merge cfg batch = Normal (m, objs) →
  Warehouse_XSEDE_News cfg env batch w =
    match news_loop cfg env (merged_items m objs) (snapshot cfg w) with
    | (Normal (Some returned), w1) => (Normal returned, w1)
    | (Normal None, w1) =>
        match delete_association_loop env (items (cur_assoc w1)) w1 with
        | (Normal _, w2) =>
            match delete_news_loop env (keys (cur w2)) w2 with
            | (Normal _, w3) => (Normal (true, ""), w3)
            | (Raised e, w3) => (Raised e, w3)
            end
        | (Raised e, w2) => (Raised e, w2)
        end
    | (Raised e, w1) => (Raised e, w1)
    end.
Proof.
  intros Hm. unfold Warehouse_XSEDE_News. unfold_M. simpl.
  rewrite load_cur_assoc_ok, Hm. simpl.
  change (with_cur_assoc _ _) with (snapshot cfg w).
  destruct (news_loop _ _ _ _) as [[[r|]|e] w1]; done.
Qed.

Lemma merge_loop_none_passes cfg batch positions :
  Forall (λ p, ¬ passes cfg p) batch →
  Forall (λ i, i < length batch) positions →
  merge_loop cfg positions ([], batch) = Normal ([], batch).
Proof.
  intros Hnone. induction 1 as [|i positions Hi _ IH]; [done|].
  simpl. destruct (lookup_lt_is_Some_2 batch i Hi) as [p Hp]. rewrite Hp.
  assert (Hpass : ¬ passes cfg p) by (by eapply Forall_lookup_1 in Hnone).
  unfold passes in Hpass.
  destruct (startswith (ID p) (INPUTURNPREFIX cfg)); [by destruct Hpass|].
  done.
Qed.

Lemma merge_none_passes cfg batch :
  Forall (λ p, ¬ passes cfg p) batch → merge cfg batch = Normal ([], batch).
Proof.
  intros Hnone. apply merge_loop_none_passes; [done|].
  apply Forall_forall. intros i Hi%elem_of_seq. lia.
Qed.

Lemma Run_turn_nonempty cfg env batch w :
  batch ≠ [] →
  Run_turn cfg env (Some batch) w =
    match Warehouse_XSEDE_News cfg env batch (with_STATS (λ _, []) w) with
    | (Normal (rc, warehouse_msg), w1) =>
        let summary_msg :=
          Processed (count (STATS w1) "Update") (count (STATS w1) "Delete")
            (count (STATS w1) "Skip") in
        (Normal tt,
         with_activity
           (λ l, l ++ [(rc, if rc then summary_msg else Text warehouse_msg)])
           (with_logger (λ l, l ++ [info summary_msg]) w1))
    | (Raised e, w1) => (Raised e, w1)
    end.
Proof.
  intros Hne. unfold Run_turn. destruct batch as [|p batch]; [done|].
  unfold_M. simpl.
  destruct (Warehouse_XSEDE_News _ _ _ _) as [[[[] msg]|e] w1]; done.
Qed.

(** ** The loop over the merged batch when no write is refused *)

Lemma keys_set {V} (d : dict V) k v k' :
  k' ∈ keys (set d k v) ↔ k' = k ∨ k' ∈ keys d.
Proof.
  destruct (decide (k ∈ keys d)) as [Hin|Hnot].
  - rewrite keys_set_present by done. split; [auto | intros [->|?]; done].
  - rewrite set_absent by done. unfold keys. rewrite fmap_app, elem_of_app.
    simpl. rewrite list_elem_of_singleton. tauto.
Qed.

Lemma keys_foldl_set {A V} (f : A → string) (g : A → V) (l : list A)
    (d : dict V) k :
  k ∈ keys (foldl (λ d x, set d (f x) (g x)) d l) ↔ k ∈ keys d ∨ k ∈ f <$> l.
Proof.
  revert d. induction l as [|x l IH]; intros d; simpl.
  - rewrite elem_of_nil. tauto.
  - rewrite IH, keys_set, elem_of_cons. tauto.
Qed.

Lemma foldl_set_fresh {A V} (f : A → string) (g : A → V) (l : list A)
    (d : dict V) :
  NoDup (keys d ++ (f <$> l)) →
  foldl (λ d x, set d (f x) (g x)) d l = d ++ ((λ x, (f x, g x)) <$> l).
Proof.
  revert d. induction l as [|x l IH]; intros d Hnd; simpl.
  - by rewrite app_nil_r.
  - assert (Hx : f x ∉ keys d).
    { apply NoDup_app in Hnd as (_ & Hd & _). intros Hin.
      apply (Hd _ Hin). by left. }
    rewrite set_absent by done. rewrite IH.
    + by rewrite <- app_assoc.
    + unfold keys. rewrite fmap_app, <- app_assoc. done.
Qed.

Lemma startswith_app (prefix s : string) : startswith (prefix +:+ s) prefix = true.
Proof.
  unfold startswith. induction prefix as [|c prefix IH]; [by destruct s|].
  change (String c prefix +:+ s) with (String c (prefix +:+ s)). simpl.
  by destruct (ascii_dec c c).
Qed.

Lemma cur_keys cfg w URN :
  URN ∈ keys (cur (snapshot cfg w)) ↔ URN ∈ persisted_URNs cfg (database w).
Proof.
  unfold snapshot, load_cur, persisted_URNs. simpl.
  rewrite (keys_foldl_set models.URN (λ x, x)). unfold keys. simpl.
  rewrite elem_of_nil. tauto.
Qed.

Lemma cur_assoc_items cfg w :
  NoDup (persisted_keys cfg (database w)) →
  items (cur_assoc (snapshot cfg w)) =
    (λ item, (key_of item, item))
      <$> News_Associations_filter_startswith (NEWSURNPREFIX cfg) (database w).
Proof.
  intros Hnd. unfold snapshot, items. simpl.
  by rewrite (foldl_set_fresh key_of (λ x, x)).
Qed.

Lemma association_body_spec env URN resource w :
  never_raises env →
  association_body env URN resource w =
    match get (cur_assoc w) (KEY_of URN "Resource" resource) with
    | Some item =>
        (Normal None,
         with_new_assoc (λ d, set d (KEY_of URN "Resource" resource) item) w)
    | None =>
        (Normal None,
         with_logger
           (λ l, l ++ [debug (Text ("Assoc KEY=" +:+
                                     KEY_of URN "Resource" resource))])
           (with_new_assoc
              (λ d, set d (KEY_of URN "Resource" resource)
                      {| models.id := next_id (database w);
                         models.NewsItem := URN;
                         models.AssociatedType := "Resource";
                         models.AssociatedID := resource |})
              (with_database (db_insert_association URN "Resource" resource)
                 w)))
    end.
Proof.
  intros Hno. unfold association_body. rewrite format_KEY. unfold_M.
  destruct (get _ _); [done|]. rewrite Hno. simpl.
  by rewrite app_empty_r.
Qed.

Lemma news_inv_initial w0 :
  new w0 = [] → new_assoc w0 = [] → news_inv w0 [] [] w0.
Proof.
  intros Hn Ha. unfold news_inv. rewrite Hn, Ha. split_and!; try done.
  - intros u. rewrite elem_of_nil. tauto.
  - exists []. rewrite app_nil_r. split_and!; [done | constructor |].
    intros k Hk. by apply elem_of_nil in Hk.
Qed.

Lemma association_body_inv env w0 U K URN resource w1 :
  never_raises env → URN ∈ U → news_inv w0 U K w1 →
  ∃ w2,
    association_body env URN resource w1 = (Normal None, w2) ∧
    news_inv w0 U (K ++ [KEY_of URN "Resource" resource]) w2.
Proof.
  intros Hno HU (Hcur & Hca & Hnew & Hna & HN & Hid & added & HT & Hadded & HK).
  rewrite association_body_spec by done.
  destruct (get (cur_assoc w1) _) as [item|] eqn:Hget.
  - eexists. split; [done|]. unfold news_inv; simpl. split_and!; try done.
    + intros k. rewrite keys_set, elem_of_app, list_elem_of_singleton, Hna. tauto.
    + exists added. split_and!; [done | |].
      * eapply Forall_impl; [exact Hadded|]. simpl.
        intros b (? & ? & ?). rewrite elem_of_app. auto.
      * intros k [Hk| ->%list_elem_of_singleton]%elem_of_app; [auto|].
        left. rewrite <- Hca. apply get_is_Some. eauto.
  - eexists. split; [done|]. unfold news_inv; simpl. split_and!; try done.
    + intros k. rewrite keys_set, elem_of_app, list_elem_of_singleton, Hna. tauto.
    + lia.
    + eexists (added ++ [_]). split_and!.
      * by rewrite HT, <- app_assoc.
      * apply Forall_app. split.
        -- eapply Forall_impl; [exact Hadded|]. simpl.
           intros b (? & ? & ?). rewrite elem_of_app. auto.
        -- apply Forall_singleton. simpl. split_and!; [done | | lia].
           rewrite elem_of_app, list_elem_of_singleton. by right.
      * intros k [Hk| ->%list_elem_of_singleton]%elem_of_app.
        -- destruct (HK k Hk) as [?|(b & ? & ?)]; [auto|].
           right. exists b. rewrite elem_of_app. auto.
        -- right. eexists. rewrite elem_of_app, list_elem_of_singleton.
           split; [by right|done].
Qed.

Lemma association_loop_inv env w0 U K URN resources w1 :
  never_raises env → URN ∈ U → news_inv w0 U K w1 →
  ∃ w2,
    association_loop env URN resources w1 = (Normal None, w2) ∧
    news_inv w0 U (K ++ (KEY_of URN "Resource" <$> resources)) w2.
Proof.
  intros Hno HU. revert K w1.
  induction resources as [|resource resources IH]; intros K w1 Hinv.
  - exists w1. simpl. by rewrite app_nil_r.
  - destruct (association_body_inv env w0 U K URN resource w1)
      as (w2 & Hbody & Hinv2); [done..|].
    destruct (IH _ _ Hinv2) as (w3 & Hloop & Hinv3).
    exists w3. simpl. unfold_M. rewrite Hbody. split; [done|].
    by rewrite <- app_assoc in Hinv3.
Qed.

Lemma update_or_create_URNs row db u :
  u ∈ models.URN <$> News_objects (db_update_or_create row db) ↔
  u = models.URN row ∨ u ∈ models.URN <$> News_objects db.
Proof.
  unfold db_update_or_create. simpl. case_bool_decide as Hin.
  - rewrite <- list_fmap_compose.
    assert (Heq : models.URN ∘ (λ item, if decide (models.URN item = models.URN row)
                                        then row else item) <$> News_objects db
                  = models.URN <$> News_objects db).
    { apply list_fmap_ext. intros _ item _. simpl. by case_decide. }
    rewrite Heq. split; [auto | intros [->|?]; done].
  - rewrite fmap_app, elem_of_app. simpl. rewrite list_elem_of_singleton. tauto.
Qed.

Lemma news_inv_more_URNs w0 U K URN w1 w2 row :
  news_inv w0 U K w1 →
  models.URN row = URN →
  cur w2 = cur w1 → cur_assoc w2 = cur_assoc w1 →
  new_assoc w2 = new_assoc w1 →
  new w2 = set (new w1) URN row →
  database w2 = db_update_or_create row (db_update_or_create row (database w1)) →
  news_inv w0 (U ++ [URN]) K w2.
Proof.
  intros (Hcur & Hca & Hnew & Hna & HN & Hid & added & HT & Hadded & HK)
    Hrow Hcur2 Hca2 Hna2 Hnew2 Hdb2.
  unfold news_inv. rewrite Hcur2, Hca2, Hna2, Hnew2, Hdb2.
  split_and!; try done.
  - intros u. rewrite keys_set, elem_of_app, list_elem_of_singleton, Hnew. tauto.
  - intros u. rewrite !update_or_create_URNs, HN, Hrow, elem_of_app,
      list_elem_of_singleton. tauto.
  - exists added. split_and!; [done | | done].
    eapply Forall_impl; [exact Hadded|]. simpl.
    intros b (? & ? & ?). rewrite elem_of_app. auto.
Qed.

Lemma news_body_inv cfg env w0 U K URN p w1 res w2 :
  never_raises env → news_inv w0 U K w1 →
  news_body cfg env URN p w1 = (res, w2) →
  (∃ e, res = Raised e) ∨
  (res = Normal None ∧
   news_inv w0 (U ++ [URN])
     (K ++ (KEY_of URN "Resource" <$> default [] (AffectedInfrastructure p)))
     w2).
Proof.
  intros Hno Hinv. unfold news_body. unfold_M. simpl.
  destruct (parse_datetime env (OutageStart p)) as [start|e];
    [|intros [= <- <-]; eauto].
  destruct (parse_datetime env (OutageEnd p)) as [end_|e];
    [|intros [= <- <-]; eauto].
  rewrite !Hno. simpl.
  destruct (AffectedInfrastructure p) as [resources|];
    [|intros [= <- <-]; eauto].
  match goal with
  | |- association_loop _ _ _ ?w = _ → _ => set (w' := w)
  end.
  intros Hloop. right.
  destruct (association_loop_inv env w0 (U ++ [URN]) K URN resources w')
    as (w3 & Hloop3 & Hinv3); [done | | | ].
  { rewrite elem_of_app, list_elem_of_singleton. by right. }
  { subst w'.
    match goal with
    | |- context [with_new (λ d, set d _ ?r)] =>
        apply (news_inv_more_URNs w0 U K URN w1 _ r Hinv)
    end; reflexivity. }
  rewrite Hloop in Hloop3. by injection Hloop3 as -> ->.
Qed.

Lemma merged_URNs_snoc done URN o :
  merged_URNs (done ++ [(URN, o)]) = merged_URNs done ++ [URN].
Proof. unfold merged_URNs. by rewrite fmap_app. Qed.

Lemma merged_keys_snoc done URN o :
  merged_keys (done ++ [(URN, o)]) =
    merged_keys done ++
      (KEY_of URN "Resource" <$> default [] (o ≫= AffectedInfrastructure)).
Proof. unfold merged_keys. by rewrite bind_app, bind_singleton. Qed.

Lemma news_loop_inv cfg env w0 done rest w1 res w2 :
  never_raises env →
  news_inv w0 (merged_URNs done) (merged_keys done) w1 →
  news_loop cfg env rest w1 = (res, w2) →
  (∃ e, res = Raised e) ∨
  (res = Normal None ∧
   news_inv w0 (merged_URNs (done ++ rest)) (merged_keys (done ++ rest)) w2).
Proof.
  intros Hno. revert done w1.
  induction rest as [|[URN [p|]] rest IH]; intros done w1 Hinv; simpl.
  - intros [= <- <-]. right. by rewrite app_nil_r.
  - unfold_M.
    destruct (news_body cfg env URN p w1) as [res1 w1'] eqn:Hbody.
    destruct (news_body_inv _ _ _ _ _ _ _ _ _ _ Hno Hinv Hbody)
      as [[e ->] | [-> Hinv']].
    + intros [= <- <-]. eauto.
    + rewrite <- merged_URNs_snoc with (o := Some p) in Hinv'.
      change (default [] (AffectedInfrastructure p))
        with (default [] (Some p ≫= AffectedInfrastructure)) in Hinv'.
      rewrite <- merged_keys_snoc in Hinv'.
      intros Hrest. specialize (IH _ _ Hinv' Hrest).
      by rewrite <- app_assoc in IH.
  - unfold_M. intros [= <- <-]. eauto.
Qed.

Lemma obsolete_associations_fmap (d : dict models.News_Associations)
    (rows : list models.News_Associations) :
  obsolete_associations d ((λ item, (key_of item, item)) <$> rows) =
    filter (λ item, ¬ contains d (key_of item)) rows.
Proof.
  unfold obsolete_associations. induction rows as [|a rows IH]; [done|].
  rewrite fmap_cons. destruct (contains d (key_of a)) eqn:Hc.
  - rewrite !filter_cons_False by (simpl; rewrite Hc; auto). done.
  - rewrite !filter_cons_True by (simpl; rewrite Hc; auto).
    rewrite fmap_cons. simpl. by f_equal.
Qed.

Lemma NoDup_fmap_eq {A B} (f : A → B) (l : list A) x y :
  NoDup (f <$> l) → x ∈ l → y ∈ l → f x = f y → x = y.
Proof.
  induction l as [|a l IH]; [by intros _ ?%elem_of_nil|].
  rewrite fmap_cons, NoDup_cons, !elem_of_cons.
  intros [Ha Hnd] [->|Hx] [->|Hy] Heq; [done | | | by apply IH].
  - exfalso. apply Ha. rewrite Heq. by apply list_elem_of_fmap_2.
  - exfalso. apply Ha. rewrite <- Heq. by apply list_elem_of_fmap_2.
Qed.

Lemma not_contains {V} (d : dict V) k : ¬ contains d k ↔ k ∉ keys d.
Proof.
  rewrite <- contains_false. destruct (contains d k); simpl; split; auto.
  - intros H. by destruct H.
  - done.
Qed.

Lemma merged_URNs_startswith cfg batch m objs URN :
  merge_inv cfg batch (length batch) (m, objs) →
  URN ∈ merged_URNs (merged_items m objs) →
  startswith URN (NEWSURNPREFIX cfg) = true.
Proof.
  intros (_ & Hkeys & _) HU. simpl in Hkeys.
  unfold merged_URNs, merged_items, items in HU.
  rewrite <- list_fmap_compose in HU.
  change (fst ∘ _) with (@fst string nat) in HU. fold (keys m) in HU.
  rewrite Hkeys in HU.
  apply elem_of_first_seen, list_elem_of_fmap in HU as (p & -> & _).
  apply startswith_app.
Qed.

(** ** The pass never returns [False] *)

Lemma saving_News_handler_raises what e w :
  saving_handler "{} saving News URN={} ({}): {}" what e w =
    (Raised (match exn_message e with
             | Some _ => IndexError
             | None => AttributeError "message"
             end), w).
Proof. unfold saving_handler. unfold_M. by destruct (exn_message e). Qed.

Lemma saving_Assoc_handler_raises what e w :
  saving_handler "{} saving Assoc KEY={} ({}): {}" what e w =
    (Raised (match exn_message e with
             | Some _ => IndexError
             | None => AttributeError "message"
             end), w).
Proof. unfold saving_handler. unfold_M. by destruct (exn_message e). Qed.

Lemma association_body_no_return env URN resource w returned :
  (association_body env URN resource w).1 ≠ Normal (Some returned).
Proof.
  unfold association_body. rewrite format_KEY. unfold_M.
  destruct (get _ _); [done|].
  destruct (raises env _ _); [by rewrite saving_Assoc_handler_raises|done].
Qed.

Lemma association_loop_no_return env URN resources w returned :
  (association_loop env URN resources w).1 ≠ Normal (Some returned).
Proof.
  revert w. induction resources as [|resource resources IH]; intros w; [done|].
  simpl. unfold_M.
  pose proof (association_body_no_return env URN resource w) as Hbody.
  destruct (association_body env URN resource w) as [[[r|]|e] w1]; simpl in *.
  - by destruct (Hbody r).
  - apply IH.
  - done.
Qed.

Lemma news_body_no_return cfg env URN p w returned :
  (news_body cfg env URN p w).1 ≠ Normal (Some returned).
Proof.
  unfold news_body. unfold_M. simpl.
  destruct (parse_datetime env (OutageStart p)); [|done].
  destruct (parse_datetime env (OutageEnd p)); [|done].
  destruct (raises env _ _); [by rewrite saving_News_handler_raises|].
  simpl. destruct (raises env _ _); [by rewrite saving_News_handler_raises|].
  simpl. destruct (AffectedInfrastructure p); [|done].
  apply association_loop_no_return.
Qed.

Lemma news_loop_no_return cfg env items w returned :
  (news_loop cfg env items w).1 ≠ Normal (Some returned).
Proof.
  revert w. induction items as [|[URN [p|]] items IH]; intros w; [done| |done].
  simpl. unfold_M.
  pose proof (news_body_no_return cfg env URN p w) as Hbody.
  destruct (news_body cfg env URN p w) as [[[r|]|e] w1]; simpl in *.
  - by destruct (Hbody r).
  - apply IH.
  - done.
Qed.

(** ** What the pass keeps *)

Lemma format_URN a b : format "{}{}" [a; b] = Normal (a +:+ b).
Proof. simpl. by rewrite app_empty_r. Qed.

(** The pass, by the outcome of the merge and of the loops. *)
Lemma Warehouse_cases cfg env batch w :
  Warehouse_XSEDE_News cfg env batch w =
    match merge cfg batch with
    | Raised e => (Raised e, snapshot cfg w)
    | Normal (m, objs) =>
        match news_loop cfg env (merged_items m objs) (snapshot cfg w) with
        | (Normal (Some returned), w1) => (Normal returned, w1)
        | (Normal None, w1) =>
            match delete_association_loop env (items (cur_assoc w1)) w1 with
            | (Normal _, w2) =>
                match delete_news_loop env (keys (cur w2)) w2 with
                | (Normal _, w3) => (Normal (true, ""), w3)
                | (Raised e, w3) => (Raised e, w3)
                end
            | (Raised e, w2) => (Raised e, w2)
            end
        | (Raised e, w1) => (Raised e, w1)
        end
    end.
Proof.
  destruct (merge cfg batch) as [[m objs]|e] eqn:Hm.
  - by apply Warehouse_unfold.
  - unfold Warehouse_XSEDE_News. unfold_M. simpl.
    rewrite load_cur_assoc_ok, Hm. done.
Qed.

(** The keys of [merged_obj] are URNs of the namespace, whatever the batch. *)
Lemma merge_body_keys cfg i st st' URN :
  merge_body cfg i st = Normal st' →
  URN ∈ keys st'.1 → URN ∈ keys st.1 ∨ ∃ s, URN = NEWSURNPREFIX cfg +:+ s.
Proof.
  unfold merge_body. destruct st as [m objs]. cbv beta iota.
  destruct (objs !! i) as [p|]; [|done].
  destruct (negb _); [intros [= <-]; auto|]. rewrite format_URN.
  intros Hbody HURN. repeat case_match; simplify_eq; simpl in *; auto.
  apply keys_set in HURN as [->|?]; eauto.
Qed.

Lemma merge_loop_keys cfg positions st st' URN :
  merge_loop cfg positions st = Normal st' →
  URN ∈ keys st'.1 → URN ∈ keys st.1 ∨ ∃ s, URN = NEWSURNPREFIX cfg +:+ s.
Proof.
  revert st. induction positions as [|i positions IH]; intros st; simpl.
  - intros [= ->]. auto.
  - destruct (merge_body cfg i st) as [st1|e] eqn:Hbody; [|done].
    intros Hloop HURN. destruct (IH _ Hloop HURN) as [H1|?]; [|auto].
    eapply merge_body_keys; eauto.
Qed.

Lemma merge_keys cfg batch m objs URN :
  merge cfg batch = Normal (m, objs) →
  URN ∈ (merged_items m objs).*1 → ∃ s, URN = NEWSURNPREFIX cfg +:+ s.
Proof.
  intros Hm HURN. unfold merged_items, items in HURN.
  rewrite <- list_fmap_compose in HURN.
  destruct (merge_loop_keys _ _ _ _ URN Hm) as [H|?]; [done| |done].
  by apply elem_of_nil in H.
Qed.

Section keeps.
Context (R : world → world → Prop) `{!PreOrder R}.

Lemma keeps_ret {A} (a : A) : keeps R (mret a).
Proof. intros w. simpl. reflexivity. Qed.

Lemma keeps_raise {A} e : keeps R (raise e : M A).
Proof. intros w. simpl. reflexivity. Qed.

Lemma keeps_lift {A} (r : result A) : keeps R (lift r).
Proof. intros w. simpl. reflexivity. Qed.

Lemma keeps_read : keeps R read.
Proof. intros w. simpl. reflexivity. Qed.

Lemma keeps_modify f : (∀ w, R w (f w)) → keeps R (modify f).
Proof. intros Hf w. apply Hf. Qed.

Lemma keeps_bind {A B} (m : M A) (k : A → M B) :
  keeps R m → (∀ a, keeps R (k a)) → keeps R (m ≫= k).
Proof.
  intros Hm Hk w. unfold mbind, M_bind, bind.
  specialize (Hm w). destruct (m w) as [[a|e] w1]; simpl in *; [|done].
  etrans; [exact Hm|]. apply Hk.
Qed.

Lemma keeps_attempt env op effect :
  (∀ w, raises env op (database w) = None → R w (with_database effect w)) →
  keeps R (attempt env op effect).
Proof.
  intros Heffect w. unfold attempt.
  destruct (raises env op (database w)) eqn:Hr; simpl; [reflexivity|].
  by apply Heffect.
Qed.

Lemma keeps_log r : (∀ w f, R w (with_logger f w)) → keeps R (log r).
Proof. intros Hlog. apply keeps_modify. intros w. apply Hlog. Qed.

Lemma keeps_getattr_message e : keeps R (getattr_message e).
Proof.
  unfold getattr_message. destruct (exn_message e); [apply keeps_ret|apply keeps_raise].
Qed.

End keeps.

(** ** What the statements of the pass keep *)

Section pass_keeps.
Context (R : world → world → Prop) `{!PreOrder R}.
Context (ok_URN : string → Prop) (ok_pk : nat → Prop).
Hypothesis R_logger : ∀ w f, R w (with_logger f w).
Hypothesis R_new : ∀ w f, R w (with_new f w).
Hypothesis R_new_assoc : ∀ w f, R w (with_new_assoc f w).
Hypothesis R_STATS :
  ∀ w k, k = "Update" ∨ k = "Delete" →
    R w (with_STATS (λ c, set c k (S (count c k))) w).
Hypothesis R_update_or_create :
  ∀ w row, ok_URN (models.URN row) →
    R w (with_database (db_update_or_create row) w).
Hypothesis R_insert_association :
  ∀ w URN t i, ok_URN URN →
    R w (with_database (db_insert_association URN t i) w).
Hypothesis R_delete_association :
  ∀ w pk, ok_pk pk → R w (with_database (db_delete_association pk) w).
Hypothesis R_delete_news :
  ∀ w URN, ok_URN URN → R w (with_database (db_delete_news URN) w).

Lemma keeps_saving_handler template what e :
  keeps R (saving_handler template what e).
Proof.
  unfold saving_handler.
  apply keeps_bind; [done | apply keeps_getattr_message; done |]. intros m.
  apply keeps_bind; [done | apply keeps_lift; done |]. intros msg.
  apply keeps_bind; [done | apply keeps_log; done |]. intros _.
  by apply keeps_ret.
Qed.

Lemma keeps_deleting_handler template what e :
  keeps R (deleting_handler template what e).
Proof.
  unfold deleting_handler.
  apply keeps_bind; [done | apply keeps_getattr_message; done |]. intros m.
  apply keeps_bind; [done | apply keeps_lift; done |]. intros msg.
  by apply keeps_log.
Qed.

Lemma keeps_association_body env URN resource :
  ok_URN URN → keeps R (association_body env URN resource).
Proof.
  intros HURN. unfold association_body.
  apply keeps_bind; [done | apply keeps_lift; done |]. intros KEY.
  apply keeps_bind; [done | apply keeps_read; done |]. intros w.
  destruct (get (cur_assoc w) KEY) as [item|].
  - apply keeps_bind; [done | apply keeps_modify; auto |]. intros _.
    by apply keeps_ret.
  - apply keeps_bind; [done | apply keeps_attempt; auto |]. intros [e|].
    + apply keeps_saving_handler.
    + apply keeps_bind; [done | apply keeps_modify; auto |]. intros _.
      apply keeps_bind; [done | apply keeps_lift; done |]. intros msg.
      apply keeps_bind; [done | apply keeps_log; done |]. intros _.
      by apply keeps_ret.
Qed.

Lemma keeps_association_loop env URN resources :
  ok_URN URN → keeps R (association_loop env URN resources).
Proof.
  intros HURN. induction resources as [|resource resources IH]; simpl.
  - by apply keeps_ret.
  - apply keeps_bind; [done | by apply keeps_association_body |].
    intros [returned|]; [by apply keeps_ret | done].
Qed.

Lemma keeps_news_body cfg env URN p :
  ok_URN URN → keeps R (news_body cfg env URN p).
Proof.
  intros HURN. unfold news_body.
  apply keeps_bind; [done | apply keeps_lift; done |]. intros WEBURL.
  apply keeps_bind; [done | apply keeps_lift; done |]. intros start.
  apply keeps_bind; [done | apply keeps_lift; done |]. intros end_.
  apply keeps_bind; [done | apply keeps_attempt; auto |].
  intros [e|]; [apply keeps_saving_handler|].
  apply keeps_bind; [done | apply keeps_attempt; auto |].
  intros [e|]; [apply keeps_saving_handler|].
  apply keeps_bind; [done | apply keeps_modify; auto |]. intros _.
  apply keeps_bind; [done | apply keeps_modify; auto |]. intros _.
  apply keeps_bind; [done | apply keeps_lift; done |]. intros msg.
  apply keeps_bind; [done | apply keeps_log; done |]. intros _.
  destruct (AffectedInfrastructure p) as [resources|].
  - by apply keeps_association_loop.
  - by apply keeps_raise.
Qed.

Lemma keeps_news_loop cfg env (items : list (string * option p_res)) :
  Forall ok_URN items.*1 → keeps R (news_loop cfg env items).
Proof.
  induction items as [|[URN [p|]] items IH]; simpl; intros Hok.
  - by apply keeps_ret.
  - apply Forall_cons in Hok as [HURN Hok].
    apply keeps_bind; [done | by apply keeps_news_body |].
    intros [returned|]; [by apply keeps_ret | auto].
  - by apply keeps_raise.
Qed.

Lemma keeps_delete_association_body env KEY item :
  ok_pk (models.id item) → keeps R (delete_association_body env KEY item).
Proof.
  intros Hpk. unfold delete_association_body.
  apply keeps_bind; [done | apply keeps_read; done |]. intros w.
  destruct (contains (new_assoc w) KEY); [by apply keeps_ret|].
  case_bool_decide; [|by apply keeps_raise].
  apply keeps_bind; [done | apply keeps_attempt; auto |].
  intros [e|]; [apply keeps_deleting_handler|].
  apply keeps_bind; [done | apply keeps_lift; done |]. intros msg.
  by apply keeps_log.
Qed.

Lemma keeps_delete_association_loop env
    (items : list (string * models.News_Associations)) :
  Forall (λ kv, ok_pk (models.id kv.2)) items →
  keeps R (delete_association_loop env items).
Proof.
  induction items as [|[KEY item] items IH]; simpl; intros Hok.
  - by apply keeps_ret.
  - apply Forall_cons in Hok as [Hpk Hok].
    apply keeps_bind; [done | by apply keeps_delete_association_body |].
    intros _. auto.
Qed.

Lemma keeps_delete_news_body env URN :
  ok_URN URN → keeps R (delete_news_body env URN).
Proof.
  intros HURN. unfold delete_news_body.
  apply keeps_bind; [done | apply keeps_read; done |]. intros w.
  destruct (contains (new w) URN); [by apply keeps_ret|].
  apply keeps_bind; [done | apply keeps_attempt; auto |].
  intros [e|]; [apply keeps_deleting_handler|].
  apply keeps_bind; [done | apply keeps_modify; auto |]. intros _.
  apply keeps_bind; [done | apply keeps_lift; done |]. intros msg.
  by apply keeps_log.
Qed.

Lemma keeps_delete_news_loop env URNs :
  Forall ok_URN URNs → keeps R (delete_news_loop env URNs).
Proof.
  induction URNs as [|URN URNs IH]; simpl; intros Hok.
  - by apply keeps_ret.
  - apply Forall_cons in Hok as [HURN Hok].
    apply keeps_bind; [done | by apply keeps_delete_news_body |].
    intros _. auto.
Qed.

Hypothesis R_snapshot :
  ∀ w w', R w w' → cur w' = cur w ∧ cur_assoc w' = cur_assoc w.

(** The pass keeps, from the snapshot on, what its statements keep. *)
Lemma keeps_Warehouse cfg env batch w :
  (∀ s, ok_URN (NEWSURNPREFIX cfg +:+ s)) →
  Forall ok_URN (keys (cur (snapshot cfg w))) →
  Forall (λ kv, ok_pk (models.id kv.2)) (items (cur_assoc (snapshot cfg w))) →
  R (snapshot cfg w) (Warehouse_XSEDE_News cfg env batch w).2.
Proof.
  intros Hprefix Hcur Hassoc. rewrite Warehouse_cases.
  destruct (merge cfg batch) as [[m objs]|e] eqn:Hm; [|simpl; reflexivity].
  assert (H1 : R (snapshot cfg w)
                 (news_loop cfg env (merged_items m objs) (snapshot cfg w)).2).
  { apply keeps_news_loop. apply Forall_forall. intros URN HURN.
    destruct (merge_keys _ _ _ _ _ Hm HURN) as [s ->]. apply Hprefix. }
  destruct (news_loop _ _ _ _) as [[[returned|]|e] w1]; simpl in *; [done| |done].
  destruct (R_snapshot _ _ H1) as [Hc1 Hca1].
  assert (H2 : R w1 (delete_association_loop env (items (cur_assoc w1)) w1).2).
  { apply keeps_delete_association_loop. by rewrite Hca1. }
  destruct (delete_association_loop _ _ _) as [[[]|e] w2]; simpl in *;
    [|by etrans].
  destruct (R_snapshot _ _ H2) as [Hc2 Hca2].
  assert (H3 : R w2 (delete_news_loop env (keys (cur w2)) w2).2).
  { apply keeps_delete_news_loop. by rewrite Hc2, Hc1. }
  destruct (delete_news_loop _ _ _) as [[[]|e] w3]; simpl in *;
    (etrans; [exact H1|]; etrans; [exact H2|exact H3]).
Qed.

End pass_keeps.

#[global] Instance same_snapshot_preorder : PreOrder same_snapshot.
Proof.
  split; [done|]. intros w1 w2 w3 [H1 H2] [H3 H4]. split; congruence.
Qed.

#[global] Instance other_counters_preorder : PreOrder other_counters.
Proof.
  split; [by intros w k|]. intros w1 w2 w3 H1 H2 k Hu Hd.
  by rewrite H2, H1.
Qed.

#[global] Instance foreign_rows_preorder prefix N A :
  PreOrder (foreign_rows prefix N A).
Proof.
  split; [by intros w H|]. intros w1 w2 w3 H1 H2 H. apply H2, H1, H.
Qed.

#[global] Instance and_preorder (R1 R2 : world → world → Prop) :
  PreOrder R1 → PreOrder R2 → PreOrder (λ w w', R1 w w' ∧ R2 w w').
Proof.
  intros ? ?. split; [by intros w|]. intros w1 w2 w3 [] []. split; by etrans.
Qed.

#[global] Instance same_STATS_preorder : PreOrder same_STATS.
Proof. split; [by intros w|]. intros w1 w2 w3 H1 H2. unfold same_STATS in *. congruence. Qed.

#[global] Instance same_new_preorder : PreOrder same_new.
Proof. split; [by intros w|]. intros w1 w2 w3 H1 H2. unfold same_new in *. congruence. Qed.

(** ** The rows outside the namespace *)

Lemma foreign_update_or_create prefix row db :
  startswith (models.URN row) prefix →
  foreign_News prefix (db_update_or_create row db) = foreign_News prefix db.
Proof.
  intros Hrow. unfold foreign_News, db_update_or_create. simpl.
  case_bool_decide as Hin; [clear Hin|].
  - induction (News_objects db) as [|item l IH]; [done|].
    rewrite fmap_cons. destruct (decide (models.URN item = models.URN row)) as [He|].
    + rewrite (filter_cons_False _ row) by (intros Hn; by apply Hn).
      rewrite (filter_cons_False _ item) by (rewrite He; intros Hn; by apply Hn).
      done.
    + destruct (decide (¬ startswith (models.URN item) prefix)).
      * rewrite !filter_cons_True by done. by f_equal.
      * rewrite !filter_cons_False by done. done.
  - rewrite filter_app, filter_cons_False, filter_nil, app_nil_r;
      [done | intros Hn; by apply Hn].
Qed.

Lemma foreign_insert_association prefix URN t i db :
  startswith URN prefix →
  foreign_News_Associations prefix (db_insert_association URN t i db) =
    foreign_News_Associations prefix db.
Proof.
  intros HURN. unfold foreign_News_Associations, db_insert_association. simpl.
  rewrite filter_app, filter_cons_False, filter_nil, app_nil_r;
    [done | intros Hn; by apply Hn].
Qed.

Lemma filter_filter_all {A} (P Q : A → Prop) `{!∀ x, Decision (P x)}
    `{!∀ x, Decision (Q x)} (l : list A) :
  (∀ x, x ∈ filter P l → Q x) → filter P (filter Q l) = filter P l.
Proof.
  induction l as [|x l IH]; [done|]. intros HQ.
  destruct (decide (P x)) as [HP|HP].
  - rewrite (filter_cons_True P) in * by done.
    rewrite (filter_cons_True Q) by (apply HQ; left).
    rewrite (filter_cons_True P) by done. f_equal. apply IH.
    intros y Hy. apply HQ. by right.
  - rewrite (filter_cons_False P) in * by done.
    destruct (decide (Q x)).
    + rewrite (filter_cons_True Q), (filter_cons_False P) by done. auto.
    + rewrite (filter_cons_False Q) by done. auto.
Qed.

Lemma foreign_delete_association prefix pk db :
  pk ∉ models.id <$> foreign_News_Associations prefix db →
  foreign_News_Associations prefix (db_delete_association pk db) =
    foreign_News_Associations prefix db.
Proof.
  intros Hpk. unfold foreign_News_Associations, db_delete_association. simpl.
  apply filter_filter_all. intros a Ha He. apply Hpk. rewrite <- He.
  apply list_elem_of_fmap. eauto.
Qed.

Lemma foreign_delete_news prefix URN db :
  startswith URN prefix →
  foreign_News prefix (db_delete_news URN db) = foreign_News prefix db ∧
  foreign_News_Associations prefix (db_delete_news URN db) =
    foreign_News_Associations prefix db.
Proof.
  intros HURN. unfold foreign_News, foreign_News_Associations, db_delete_news.
  simpl. split; apply filter_filter_all.
  - intros item [Hitem _]%list_elem_of_filter He. rewrite He in Hitem. auto.
  - intros a [Ha _]%list_elem_of_filter He. rewrite He in Ha. auto.
Qed.

(** The rows of the snapshot are rows of the namespace. *)
Lemma elem_of_foldl_set {A V} (f : A → string) (g : A → V) (l : list A)
    (d : dict V) kv :
  kv ∈ foldl (λ d x, set d (f x) (g x)) d l → kv ∈ d ∨ ∃ x, x ∈ l ∧ kv.2 = g x.
Proof.
  revert d. induction l as [|x l IH]; intros d; simpl; [auto|].
  intros [H|(y & ? & ?)]%IH.
  - assert (Hset : ∀ d', kv ∈ set d' (f x) (g x) → kv ∈ d' ∨ kv.2 = g x).
    { clear. induction d' as [|[k v] d' IH]; simpl.
      - intros ->%list_elem_of_singleton. auto.
      - destruct (decide (k = f x)).
        + intros [->|?]%elem_of_cons; [auto|]. left. by right.
        + intros [->|[?|?]%IH]%elem_of_cons; [left; left|left; by right|auto]. }
    destruct (Hset _ H) as [?|?]; [auto|]. right. exists x. split; [left|done].
  - right. exists y. split; [by right|done].
Qed.

Lemma cur_assoc_rows cfg w kv :
  kv ∈ items (cur_assoc (snapshot cfg w)) →
  kv.2 ∈ News_Associations_filter_startswith (NEWSURNPREFIX cfg) (database w).
Proof.
  unfold items. simpl. intros [H|(x & ? & ->)]%elem_of_foldl_set; [|done].
  by apply elem_of_nil in H.
Qed.

(** ** The counters *)

Lemma Warehouse_other_counters cfg env batch w :
  other_counters w (Warehouse_XSEDE_News cfg env batch w).2.
Proof.
  pose (R := λ w w', same_snapshot w w' ∧ other_counters w w').
  assert (HR : R (snapshot cfg w) (Warehouse_XSEDE_News cfg env batch w).2).
  { apply (keeps_Warehouse R (λ _, True) (λ _, True)).
    - intros w2 f. split; [done|]. by intros k.
    - intros w2 f. split; [done|]. by intros k.
    - intros w2 f. split; [done|]. by intros k.
    - intros w2 k Hk. split; [done|]. intros k' Hu Hd. simpl.
      apply count_set_ne. destruct Hk; congruence.
    - intros w2 row _. split; [done|]. by intros k.
    - intros w2 URN t i _. split; [done|]. by intros k.
    - intros w2 pk _. split; [done|]. by intros k.
    - intros w2 URN _. split; [done|]. by intros k.
    - by intros w2 w3 [].
    - done.
    - by apply Forall_forall.
    - by apply Forall_forall. }
  destruct HR as [_ HR]. exact HR.
Qed.

Lemma association_loop_STATS env URN resources w :
  STATS (association_loop env URN resources w).2 = STATS w.
Proof.
  by apply (keeps_association_loop same_STATS (λ _, True)).
Qed.

(** A news item that is saved counts one update. *)
Lemma news_body_counts cfg env URN p w w' :
  news_body cfg env URN p w = (Normal None, w') →
  count (STATS w') "Update" = S (count (STATS w) "Update") ∧
  count (STATS w') "Delete" = count (STATS w) "Delete".
Proof.
  unfold news_body. unfold_M. simpl.
  destruct (parse_datetime env (OutageStart p)) as [start|e]; [|done].
  destruct (parse_datetime env (OutageEnd p)) as [end_|e]; [|done].
  destruct (raises env (update_or_create _) _) as [e|].
  { rewrite saving_News_handler_raises. done. }
  simpl. destruct (raises env (save_News _) _) as [e|].
  { rewrite saving_News_handler_raises. done. }
  simpl. destruct (AffectedInfrastructure p) as [resources|]; [|done].
  match goal with
  | |- association_loop _ _ _ ?w = _ → _ =>
      pose proof (association_loop_STATS env URN resources w) as HS
  end.
  intros Hloop. rewrite Hloop in HS. simpl in HS. rewrite HS. simpl.
  by rewrite count_set_eq, count_set_ne.
Qed.

Lemma news_loop_counts cfg env (items : list (string * option p_res)) w w' :
  news_loop cfg env items w = (Normal None, w') →
  count (STATS w') "Update" = count (STATS w) "Update" + length items ∧
  count (STATS w') "Delete" = count (STATS w) "Delete".
Proof.
  revert w. induction items as [|[URN [p|]] items IH]; intros w; simpl.
  - intros [= <-]. split; [lia|done].
  - unfold_M. destruct (news_body cfg env URN p w) as [[[r|]|e] w1] eqn:Hbody;
      [done| |done].
    apply news_body_counts in Hbody as [Hu Hd].
    intros [Hu' Hd']%IH. rewrite Hu', Hd', Hu, Hd. split; [lia|done].
  - done.
Qed.

Lemma delete_association_loop_same env items w :
  STATS (delete_association_loop env items w).2 = STATS w ∧
  new (delete_association_loop env items w).2 = new w ∧
  cur (delete_association_loop env items w).2 = cur w.
Proof.
  split_and!.
  - apply (keeps_delete_association_loop same_STATS (λ _, True)); try done.
    by apply Forall_forall.
  - apply (keeps_delete_association_loop same_new (λ _, True)); try done.
    by apply Forall_forall.
  - apply (keeps_delete_association_loop same_snapshot (λ _, True)); try done.
    by apply Forall_forall.
Qed.

(** With [URN] as the key of [News], [self.cur] lists the URNs of the
    namespace as the table does. *)
Lemma keys_cur cfg w :
  NoDup (persisted_URNs cfg (database w)) →
  keys (cur (snapshot cfg w)) = persisted_URNs cfg (database w).
Proof.
  intros Hnd. unfold snapshot, load_cur, persisted_URNs. simpl.
  rewrite (foldl_set_fresh models.URN (λ item, item)) by done.
  unfold keys. simpl. by rewrite <- list_fmap_compose.
Qed.

(** ** Strings: [find], slices and [split] *)

Lemma find_bounds s c : (-1 ≤ Router.find s c)%Z.
Proof.
  induction s as [|a s IH]; simpl; [lia|].
  repeat case_decide; lia.
Qed.

Lemma find_take_drop s c :
  (0 ≤ Router.find s c)%Z →
  s = Router.str_take (Z.to_nat (Router.find s c)) s +:+
        String c (Router.str_drop (S (Z.to_nat (Router.find s c))) s).
Proof.
  induction s as [|a s IH]; simpl; [lia|].
  destruct (decide (a = c)) as [->|Hne]; [done|].
  pose proof (find_bounds s c). case_decide; [lia|]. intros _.
  replace (Z.to_nat (Router.find s c + 1))
    with (S (Z.to_nat (Router.find s c))) by lia.
  change (String a s =
          String a (Router.str_take (Z.to_nat (Router.find s c)) s +:+
                    String c (Router.str_drop
                                (S (Z.to_nat (Router.find s c))) s))).
  f_equal. apply IH. lia.
Qed.

(** A string splits at the index [find] gives. *)
Lemma find_slice s c i :
  Router.find s c = i → (0 ≤ i)%Z →
  s = Router.slice s 0 i +:+ String c (Router.slice_from s (i + 1)).
Proof.
  intros <- Hpos. unfold Router.slice, Router.slice_from.
  replace (Z.to_nat (Router.find s c + 1))
    with (S (Z.to_nat (Router.find s c))) by lia.
  replace (Z.to_nat (Router.find s c) - Z.to_nat 0)
    with (Z.to_nat (Router.find s c)) by lia.
  change (Z.to_nat 0) with 0. destruct s; by apply find_take_drop.
Qed.

(** A string whose first two characters are [pre] is [pre] and the rest. *)
Lemma slice_2 p pre :
  Router.slice p 0 2 = pre → String.length pre = 2 →
  p = pre +:+ Router.slice_from p 2.
Proof.
  unfold Router.slice, Router.slice_from.
  destruct p as [|a [|b p]]; simpl; intros <-; try done.
Qed.

Lemma split_nonempty s c : Router.split s c ≠ [].
Proof. destruct s as [|a s]; simpl; [done|]. by repeat case_match. Qed.

Lemma length_split_cons a s c :
  a ≠ c → length (Router.split (String a s) c) = length (Router.split s c).
Proof.
  intros Hne. simpl. rewrite decide_False by done.
  pose proof (split_nonempty s c). by destruct (Router.split s c).
Qed.

Lemma split_singleton s c p :
  Router.split s c = [p] → s = p ∧ Router.has_char s c = false.
Proof.
  revert p. induction s as [|a s IH]; intros p; simpl.
  - by intros [= <-].
  - destruct (decide (a = c)).
    + intros [= _ H]. by apply split_nonempty in H.
    + destruct (Router.split s c) as [|h t] eqn:Hs;
        [by apply split_nonempty in Hs|].
      intros [= <- ->]. destruct (IH h eq_refl) as [-> Hc].
      by split.
Qed.

(** Two pieces are the text before the only separator and the text after
    it. *)
Lemma split_pair s c h p :
  Router.split s c = [h; p] →
  s = h +:+ String c p ∧ Router.has_char h c = false ∧
  Router.has_char p c = false.
Proof.
  revert h. induction s as [|a s IH]; intros h; simpl; [done|].
  destruct (decide (a = c)) as [->|Hne].
  - intros [= <- [-> Hp]%split_singleton]. done.
  - destruct (Router.split s c) as [|h' t] eqn:Hs; [done|].
    intros [= <- ->]. destruct (IH h' eq_refl) as (-> & Hh & Hp).
    simpl. rewrite decide_False by done. done.
Qed.

Lemma length_split_app a b c :
  length (Router.split (a +:+ String c b) c) =
    length (Router.split a c) + length (Router.split b c).
Proof.
  induction a as [|x a IH].
  - simpl. by rewrite decide_True.
  - change (String x a +:+ String c b) with (String x (a +:+ String c b)).
    destruct (decide (x = c)) as [->|Hne].
    + simpl. rewrite !decide_True by done. simpl. by rewrite IH.
    + by rewrite !length_split_cons, IH.
Qed.

Lemma has_char_app a b c :
  Router.has_char (a +:+ String c b) c = true.
Proof.
  induction a as [|x a IH]; simpl; [by rewrite decide_True|].
  case_decide; [done|]. exact IH.
Qed.

(** ** [Setup] *)

Lemma Setup_src_returns arg l e l' :
  Router.Setup_src arg l = (Router.Returns e, l') →
  l' = l ∧ ∃ s, arg = Router.Str s ∧
    Router.uri e = Some s ∧ Router.display e = Some s ∧
    ((Router.scheme e = Some "file" ∧
      (Router.path e = None ∧ s = "file" ∨
       ∃ p, Router.path e = Some p ∧ s = "file:" +:+ p)) ∨
     (∃ sch p, sch ∈ ["http"; "https"] ∧ Router.scheme e = Some sch ∧
        Router.path e = Some p ∧ s = sch +:+ "://" +:+ p)).
Proof.
  unfold Router.Setup_src. destruct arg as [s|]; [|done].
  pose proof (find_slice s ":" _ eq_refl) as Hsplit.
  destruct (0 <? Router.find s ":")%Z eqn:Hidx.
  - apply Z.ltb_lt in Hidx. specialize (Hsplit ltac:(lia)).
    set (sch := Router.slice s 0 (Router.find s ":")) in *.
    set (p0 := Router.slice_from s (Router.find s ":" + 1)) in *.
    unfold_L. case_bool_decide as Hsch; [done|].
    try apply dec_stable in Hsch.
    case_bool_decide as Hhttp.
    + case_bool_decide as Hslash; [done|]. try apply dec_stable in Hslash.
      intros [= <- <-]. split; [done|]. exists s. split_and!; try done.
      right. exists sch, (Router.slice_from p0 2). split_and!; try done.
      rewrite Hsplit at 1. rewrite (slice_2 p0 "//" Hslash eq_refl) at 1.
      clear. induction sch as [|a sch IH]; [done|].
      change (String a (sch +:+ String ":" ("//" +:+ Router.slice_from p0 2)) =
              String a (sch +:+ "://" +:+ Router.slice_from p0 2)).
      by rewrite IH.
    + intros [= <- <-]. split; [done|]. exists s. split_and!; try done.
      left. assert (sch = "file") as Hfile.
      { apply elem_of_cons in Hsch as [?|?]; [done|]. by destruct Hhttp. }
      split; [by rewrite Hfile|]. right. exists p0. split; [done|].
      by rewrite Hsplit at 1; rewrite Hfile.
  - unfold_L. case_bool_decide as Hsch; [done|]. try apply dec_stable in Hsch.
    case_bool_decide as Hhttp; [done|].
    intros [= <- <-]. split; [done|]. exists s. split_and!; try done.
    left. assert (s = "file") as Hfile.
    { apply elem_of_cons in Hsch as [?|?]; [done|]. by destruct Hhttp. }
    split; [by rewrite Hfile|]. by left.
Qed.

Lemma Setup_dest_returns env arg l e l' :
  Router.Setup_dest env arg l = (Router.Returns e, l') →
  l' = l ∧ ∃ s sch, arg = Router.Str s ∧
    Router.uri e = Some s ∧ Router.scheme e = Some sch ∧
    sch ∈ ["file"; "analyze"; "warehouse"] ∧
    Router.display e =
      Some (if decide (sch = "warehouse")
            then "warehouse@database=" +:+ Router.HOST env else s) ∧
    (Router.path e = None ∧ s = sch ∨
     ∃ p, Router.path e = Some p ∧ s = sch +:+ ":" +:+ p).
Proof.
  unfold Router.Setup_dest. destruct arg as [s|]; [|done].
  pose proof (find_slice s ":" _ eq_refl) as Hsplit.
  destruct (0 <? Router.find s ":")%Z eqn:Hidx.
  - apply Z.ltb_lt in Hidx. specialize (Hsplit ltac:(lia)).
    set (sch := Router.slice s 0 (Router.find s ":")) in *.
    set (p0 := Router.slice_from s (Router.find s ":" + 1)) in *.
    unfold_L. case_bool_decide as Hsch; [done|].
    try apply dec_stable in Hsch.
    destruct (decide (sch = "warehouse")) as [Hw|Hw].
    + rewrite Hw. simpl. rewrite app_empty_r.
      intros [= <- <-]. split; [done|]. exists s, sch.
      rewrite decide_True by done. split_and!; try done; try by rewrite Hw.
      right. exists p0. split; [done|]. by rewrite Hsplit at 1.
    + intros [= <- <-]. split; [done|]. exists s, sch.
      rewrite decide_False by done. split_and!; try done.
      right. exists p0. split; [done|]. by rewrite Hsplit at 1.
  - unfold_L. case_bool_decide as Hsch; [done|].
    try apply dec_stable in Hsch.
    destruct (decide (s = "warehouse")) as [Hw|Hw].
    + subst s. simpl. rewrite app_empty_r.
      intros [= <- <-]. split; [done|]. exists "warehouse", "warehouse".
      split_and!; try done. by left.
    + intros [= <- <-]. split; [done|]. exists s, s.
      rewrite decide_False by done. split_and!; try done. by left.
Qed.

Lemma Setup_src_raises arg l r l' :
  Router.Setup_src arg l = (Router.Raises r, l') → stopped l r l'.
Proof.
  unfold Router.Setup_src, stopped. destruct arg as [s|]; [|intros [= <- <-]; auto].
  destruct (0 <? Router.find s ":")%Z; unfold_L;
    repeat case_bool_decide; intros [= <- <-]; eauto.
Qed.

Lemma Setup_dest_raises env arg l r l' :
  Router.Setup_dest env arg l = (Router.Raises r, l') → stopped l r l'.
Proof.
  unfold Router.Setup_dest, stopped. destruct arg as [s|]; [|intros [= <- <-]; auto].
  destruct (0 <? Router.find s ":")%Z; unfold_L;
    repeat case_bool_decide; try (intros [= <- <-]; by eauto);
    case_decide; simplify_eq; simpl; done.
Qed.

(** What has held on the way when [Setup] returns. *)
Lemma Setup_returns args config env ps os ms l a l' :
  Router.Setup args config env ps os ms l = (Router.Returns a, l') →
  Router.Setup_src
    (Router.argument_or_config (Router.argument (Router.args_src args))
       config "SOURCE_URL" "file:./news.json") l =
    (Router.Returns (Router.src a), l) ∧
  Router.Setup_dest env
    (Router.argument_or_config (Router.argument (Router.args_dest args))
       config "DESTINATION" "analyze") l =
    (Router.Returns (Router.dest a), l) ∧
  ¬ (Router.scheme (Router.src a) = Some "file" ∧
     Router.scheme (Router.dest a) = Some "file") ∧
  (Router.daemonaction args = Some "start" →
   ¬ (Router.scheme (Router.src a) ∉ [Some "http"; Some "https"] ∨
      Router.scheme (Router.dest a) ∉ [Some "warehouse"])) ∧
  Router.ORGANIZATIONID a =
    Router.config_get config "ORGANIZATIONID" (Router.Str "NONE") ∧
  Router.truth (Router.ORGANIZATIONID a) ∧
  Router.News_Publisher_get env (Router.ORGANIZATIONID a) =
    Some (Router.PUBLISHER a) ∧
  (∃ x y z, Router.AFFILIATION a = Router.Str x ∧
            Router.NEWSURNPREFIX a = Router.Str y ∧
            Router.INPUTURNPREFIX a = Router.Str z) ∧
  Router.NEWSURNPREFIX a =
    (if Router.truth (Router.NewsURNPrefix (Router.PUBLISHER a))
     then Router.NewsURNPrefix (Router.PUBLISHER a)
     else Router.config_get config "NEWSURNPREFIX"
            (Router.Other true "['NONE']" (Some 1))).
Proof.
  unfold Router.Setup. unfold mbind at 1. unfold Router.L_bind at 1.
  destruct (Router.Setup_src _ l) as [[e1|r1] l1] eqn:Hsrc; [|done].
  destruct (Setup_src_returns _ _ _ _ Hsrc) as [-> _].
  unfold mbind at 1. unfold Router.L_bind at 1.
  destruct (Router.Setup_dest env _ l) as [[e2|r2] l2] eqn:Hdest; [|done].
  destruct (Setup_dest_returns _ _ _ _ _ Hdest) as [-> _].
  case_bool_decide as Hboth; [done|].
  destruct (Router.truth (Router.config_get config "ORGANIZATIONID" _))
    eqn:Horg; [|done]. cbn [negb].
  destruct (Router.News_Publisher_get env _) as [P|] eqn:HP; [|by unfold_L].
  unfold mbind at 1. unfold Router.L_bind at 1.
  set (check := if decide (Router.daemonaction args = Some "start") then _ else _).
  destruct (check l) as [[[]|r3] l3] eqn:Hcheck; [|done].
  assert (l3 = l ∧ (Router.daemonaction args = Some "start" →
            ¬ (Router.scheme e1 ∉ [Some "http"; Some "https"] ∨
               Router.scheme e2 ∉ [Some "warehouse"]))) as [-> Hstart].
  { subst check. case_decide as Hd.
    - case_bool_decide; [done|]. by injection Hcheck as <-.
    - by injection Hcheck as <-. }
  clear check Hcheck.
  destruct (Setup_src_returns _ _ _ _ Hsrc) as (_ & s1 & _ & _ & -> & _).
  destruct (Setup_dest_returns _ _ _ _ _ Hdest) as (_ & s2 & sch & _ & _ & _ & _ & -> & _).
  unfold_L. simpl Router.argument.
  destruct (Router.config_get config "AFFILIATION" _) as [x|]; [|done].
  simpl.
  set (N := if Router.truth (Router.NewsURNPrefix P) then _ else _).
  destruct N as [y|] eqn:HN; [|done].
  destruct (Router.config_get config "INPUTURNPREFIX" _) as [z|] eqn:HI; [|done].
  intros [= <- <-]. simpl. rewrite Horg. split_and!; try done.
  by exists x, y, z.
Qed.

(** How [Setup] ends when it does not return. *)
Lemma Setup_raises args config env ps os ms l r l' :
  Router.Setup args config env ps os ms l = (Router.Raises r, l') →
  (r = Router.SystemExit 1 ∧ ∃ msg, last l' = Some (error (Text msg))) ∨
  r = Router.Uncaught TypeError ∨
  r = Router.Uncaught (AttributeError "find").
Proof.
  assert (Hstopped : ∀ l0 r0 l1, stopped l0 r0 l1 →
    (r0 = Router.SystemExit 1 ∧ ∃ msg, last l1 = Some (error (Text msg))) ∨
    r0 = Router.Uncaught TypeError ∨
    r0 = Router.Uncaught (AttributeError "find")).
  { intros l0 r0 l1 [[-> [msg ->]]|[[-> _]|[-> _]]]; auto.
    left. split; [done|]. exists msg. by rewrite last_snoc. }
  unfold Router.Setup. unfold mbind at 1. unfold Router.L_bind at 1.
  destruct (Router.Setup_src _ l) as [[e1|r1] l1] eqn:Hsrc.
  2:{ intros [= <- <-]. eapply Hstopped, Setup_src_raises, Hsrc. }
  destruct (Setup_src_returns _ _ _ _ Hsrc) as (-> & s1 & _ & _ & Hd1 & _).
  unfold mbind at 1. unfold Router.L_bind at 1.
  destruct (Router.Setup_dest env _ l) as [[e2|r2] l2] eqn:Hdest.
  2:{ intros [= <- <-]. eapply Hstopped, Setup_dest_raises, Hdest. }
  destruct (Setup_dest_returns _ _ _ _ _ Hdest)
    as (-> & s2 & sch & _ & _ & _ & _ & Hd2 & _).
  assert (Hexit : ∀ A msg,
    (Router.log (error (Text msg)) ≫= λ _, @Router.sys_exit A 1) l =
      (Router.Raises r, l') →
    (r = Router.SystemExit 1 ∧ ∃ msg, last l' = Some (error (Text msg))) ∨
    r = Router.Uncaught TypeError ∨
    r = Router.Uncaught (AttributeError "find")).
  { intros A msg. unfold_L. intros [= <- <-]. left. split; [done|].
    exists msg. by rewrite last_snoc. }
  case_bool_decide as Hboth; [apply Hexit|].
  destruct (Router.truth (Router.config_get config "ORGANIZATIONID" _))
    eqn:Horg; cbn [negb]; [|apply Hexit].
  destruct (Router.News_Publisher_get env _) as [P|] eqn:HP; [|apply Hexit].
  unfold mbind at 1. unfold Router.L_bind at 1.
  set (check := if decide (Router.daemonaction args = Some "start") then _ else _).
  destruct (check l) as [[[]|r3] l3] eqn:Hcheck.
  2:{ subst check. case_decide; [|done]. case_bool_decide; [|done].
      intros [= <- <-]. by eapply Hexit. }
  assert (l3 = l) as ->.
  { subst check. case_decide; [case_bool_decide; [done|]|];
      by injection Hcheck as <-. }
  clear check Hcheck. rewrite Hd1, Hd2.
  unfold_L. simpl Router.argument.
  destruct (Router.config_get config "AFFILIATION" _) as [x|];
    [|intros [= <- <-]; auto].
  simpl.
  destruct (if Router.truth (Router.NewsURNPrefix P) then _ else _) as [y|];
    [|intros [= <- <-]; auto].
  destruct (Router.config_get config "INPUTURNPREFIX" _) as [z|];
    [|intros [= <- <-]; auto].
  done.
Qed.

(** ** [Read_SOURCE] *)

Lemma host_port_cases u l :
  Router.host_port u l =
    if Router.has_char (Router.urlp.netloc u) ":" then
      match Router.split (Router.urlp.netloc u) ":" with
      | [host; port] =>
          (Router.Returns
             (host,
              if decide (port = "") then
                if decide (Router.urlp.scheme u = "http") then "80" else "443"
              else port), l)
      | _ => (Router.Raises (Router.Uncaught ValueError), l)
      end
    else
      (Router.Returns
         (Router.urlp.netloc u,
          if decide (Router.urlp.scheme u = "http") then "80" else "443"), l).
Proof.
  unfold Router.host_port. unfold_L.
  destruct (Router.has_char _ _); [|done].
  destruct (Router.split _ _) as [|h [|p [|q t]]]; done.
Qed.

Lemma host_port_inv u l l' host port :
  Router.host_port u l = (Router.Returns (host, port), l') →
  l' = l ∧ port ≠ "" ∧
  Router.has_char host ":" = false ∧
  (Router.urlp.netloc u = host +:+ ":" +:+ port ∨
   (Router.urlp.netloc u = host ∨ Router.urlp.netloc u = host +:+ ":") ∧
   port = if decide (Router.urlp.scheme u = "http") then "80" else "443").
Proof.
  rewrite host_port_cases.
  destruct (Router.has_char (Router.urlp.netloc u) ":") eqn:Hc.
  - destruct (Router.split _ _) as [|h [|p [|q t]]] eqn:Hs; try done.
    apply split_pair in Hs as (Hn & Hh & Hp).
    intros [= <- <- <-]. split; [done|].
    destruct (decide (p = "")) as [->|Hne].
    + split_and!; [by case_decide | done |]. right. split; [|done].
      right. exact Hn.
    + split_and!; [done..|]. left. exact Hn.
  - intros [= <- <- <-]. split_and!; [done | by case_decide | done |].
    right. split; [by left|done].
Qed.

(** ** [Analyze_SOURCE] *)

Lemma format_Item a b c d :
  format ("Item={}, Affected={}, StartDatetime=" +:+
            String "034" ("{}" +:+ String "034" "")) [a; b; c; d] =
    Normal (Item_text a b c).
Proof. reflexivity. Qed.

Lemma Analyze_body_ok p w :
  analyzable p →
  ∃ msg,
    Analyze_body p w =
      (Normal tt,
       with_logger (λ l, l ++ [info (Text msg)])
         (with_STATS (λ c, set c "Update" (S (count c "Update"))) w)).
Proof.
  intros [Hkeys Hlen]. unfold analyzed_keys in Hkeys.
  repeat (apply Forall_cons in Hkeys as [[? ?] Hkeys]).
  unfold Analyze_body, subscript. unfold_M.
  repeat match goal with H : get p _ = Some _ |- _ => rewrite H end.
  unfold modify, len.
  match goal with
  | H : get p "affected_infrastructure_elements" = Some ?v |- _ =>
      destruct v as [s|b t [n|]]; [| |by destruct (Hlen b t)]
  end; unfold_M; rewrite format_Item; by eexists.
Qed.

(** ** A pass over tables in step with the batch *)

#[global] Instance quiet_preorder : PreOrder quiet.
Proof.
  split.
  - by intros w.
  - intros w1 w2 w3 (Hd & Hc & Hca & Hn & Hna) (Hd' & Hc' & Hca' & Hn' & Hna').
    split_and!; [congruence..| |]; auto.
Qed.

(** Writing a row that [News] holds as it is changes nothing. *)
Lemma update_or_create_same row db :
  models.URN row ∈ models.URN <$> News_objects db →
  (∀ item, item ∈ News_objects db → models.URN item = models.URN row →
     item = row) →
  db_update_or_create row db = db.
Proof.
  intros Hin Hsame. unfold db_update_or_create.
  rewrite bool_decide_eq_true_2 by done. destruct db as [N A n]. simpl in *.
  f_equal. rewrite <- (list_fmap_id N) at 2.
  apply list_fmap_ext. intros i item Hitem. simpl.
  case_decide as HURN; [|done]. symmetry. apply Hsame; [|done].
  by eapply list_elem_of_lookup_2.
Qed.

Lemma with_database_same (f : DB → DB) w :
  f (database w) = database w → with_database f w = w.
Proof. intros Hf. destruct w. unfold with_database. simpl in *. by rewrite Hf. Qed.

Lemma format_WEBURL URN :
  format "https://operations-api.access-ci.org/wh2/news/v1/id/{}/?format=html"
    [URN] =
  Normal ("https://operations-api.access-ci.org/wh2/news/v1/id/" +:+ URN +:+
          "/?format=html").
Proof. reflexivity. Qed.

(** An association that the snapshot has is not saved again. *)
Lemma association_loop_quiet env URN resources w :
  (∀ r, r ∈ resources → KEY_of URN "Resource" r ∈ keys (cur_assoc w)) →
  (association_loop env URN resources w).1 = Normal None ∧
  quiet w (association_loop env URN resources w).2 ∧
  new (association_loop env URN resources w).2 = new w ∧
  ∀ r, r ∈ resources →
    KEY_of URN "Resource" r ∈
      keys (new_assoc (association_loop env URN resources w).2).
Proof.
  revert w. induction resources as [|r resources IH]; intros w Hkeys; simpl.
  - split_and!; [done..|]. by intros r ?%elem_of_nil.
  - assert (Hr : KEY_of URN "Resource" r ∈ keys (cur_assoc w))
      by (apply Hkeys; left).
    apply get_is_Some in Hr as [item Hitem].
    unfold association_body. unfold_M. rewrite format_KEY. simpl.
    rewrite Hitem.
    set (w1 := with_new_assoc _ w).
    destruct (IH w1) as (H1 & H2 & H3 & H4).
    { intros r' Hr'. simpl. apply Hkeys. by right. }
    split_and!; [done| |done|].
    + etrans; [|exact H2]. split_and!; try done.
      intros k Hk. simpl. apply keys_set. by right.
    + intros r' [->|Hr']%elem_of_cons; [|by apply H4].
      destruct H2 as (_ & _ & _ & _ & Hna). apply Hna. simpl.
      apply keys_set. by left.
Qed.

Lemma news_body_quiet cfg env URN p w :
  holds_news cfg env (database w) URN p →
  (∀ r, r ∈ default [] (AffectedInfrastructure p) →
     KEY_of URN "Resource" r ∈ keys (cur_assoc w)) →
  quiet w (news_body cfg env URN p w).2 ∧
  ((news_body cfg env URN p w).1 = Normal None →
   URN ∈ keys (new (news_body cfg env URN p w).2) ∧
   ∀ r, r ∈ default [] (AffectedInfrastructure p) →
     KEY_of URN "Resource" r ∈ keys (new_assoc (news_body cfg env URN p w).2)).
Proof.
  intros Hholds Hkeys. unfold news_body. rewrite format_WEBURL. unfold_M.
  cbn [fst snd].
  destruct (parse_datetime env (OutageStart p)) as [start|e] eqn:Hstart;
    [|by split].
  destruct (parse_datetime env (OutageEnd p)) as [end_|e] eqn:Hend;
    [|by split].
  destruct (Hholds start end_ Hstart Hend) as [Hin Hsame].
  fold (news_row cfg URN p start end_).
  destruct (raises env (update_or_create _) _) as [e|].
  { rewrite saving_News_handler_raises. by split. }
  rewrite (with_database_same _ w) by (by apply update_or_create_same).
  destruct (raises env (save_News _) _) as [e|].
  { rewrite saving_News_handler_raises. by split. }
  rewrite (with_database_same _ w) by (by apply update_or_create_same).
  cbn [fst snd].
  destruct (AffectedInfrastructure p) as [resources|]; simpl in Hkeys |- *.
  2:{ split; [|done]. split_and!; try done.
      intros u Hu. simpl. apply keys_set. by right. }
  match goal with
  | |- context [association_loop env URN resources ?w1] =>
      destruct (association_loop_quiet env URN resources w1)
        as (H1 & H2 & H3 & H4); [by intros r Hr; apply Hkeys|]
  end.
  split.
  - etrans; [|exact H2]. split_and!; try done.
    intros u Hu. simpl. apply keys_set. by right.
  - intros _. split; [|done]. rewrite H3. simpl.
    apply keys_set. by left.
Qed.

Lemma news_loop_quiet cfg env (its : list (string * option p_res)) w :
  (∀ URN p, (URN, Some p) ∈ its → holds_news cfg env (database w) URN p) →
  (∀ k, k ∈ merged_keys its → k ∈ keys (cur_assoc w)) →
  quiet w (news_loop cfg env its w).2 ∧
  ((news_loop cfg env its w).1 = Normal None →
   (∀ u, u ∈ merged_URNs its → u ∈ keys (new (news_loop cfg env its w).2)) ∧
   (∀ k, k ∈ merged_keys its →
      k ∈ keys (new_assoc (news_loop cfg env its w).2))).
Proof.
  revert w. induction its as [|[URN [p|]] its IH]; intros w Hholds Hkeys.
  - simpl. split; [done|]. intros _.
    split; intros ? ?%elem_of_nil; done.
  - assert (Hp : ∀ r, r ∈ default [] (AffectedInfrastructure p) →
              KEY_of URN "Resource" r ∈ keys (cur_assoc w)).
    { intros r Hr. apply Hkeys. unfold merged_keys. simpl.
      apply elem_of_app. left. by apply list_elem_of_fmap_2. }
    destruct (news_body_quiet cfg env URN p w) as [Hq Hnew];
      [apply Hholds; left|done|].
    simpl. unfold_M.
    destruct (news_body cfg env URN p w) as [[[returned|]|e] w1];
      simpl in *; [by split| |by split].
    destruct Hq as (Hd & Hc & Hca & Hn & Hna).
    destruct (Hnew eq_refl) as [HURN HKEYs].
    destruct (IH w1) as [Hq' Hnew'].
    { intros URN' p' Hin. rewrite Hd. apply Hholds. by right. }
    { intros k Hk. rewrite Hca. apply Hkeys. unfold merged_keys. simpl.
      apply elem_of_app. by right. }
    split.
    + etrans; [|exact Hq']. by split_and!.
    + intros Hres. destruct (Hnew' Hres) as [HU HK].
      destruct Hq' as (_ & _ & _ & Hn' & Hna').
      split.
      * intros u [->|Hu]%elem_of_cons; [by apply Hn'|by apply HU].
      * intros k. unfold merged_keys. simpl.
        intros [(r & -> & Hr)%list_elem_of_fmap|Hk]%elem_of_app.
        -- by apply Hna', HKEYs.
        -- by apply HK.
  - simpl. by split.
Qed.

(** An entry of the snapshot that the pass has seen again is kept. *)
Lemma delete_association_loop_nothing env
    (its : list (string * models.News_Associations)) w :
  (∀ kv, kv ∈ its → kv.1 ∈ keys (new_assoc w)) →
  delete_association_loop env its w = (Normal tt, w).
Proof.
  induction its as [|[KEY item] its IH]; intros Hkeys; simpl; [done|].
  unfold delete_association_body. unfold_M.
  rewrite (proj2 (contains_true _ _)) by (apply (Hkeys (KEY, item)); left).
  apply IH. intros kv Hkv. apply Hkeys. by right.
Qed.

Lemma delete_news_loop_nothing env URNs w :
  (∀ u, u ∈ URNs → u ∈ keys (new w)) →
  delete_news_loop env URNs w = (Normal tt, w).
Proof.
  induction URNs as [|URN URNs IH]; intros Hkeys; simpl; [done|].
  unfold delete_news_body. unfold_M.
  rewrite (proj2 (contains_true _ _)) by (apply Hkeys; left).
  apply IH. intros u Hu. apply Hkeys. by right.
Qed.

Lemma Warehouse_in_step cfg env batch w :
  Forall has_ResourceID batch →
  in_step cfg env batch (database w) →
  database (Warehouse_XSEDE_News cfg env batch w).2 = database w.
Proof.
  intros Hall (Hnews & Hkeys & HURNs).
  destruct (merge_correct cfg batch Hall) as (m & objs & Hm & Hminv).
  rewrite <- (merged_items_spec _ _ _ _ Hminv) in *.
  rewrite Warehouse_cases, Hm.
  set (w0 := snapshot cfg w).
  destruct (news_loop_quiet cfg env (merged_items m objs) w0) as [Hq Hnew].
  { intros URN p Hin. by apply Hnews. }
  { intros k Hk%Hkeys. unfold w0, snapshot. simpl.
    apply list_elem_of_fmap in Hk as (a & -> & Ha).
    apply keys_foldl_set. right. by apply list_elem_of_fmap_2. }
  destruct (news_loop cfg env (merged_items m objs) w0) as [[[returned|]|e] w1];
    simpl in *; [apply Hq| |apply Hq].
  destruct Hq as (Hd & Hc & Hca & _ & _).
  destruct (Hnew eq_refl) as [HU HK].
  rewrite delete_association_loop_nothing.
  2:{ intros kv Hkv. apply HK, Hkeys. rewrite Hca in Hkv.
      assert (Hk : kv.1 ∈ keys (cur_assoc w0))
        by (by apply (list_elem_of_fmap_2 fst)).
      apply keys_foldl_set in Hk as [Hk|Hk]; [by apply elem_of_nil in Hk|].
      done. }
  rewrite delete_news_loop_nothing; [done|].
  intros u Hu. apply HU, HURNs. rewrite Hc in Hu.
  apply keys_foldl_set in Hu as [Hu|Hu]; [by apply elem_of_nil in Hu|].
  done.
Qed.

(** ** The rows the pass writes *)

#[global] Instance same_rows_preorder URN : PreOrder (same_rows URN).
Proof.
  split; [by intros w|]. unfold same_rows. intros w1 w2 w3 H1 H2. congruence.
Qed.

#[global] Instance same_News_preorder : PreOrder same_News.
Proof.
  split; [by intros w|]. unfold same_News. intros w1 w2 w3 H1 H2. congruence.
Qed.

Lemma holds_news_rows cfg env db db' URN p :
  rows_of URN db' = rows_of URN db →
  holds_news cfg env db URN p → holds_news cfg env db' URN p.
Proof.
  intros Hrows Hholds start end_ Hstart Hend.
  destruct (Hholds start end_ Hstart Hend) as [Hin Hsame]. split.
  - apply list_elem_of_fmap in Hin as (item & HURN & Hitem).
    assert (Hr : item ∈ rows_of URN db')
      by (rewrite Hrows; by apply list_elem_of_filter).
    apply list_elem_of_filter in Hr as [_ Hr].
    rewrite HURN. by apply list_elem_of_fmap_2.
  - intros item Hitem HURN.
    assert (Hr : item ∈ rows_of URN db')
      by (by apply list_elem_of_filter).
    rewrite Hrows in Hr. apply list_elem_of_filter in Hr as [_ Hr]. auto.
Qed.

Lemma update_or_create_rows_other row db URN :
  models.URN row ≠ URN →
  rows_of URN (db_update_or_create row db) = rows_of URN db.
Proof.
  intros Hne. unfold rows_of, db_update_or_create. simpl.
  case_bool_decide as Hin.
  - clear Hin. induction (News_objects db) as [|item N IH]; [done|].
    rewrite fmap_cons, !filter_cons, IH.
    destruct (decide (models.URN item = models.URN row)) as [He|He].
    + rewrite decide_False by done. rewrite decide_False by congruence. done.
    + done.
  - rewrite filter_app, filter_cons, decide_False by done.
    by rewrite filter_nil, app_nil_r.
Qed.

(** After [update_or_create], every row of the URN is the row written. *)
Lemma update_or_create_holds row db :
  models.URN row ∈ models.URN <$> News_objects (db_update_or_create row db) ∧
  ∀ item, item ∈ News_objects (db_update_or_create row db) →
    models.URN item = models.URN row → item = row.
Proof.
  unfold db_update_or_create. simpl. case_bool_decide as Hin.
  - split.
    + apply list_elem_of_fmap in Hin as (item & HURN & Hitem).
      apply list_elem_of_fmap. exists row. split; [done|].
      apply list_elem_of_fmap. exists item. split; [|done].
      by rewrite decide_True.
    + intros item (x & -> & Hx)%list_elem_of_fmap.
      case_decide; [done|]. intros HURN. done.
  - split.
    + rewrite fmap_app. apply elem_of_app. right. simpl. left.
    + intros item [Hitem| ->%list_elem_of_singleton]%elem_of_app; [|done].
      intros HURN. destruct Hin. rewrite <- HURN.
      by apply list_elem_of_fmap_2.
Qed.

Lemma association_loop_same_News env URN resources w :
  News_objects (database (association_loop env URN resources w).2) =
    News_objects (database w) ∧
  new (association_loop env URN resources w).2 = new w.
Proof.
  split.
  - by apply (keeps_association_loop same_News (λ _, True)).
  - by apply (keeps_association_loop same_new (λ _, True)).
Qed.

(** A news item that is saved is held as it was written, and [self.new]
    has its URN. *)
Lemma news_body_rows cfg env URN p w w1 :
  news_body cfg env URN p w = (Normal None, w1) →
  holds_news cfg env (database w1) URN p ∧
  URN ∈ keys (new w1) ∧
  ∀ u, u ∈ keys (new w) → u ∈ keys (new w1).
Proof.
  unfold news_body. rewrite format_WEBURL. unfold_M.
  destruct (parse_datetime env (OutageStart p)) as [start|e] eqn:Hstart;
    [|done].
  destruct (parse_datetime env (OutageEnd p)) as [end_|e] eqn:Hend; [|done].
  fold (news_row cfg URN p start end_).
  destruct (raises env (update_or_create _) _) as [e|].
  { by rewrite saving_News_handler_raises. }
  cbn [database with_database].
  destruct (raises env (save_News _) _) as [e|].
  { by rewrite saving_News_handler_raises. }
  unfold modify. cbn -[db_update_or_create news_row].
  destruct (AffectedInfrastructure p) as [resources|]; [|done].
  match goal with
  | |- association_loop env URN resources ?w3 = _ → _ =>
      destruct (association_loop_same_News env URN resources w3) as [HN Hnew]
  end.
  intros Hloop. rewrite Hloop in HN, Hnew.
  cbn -[db_update_or_create news_row] in HN, Hnew.
  split_and!.
  - intros start' end' Hs He. rewrite Hstart in Hs. rewrite Hend in He.
    injection Hs as <-. injection He as <-. rewrite HN.
    exact (update_or_create_holds (news_row cfg URN p start end_) _).
  - rewrite Hnew. apply keys_set. by left.
  - intros u Hu. rewrite Hnew. apply keys_set. by right.
Qed.

Lemma news_loop_same_rows cfg env (its : list (string * option p_res)) URN w :
  URN ∉ its.*1 →
  rows_of URN (database (news_loop cfg env its w).2) =
    rows_of URN (database w).
Proof.
  intros Hnot.
  apply (keeps_news_loop (same_rows URN) (λ u, u ≠ URN)); try done.
  - intros w0 row Hne. by apply update_or_create_rows_other.
  - apply Forall_forall. intros u Hu ->. done.
Qed.

Lemma news_loop_rows cfg env (its : list (string * option p_res)) w w' :
  NoDup its.*1 →
  news_loop cfg env its w = (Normal None, w') →
  (∀ URN p, (URN, Some p) ∈ its → holds_news cfg env (database w') URN p) ∧
  (∀ u, u ∈ its.*1 → u ∈ keys (new w')) ∧
  (∀ u, u ∈ keys (new w) → u ∈ keys (new w')).
Proof.
  revert w. induction its as [|[URN [p|]] its IH]; intros w Hnd; simpl.
  - intros [= <-].
    split_and!; [by intros ? ? ?%elem_of_nil|by intros ? ?%elem_of_nil|done].
  - apply NoDup_cons in Hnd as [Hnot Hnd]. unfold_M.
    destruct (news_body cfg env URN p w) as [[[returned|]|e] w1] eqn:Hbody;
      [done| |done].
    apply news_body_rows in Hbody as (Hholds & HURN & Hmono).
    intros Hloop.
    pose proof (news_loop_same_rows cfg env its URN w1 Hnot) as Hrows.
    rewrite Hloop in Hrows. simpl in Hrows.
    destruct (IH w1 Hnd Hloop) as (Hrest & Hnew & Hmono').
    split_and!.
    + intros URN' p' [[= -> ->]|Hin]%elem_of_cons; [|by apply Hrest].
      by apply (holds_news_rows _ _ (database w1)).
    + intros u [->|Hu]%elem_of_cons; auto.
    + auto.
  - done.
Qed.

Lemma delete_association_loop_same_News env
    (its : list (string * models.News_Associations)) w :
  News_objects (database (delete_association_loop env its w).2) =
    News_objects (database w) ∧
  new (delete_association_loop env its w).2 = new w.
Proof.
  split.
  - apply (keeps_delete_association_loop same_News (λ _, True)); try done.
    by apply Forall_forall.
  - apply (keeps_delete_association_loop same_new (λ _, True)); try done.
    by apply Forall_forall.
Qed.

(** The loop of line 367 leaves the rows of a URN of [self.new] alone. *)
Lemma delete_news_loop_rows env URNs URN w :
  URN ∈ keys (new w) →
  rows_of URN (database (delete_news_loop env URNs w).2) =
    rows_of URN (database w).
Proof.
  revert w. induction URNs as [|u URNs IH]; intros w HURN; simpl; [done|].
  unfold_M.
  assert (Hbody :
    rows_of URN (database (delete_news_body env u w).2) =
      rows_of URN (database w) ∧
    new (delete_news_body env u w).2 = new w).
  { destruct (contains (new w) u) eqn:Hc.
    - unfold delete_news_body. unfold_M. by rewrite Hc.
    - assert (Hne : u ≠ URN).
      { intros ->. apply contains_false in Hc. done. }
      split.
      + apply (keeps_delete_news_body (same_rows URN) (λ u, u ≠ URN));
          try done.
        intros w0 u0 Hu0. unfold same_rows, rows_of. simpl.
        rewrite list_filter_filter. apply list_filter_iff. naive_solver.
      + by apply (keeps_delete_news_body same_new (λ _, True)). }
  destruct Hbody as [Hrows Hnew].
  destruct (delete_news_body env u w) as [[[]|e] w1]; simpl in *; [|done].
  rewrite IH by (by rewrite Hnew). done.
Qed.

Lemma Warehouse_rows cfg env batch w w' returned :
  Forall has_ResourceID batch →
  Warehouse_XSEDE_News cfg env batch w = (Normal returned, w') →
  ∀ URN p, (URN, Some p) ∈ merged_spec cfg batch →
    holds_news cfg env (database w') URN p.
Proof.
  intros Hall Hrun URN p Hin.
  destruct (merge_correct cfg batch Hall) as (m & objs & Hm & Hminv).
  rewrite <- (merged_items_spec _ _ _ _ Hminv) in Hin.
  rewrite Warehouse_cases, Hm in Hrun.
  assert (Hnd : NoDup (merged_items m objs).*1).
  { unfold merged_items, items. rewrite <- list_fmap_compose.
    change (fst ∘ _) with (@fst string nat). fold (keys m).
    destruct Hminv as (_ & Hk & _). simpl in Hk. rewrite Hk.
    apply NoDup_first_seen. }
  pose proof (news_loop_no_return cfg env (merged_items m objs)
                (snapshot cfg w)) as Hno.
  destruct (news_loop cfg env (merged_items m objs) (snapshot cfg w))
    as [[[r|]|e] w1] eqn:Hloop; [by destruct (Hno r)| |done].
  destruct (news_loop_rows _ _ _ _ _ Hnd Hloop) as (Hholds & Hnew & _).
  pose proof (delete_association_loop_same_News env (items (cur_assoc w1)) w1)
    as [HN2 Hnew2].
  destruct (delete_association_loop env (items (cur_assoc w1)) w1)
    as [[[]|e] w2]; [|done]. simpl in HN2, Hnew2.
  pose proof (delete_news_loop_rows env (keys (cur w2)) URN w2) as Hrows3.
  destruct (delete_news_loop env (keys (cur w2)) w2) as [[[]|e] w3]; [|done].
  injection Hrun as _ <-. simpl in Hrows3.
  apply (holds_news_rows _ _ (database w1)); [|by apply Hholds].
  rewrite Hrows3.
  - unfold rows_of. by rewrite HN2.
  - rewrite Hnew2. apply Hnew. by apply (list_elem_of_fmap_2 fst) in Hin.
Qed.

(** ** The tables after a pass with no write refused *)

Lemma Warehouse_converges cfg env batch w w' :
  never_raises env →
  Forall has_ResourceID batch →
  NoDup (models.id <$> News_Associations_objects (database w)) →
  Forall (λ a, models.id a < next_id (database w))
    (News_Associations_objects (database w)) →
  NoDup (persisted_keys cfg (database w)) →
  (∀ a, a ∈ News_Associations_filter_startswith (NEWSURNPREFIX cfg) (database w) →
     key_of a ∈ merged_keys (merged_spec cfg batch) →
     models.NewsItem a ∈ merged_URNs (merged_spec cfg batch)) →
  Warehouse_XSEDE_News cfg env batch w = (Normal (true, ""), w') →
  (∀ URN, URN ∈ persisted_URNs cfg (database w') ↔
          URN ∈ merged_URNs (merged_spec cfg batch)) ∧
  (∀ KEY, KEY ∈ persisted_keys cfg (database w') ↔
          KEY ∈ merged_keys (merged_spec cfg batch)).
Proof.
  intros Hno Hall Hids Hfresh Hkeys Hunamb Hrun.
  destruct (merge_correct cfg batch Hall) as (m & objs & Hm & Hminv).
  rewrite <- (merged_items_spec _ _ _ _ Hminv) in *.
  pose proof (λ URN, merged_URNs_startswith cfg batch m objs URN Hminv)
    as Hprefix.
  set (merged := merged_items m objs) in *.
  rewrite (Warehouse_unfold _ _ _ _ _ _ Hm) in Hrun. fold merged in Hrun.
  set (w0 := snapshot cfg w) in *.
  destruct (news_loop cfg env merged w0) as [res w1] eqn:Hloop.
  destruct (news_loop_inv cfg env w0 [] merged w0 res w1 Hno
              (news_inv_initial w0 eq_refl eq_refl) Hloop)
    as [[e ->] | [-> Hinv]]; [done|].
  rewrite app_nil_l in Hinv.
  destruct Hinv as (Hcur & Hca & Hnew & Hna & HN & Hid & added & HT & Hadded & HK).
  set (R0 := News_Associations_filter_startswith (NEWSURNPREFIX cfg) (database w)) in *.
  assert (Hitems : items (cur_assoc w1) = (λ item, (key_of item, item)) <$> R0).
  { rewrite Hca. by apply cur_assoc_items. }
  assert (Hobsolete : ∀ a,
            a ∈ obsolete_associations (new_assoc w1) (items (cur_assoc w1)) ↔
            a ∈ R0 ∧ key_of a ∉ merged_keys merged).
  { intros a. rewrite Hitems, obsolete_associations_fmap, list_elem_of_filter,
      not_contains, Hna. tauto. }
  assert (HR0 : ∀ a, a ∈ R0 ↔
            startswith (models.NewsItem a) (NEWSURNPREFIX cfg) ∧
            a ∈ News_Associations_objects (database w)).
  { intros a. unfold R0, News_Associations_filter_startswith.
    by rewrite list_elem_of_filter. }
  destruct (delete_association_loop_spec env (items (cur_assoc w1)) w1 Hno)
    as (w2 & Hrun2 & HN2 & HA2 & Hnext2 & HS2 & Hsame2).
  { rewrite Hitems, obsolete_associations_fmap.
    eapply sublist_NoDup; [exact Hids|]. apply fmap_sublist.
    etransitivity; apply sublist_filter. }
  { intros pk (a & -> & Ha)%list_elem_of_fmap.
    apply Hobsolete in Ha as [Ha _]. apply HR0 in Ha as [_ Ha].
    apply list_elem_of_fmap_2. rewrite HT, elem_of_app. by left. }
  rewrite Hrun2 in Hrun.
  destruct (delete_news_loop_spec env (keys (cur w2)) w2 Hno)
    as (w3 & Hrun3 & Hdb3 & _ & _ & Hsame3).
  rewrite Hrun3 in Hrun. injection Hrun as <-.
  destruct (delete_news_fold (database w2)
              (obsolete_news (new w2) (keys (cur w2)))) as (HN3 & HA3 & _).
  rewrite <- Hdb3 in HN3, HA3.
  destruct Hsame2 as (Hcur2 & Hnew2 & _).
  assert (Hobs : ∀ u, u ∈ obsolete_news (new w2) (keys (cur w2)) ↔
                      u ∈ persisted_URNs cfg (database w) ∧
                      u ∉ merged_URNs merged).
  { intros u. unfold obsolete_news.
    rewrite list_elem_of_filter, not_contains, Hnew2, Hcur2, Hcur.
    unfold w0. rewrite cur_keys, Hnew. tauto. }
  assert (Hkept : ∀ a, a ∈ News_Associations_objects (database w2) ↔
            (a ∈ News_Associations_objects (database w) ∧
             ¬ (a ∈ R0 ∧ key_of a ∉ merged_keys merged)) ∨ a ∈ added).
  { intros a. rewrite HA2, list_elem_of_filter, HT, elem_of_app.
    change (database w0) with (database w). split.
    - intros [Hnot [Ha|Ha]]; [|by right]. left. split; [done|].
      intros Hobsa%Hobsolete. apply Hnot. by apply list_elem_of_fmap_2.
    - intros [[Ha Hnot]|Ha].
      + split; [|by left].
        intros (a' & Heq & Ha')%list_elem_of_fmap. apply Hnot, Hobsolete.
        assert (a = a') as ->; [|done].
        apply (NoDup_fmap_eq models.id _ _ _ Hids); [done | | done].
        apply Hobsolete in Ha' as [Ha' _]. by apply HR0 in Ha' as [_ ?].
      + split; [|by right].
        intros (a' & Heq & Ha')%list_elem_of_fmap.
        apply Hobsolete in Ha' as [Ha' _]. apply HR0 in Ha' as [_ Ha'].
        eapply Forall_forall in Hfresh; [|exact Ha'].
        eapply Forall_forall in Hadded as (_ & _ & Hge); [|exact Ha].
        change (database w0) with (database w) in Hge. lia. }
  split.
  - intros URN. unfold persisted_URNs at 1, News_filter_startswith.
    rewrite HN3, HN2, list_elem_of_fmap. split.
    + intros (n & -> & [Hpre [Hnot Hn]%list_elem_of_filter]%list_elem_of_filter).
      assert (Hu : models.URN n ∈ models.URN <$> News_objects (database w1))
        by (by apply list_elem_of_fmap_2).
      apply HN in Hu as [Hold | Hmerged]; [|done].
      destruct (decide (models.URN n ∈ merged_URNs merged)); [done|].
      exfalso. apply Hnot, Hobs. split; [|done].
      apply list_elem_of_fmap in Hold as (n' & Heq & Hn'). rewrite Heq.
      apply list_elem_of_fmap_2, list_elem_of_filter.
      split; [by rewrite <- Heq | done].
    + intros Hu.
      assert (Hin : URN ∈ models.URN <$> News_objects (database w1))
        by (apply HN; by right).
      apply list_elem_of_fmap in Hin as (n & -> & Hn).
      exists n. split; [done|]. apply list_elem_of_filter.
      split; [by rewrite Hprefix|]. apply list_elem_of_filter.
      split; [|done]. rewrite Hobs. tauto.
  - intros KEY. unfold persisted_keys at 1, News_Associations_filter_startswith.
    rewrite HA3, list_elem_of_fmap. split.
    + intros (a & -> & [Hpre [Hnot Ha]%list_elem_of_filter]%list_elem_of_filter).
      apply Hkept in Ha as [[Ha Hkeep]|Ha].
      * destruct (decide (key_of a ∈ merged_keys merged)); [done|].
        exfalso. apply Hkeep. split; [|done]. by apply HR0.
      * by eapply Forall_forall in Hadded as (_ & ? & _); [|exact Ha].
    + intros Hk. destruct (HK KEY Hk) as [Hold | (b & Hb & <-)].
      * unfold w0 in Hold.
        change (keys (cur_assoc (snapshot cfg w)))
          with ((items (cur_assoc (snapshot cfg w))).*1) in Hold.
        rewrite cur_assoc_items in Hold by done.
        rewrite <- list_fmap_compose in Hold.
        apply list_elem_of_fmap in Hold as (a & -> & Ha). simpl in *.
        exists a. split; [done|].
        apply list_elem_of_filter. split; [by apply HR0 in Ha as [? _]|].
        apply list_elem_of_filter. split.
        -- rewrite Hobs. intros [_ Hnot]. apply Hnot. by apply Hunamb.
        -- apply Hkept. left. split; [by apply HR0 in Ha as [_ ?]|].
           intros [_ Hnot]. done.
      * exists b. split; [done|].
        eapply Forall_forall in Hadded as (HbU & _ & _); [|exact Hb].
        apply list_elem_of_filter. split; [by rewrite Hprefix|].
        apply list_elem_of_filter. split.
        -- rewrite Hobs. tauto.
        -- apply Hkept. by right.
Qed.

(** A second pass over the same batch. *)
Lemma Warehouse_twice cfg env env' batch w w' :
  never_raises env →
  Forall has_ResourceID batch →
  NoDup (models.id <$> News_Associations_objects (database w)) →
  Forall (λ a, models.id a < next_id (database w))
    (News_Associations_objects (database w)) →
  NoDup (persisted_keys cfg (database w)) →
  (∀ a, a ∈ News_Associations_filter_startswith (NEWSURNPREFIX cfg) (database w) →
     key_of a ∈ merged_keys (merged_spec cfg batch) →
     models.NewsItem a ∈ merged_URNs (merged_spec cfg batch)) →
  Warehouse_XSEDE_News cfg env batch w = (Normal (true, ""), w') →
  parse_datetime env' = parse_datetime env →
  database (Warehouse_XSEDE_News cfg env' batch w').2 = database w'.
Proof.
  intros Hno Hall Hids Hfresh Hkeys Hunamb Hrun Hparse.
  destruct (Warehouse_converges cfg env batch w w' Hno Hall Hids Hfresh Hkeys
              Hunamb Hrun) as [HURNs HKEYs].
  apply Warehouse_in_step; [done|]. split_and!.
  - intros URN p Hin start end_. rewrite Hparse.
    by apply (Warehouse_rows cfg env batch w w' (true, "")).
  - done.
  - intros URN. apply HURNs.
Qed.

(** ** The main program *)

Lemma main_Setup_raises args config env ps os ms Run name text l r l1 :
  Router.Setup args config env ps os ms l = (Router.Raises r, l1) →
  ∃ l',
    main (Router.Setup args config env ps os ms) Run name text l =
      (Router.Raises (Router.SystemExit 1), l') ∧
    ∃ msg, last l' = Some (error (Text msg)).
Proof.
  intros HSetup. unfold main. unfold mbind at 1. unfold Router.L_bind at 1.
  rewrite HSetup.
  destruct (Setup_raises _ _ _ _ _ _ _ _ _ HSetup)
    as [[-> Hlast]|[->| ->]].
  - by exists l1.
  - eexists. split; [reflexivity|]. eexists. by rewrite last_snoc.
  - eexists. split; [reflexivity|]. eexists. by rewrite last_snoc.
Qed.

(** ** A turn for the destination [analyze] *)

Lemma Analyze_SOURCE_ok input_obj w :
  Forall analyzable input_obj →
  ∃ msgs,
    length msgs = length input_obj ∧
    Analyze_SOURCE input_obj w =
      (Normal tt,
       with_logger (λ l, l ++ (info ∘ Text <$> msgs))
         (with_STATS
            (λ c, foldl (λ c _, set c "Update" (S (count c "Update"))) c
                    input_obj) w)).
Proof.
  intros Hall. revert w. induction Hall as [|p rest Hp _ IH]; intros w.
  - exists []. split; [done|]. simpl. destruct w. unfold with_logger, with_STATS.
    simpl. by rewrite app_nil_r.
  - destruct (Analyze_body_ok p w Hp) as [msg Hbody].
    destruct (IH (with_logger (λ l, l ++ [info (Text msg)])
                    (with_STATS (λ c, set c "Update" (S (count c "Update"))) w)))
      as (msgs & Hlen & Hrest).
    exists (msg :: msgs). split; [simpl; by rewrite Hlen|].
    simpl. unfold_M. rewrite Hbody, Hrest.
    destruct w. unfold with_logger, with_STATS. simpl.
    by rewrite <- app_assoc.
Qed.

Lemma count_foldl_Update {A} (l : list A) c k :
  count (foldl (λ c _, set c "Update" (S (count c "Update"))) c l) k =
    if decide (k = "Update") then count c k + length l else count c k.
Proof.
  revert c. induction l as [|x l IH]; intros c; simpl.
  - case_decide; [lia|done].
  - rewrite IH. case_decide as Hk.
    + subst k. rewrite count_set_eq. lia.
    + by rewrite count_set_ne.
Qed.

Lemma Run_turn_analyze_ok input_obj w :
  Forall analyzable input_obj →
  input_obj ≠ [] →
  ∃ w',
    Run_turn_analyze (Some input_obj) w = (Normal tt, w') ∧
    last (logger w') = Some (info (Processed (length input_obj) 0 0)) ∧
    activity w' = activity w ∧
    database w' = database w.
Proof.
  intros Hall Hne. destruct input_obj as [|p rest]; [done|].
  destruct (Analyze_SOURCE_ok (p :: rest) (with_STATS (λ _, []) w) Hall)
    as (msgs & Hlen & Hrun).
  unfold Run_turn_analyze. unfold_M. unfold modify.
  cbv beta iota. rewrite Hrun. cbv beta iota.
  eexists. split; [reflexivity|]. split_and!.
  - cbn [logger with_logger]. rewrite last_snoc.
    cbn [STATS with_STATS with_logger].
    rewrite !count_foldl_Update.
    rewrite decide_True by done. rewrite !decide_False by done.
    reflexivity.
  - done.
  - done.
Qed.

(** * The merge: claims C6, C7, C8 and C10 *)

(** C6.  For a batch whose records have a [ResourceID], the merge ends
    normally and [merged_obj] has as many entries as there are distinct
    [OutageID]s among the records whose [ID] starts with [INPUTURNPREFIX];
    every entry aliases a record that passes the filter, and the entries are
    those the merge yields once the records that do not pass are taken out
    of the batch. *)
Theorem merge_grouping (cfg : config) (batch : list p_res) :
  Forall has_ResourceID batch →
  ∃ merged_obj objects,
    merge cfg batch = Normal (merged_obj, objects) ∧
    length (items merged_obj) =
      length (remove_dups (OutageID <$> filter (passes cfg) batch)) ∧
    (∀ URN j, get merged_obj URN = Some j →
       ∃ p, batch !! j = Some p ∧ passes cfg p) ∧
    ∃ merged_obj' objects',
      merge cfg (filter (passes cfg) batch) = Normal (merged_obj', objects') ∧
      merged_items merged_obj objects = merged_items merged_obj' objects'.
Proof.
  intros Hall.
  destruct (merge_correct cfg batch Hall) as (m & objs & Hrun & Hinv).
  exists m, objs. split; [done|].
  pose proof Hinv as (Hlen & Hkeys & Hget & Hother); simpl in *.
  rewrite firstn_all in *. split_and!.
  - unfold items. rewrite <- (length_fmap fst m). fold (keys m). rewrite Hkeys.
    replace (URN_of cfg <$> filter (passes cfg) batch)
      with (String.append (NEWSURNPREFIX cfg) <$>
              (OutageID <$> filter (passes cfg) batch))
      by (by rewrite <- list_fmap_compose).
    apply length_first_seen_fmap, String.app_inj.
  - intros URN j Hj.
    destruct (Hget _ _ Hj) as (_ & q & Hbj & Hq & _). eauto.
  - assert (Hall' : Forall has_ResourceID (filter (passes cfg) batch)).
    { apply Forall_forall. intros p [_ Hp]%list_elem_of_filter.
      by eapply Forall_forall in Hall. }
    destruct (merge_correct cfg _ Hall') as (m' & objs' & Hrun' & Hinv').
    exists m', objs'. split; [done|].
    rewrite (merged_items_spec _ _ _ _ Hinv), (merged_items_spec _ _ _ _ Hinv').
    by rewrite merged_spec_filter_passes.
Qed.

(** C7.  When the record [p] at position [i] is the first of the batch that
    passes the filter with its [OutageID], and [q] is a later record that
    passes with the same [OutageID], the entry of their URN aliases the
    object at position [i], whose [Subject], [OutageType], [Content],
    [OutageStart] and [OutageEnd] are those of [p], whatever those of [q]
    are. *)
Theorem first_seen_wins (cfg : config) (batch : list p_res) (i j : nat)
    (p q : p_res) :
  Forall has_ResourceID batch →
  batch !! i = Some p → batch !! j = Some q → i < j →
  passes cfg p → passes cfg q → OutageID q = OutageID p →
  (∀ i' p', i' < i → batch !! i' = Some p' → passes cfg p' →
     OutageID p' ≠ OutageID p) →
  ∃ merged_obj objects r,
    merge cfg batch = Normal (merged_obj, objects) ∧
    get merged_obj (URN_of cfg q) = Some i ∧
    objects !! i = Some r ∧
    Subject r = Subject p ∧ OutageType r = OutageType p ∧
    Content r = Content p ∧ OutageStart r = OutageStart p ∧
    OutageEnd r = OutageEnd p.
Proof.
  intros Hall Hi Hj Hij Hp Hq Hsame Hfirst.
  destruct (merge_correct cfg batch Hall) as (m & objs & Hrun & Hinv).
  assert (Hget : get m (URN_of cfg p) = Some i).
  { eapply merged_position; eauto.
    intros i' p' ? ? ? ?%URN_of_inj. by eapply Hfirst. }
  destruct Hinv as (_ & _ & Hinv & _); simpl in Hinv.
  destruct (Hinv _ _ Hget) as (_ & p0 & Hp0 & _ & _ & _ & Hobj).
  assert (p0 = p) as -> by congruence.
  eexists m, objs, _. split; [done|]. split.
  { by rewrite (proj2 (URN_of_inj cfg q p)). }
  split; [exact Hobj|]. done.
Qed.

(** C8.  For every [OutageID], the entry of its URN exists exactly when some
    record of the batch passes the filter with that [OutageID], and its
    [AffectedInfrastructure] lists the [ResourceID]s of those records, one
    per record, in the order of the batch. *)
Theorem resource_accumulation (cfg : config) (batch : list p_res)
    (oid : string) :
  Forall has_ResourceID batch →
  ∃ merged_obj objects,
    merge cfg batch = Normal (merged_obj, objects) ∧
    match get merged_obj (NEWSURNPREFIX cfg +:+ oid) with
    | None => filter (λ p, passes cfg p ∧ OutageID p = oid) batch = []
    | Some j =>
        ∃ r resources,
          objects !! j = Some r ∧
          AffectedInfrastructure r = Some resources ∧
          length resources =
            length (filter (λ p, passes cfg p ∧ OutageID p = oid) batch) ∧
          Some <$> resources =
            ResourceID <$> filter (λ p, passes cfg p ∧ OutageID p = oid) batch
    end.
Proof.
  intros Hall.
  destruct (merge_correct cfg batch Hall) as (m & objs & Hrun & Hinv).
  exists m, objs. split; [done|].
  destruct Hinv as (Hlen & Hkeys & Hget & Hother); simpl in *.
  rewrite firstn_all in *.
  assert (Hgroup : filter (λ p, passes cfg p ∧ OutageID p = oid) batch =
                   group cfg (NEWSURNPREFIX cfg +:+ oid) batch).
  { unfold group. apply list_filter_iff. intros p. unfold URN_of.
    split; intros [? Heq]; split; try done; [by rewrite Heq|].
    by apply String.app_inj in Heq. }
  rewrite Hgroup.
  destruct (get m (NEWSURNPREFIX cfg +:+ oid)) as [j|] eqn:Hj.
  - destruct (Hget _ _ Hj) as (_ & q & _ & _ & _ & _ & Hobj).
    assert (Hsome : Some <$> omap ResourceID
                      (group cfg (NEWSURNPREFIX cfg +:+ oid) batch) =
                    ResourceID <$> group cfg (NEWSURNPREFIX cfg +:+ oid) batch).
    { apply Some_omap_ResourceID, Forall_forall.
      intros p [_ Hp]%list_elem_of_filter. by eapply Forall_forall in Hall. }
    eexists _, _. split; [exact Hobj|]. split; [done|]. split; [|done].
    by rewrite <- (length_fmap Some), Hsome, length_fmap.
  - apply get_None in Hj. rewrite Hkeys in Hj.
    rewrite <- (firstn_all batch) at 1. apply group_unseen.
    by rewrite firstn_all.
Qed.

(** C10, as amended.  The merge is a function of the configuration and the
    batch: its entries are [merged_spec cfg batch].  It changes the batch in
    place: the first record of each group loses [ResourceID] and gains
    [AffectedInfrastructure], and every other record is left as it was. *)
Theorem merge_effect_on_input (cfg : config) (batch : list p_res) :
  Forall has_ResourceID batch →
  ∃ merged_obj objects,
    merge cfg batch = Normal (merged_obj, objects) ∧
    merged_items merged_obj objects = merged_spec cfg batch ∧
    length objects = length batch ∧
    ∀ i p, batch !! i = Some p →
      (first_of_group cfg batch i →
         objects !! i =
           Some (set_AffectedInfrastructure (pop_ResourceID p)
                   (omap ResourceID (group cfg (URN_of cfg p) batch)))) ∧
      (¬ first_of_group cfg batch i → objects !! i = Some p).
Proof.
  intros Hall.
  destruct (merge_correct cfg batch Hall) as (m & objs & Hrun & Hinv).
  exists m, objs. split; [done|]. split; [by apply merged_items_spec|].
  pose proof Hinv as (Hlen & Hkeys & Hget & Hother); simpl in *.
  split; [done|]. intros i p Hi. split.
  - intros (p' & Hi' & Hp & Hfirst). assert (p' = p) as -> by congruence.
    assert (Hpos : get m (URN_of cfg p) = Some i)
      by (by eapply merged_position).
    destruct (Hget _ _ Hpos) as (_ & q & Hq & _ & _ & _ & Hobj).
    rewrite firstn_all in Hobj. congruence.
  - intros Hnot. rewrite Hother; [done|]. intros URN HU. apply Hnot.
    destruct (Hget _ _ HU) as (_ & q & Hq & Hpass & HqU & Hfirst & _).
    exists q. split_and!; [done..|]. intros j' q' ? ? ?. rewrite HqU. eauto.
Qed.

(** * The classification: claim C9 *)

(** C9.  [Reconfiguration] stays, [Partial] becomes [Outage Partial], and
    every other value becomes [Outage Full]: [TYPE] is total, so no value is
    dropped and none raises. *)
Theorem classification (kind : string) :
  TYPE "Reconfiguration" = "Reconfiguration" ∧
  TYPE "Partial" = "Outage Partial" ∧
  (kind ≠ "Reconfiguration" → kind ≠ "Partial" → TYPE kind = "Outage Full") ∧
  TYPE kind ∈ ["Reconfiguration"; "Outage Partial"; "Outage Full"].
Proof.
  split; [done|]. split; [done|]. unfold TYPE. split.
  - intros H1 H2. by rewrite !decide_False.
  - repeat case_decide; rewrite !elem_of_cons; auto.
Qed.

(** * The reconciliation: claims C1 to C5 *)




(** C5, at its failing input.  The tables hold the news item [A] and its two
    associations, none of which the batch has any more; the database refuses
    to delete the first association with an [IntegrityError].  The handler of
    line 364 raises [AttributeError]: nothing is logged by it, the second
    association and the news item are not deleted, and the pass returns no
    pair. *)
Theorem delete_failure_raises :
  ∃ w,
    Warehouse_XSEDE_News example_cfg
      (delete_association_fails 1 django_IntegrityError)
      foreign_batch example_world = (Raised (AttributeError "message"), w) ∧
    database w = database example_world ∧
    logger w = logger example_world ∧
    length (persisted_URNs example_cfg (database w)) = 1 ∧
    length (persisted_keys example_cfg (database w)) = 2.
Proof. eexists. split; [vm_compute; reflexivity|]. by vm_compute. Qed.

(** C2, the claim as stated fails.  A turn of [Run] whose fetched batch is
    the empty list skips the pass, since [if SOURCE_DATA:] is false for it:
    the news item and its two associations stay, and no deletion is
    counted. *)
Lemma empty_batch_deletes_nothing :
  ∃ w,
    Run_turn example_cfg no_failure (Some []) example_world = (Normal tt, w) ∧
    database w = database example_world ∧
    length (persisted_URNs example_cfg (database w)) = 1 ∧
    length (persisted_keys example_cfg (database w)) = 2 ∧
    count (STATS w) "Delete" = 0.
Proof. eexists. split; [vm_compute; reflexivity|]. by vm_compute. Qed.

(** C10, the claim as stated fails.  The merge of the example batch leaves
    its first record without [ResourceID] and with
    [AffectedInfrastructure]. *)
Lemma merge_changes_its_input :
  ∃ merged_obj objects p p',
    merge example_cfg example_batch = Normal (merged_obj, objects) ∧
    example_batch !! 0 = Some p ∧ objects !! 0 = Some p' ∧
    ResourceID p = Some "r1" ∧ ResourceID p' = None ∧
    AffectedInfrastructure p = None ∧
    AffectedInfrastructure p' = Some ["r1"; "r2"].
Proof. eexists _, _, _, _. split; [vm_compute; reflexivity|]. by vm_compute. Qed.

(** C2, as amended.  The namespace holds one news item and two associations
    of it.  A turn of [Run] whose fetched batch is not empty, but has no
    record that passes the filter of line 296, with no write refused, deletes
    the news item and both associations: nothing of the namespace is left,
    one deletion is counted, and the summary that is logged and handed to
    [FinishActivity] reports it. *)
Theorem vanished_outage_is_deleted (cfg : config) (env : environment)
    (batch : list p_res) (w : world) (e : models.News)
    (a1 a2 : models.News_Associations) :
  never_raises env →
  batch ≠ [] →
  Forall (λ p, ¬ passes cfg p) batch →
  News_filter_startswith (NEWSURNPREFIX cfg) (database w) = [e] →
  News_Associations_filter_startswith (NEWSURNPREFIX cfg) (database w) =
    [a1; a2] →
  models.NewsItem a1 = models.URN e →
  models.NewsItem a2 = models.URN e →
  models.id a1 ≠ models.id a2 →
  ∃ w',
    Run_turn cfg env (Some batch) w = (Normal tt, w') ∧
    persisted_URNs cfg (database w') = [] ∧
    persisted_keys cfg (database w') = [] ∧
    count (STATS w') "Delete" = 1 ∧
    last (logger w') = Some (info (Processed 0 1 0)) ∧
    last (activity w') = Some (true, Processed 0 1 0).
Proof.
  intros Hno Hne Hnone He Ha H1 H2 Hid.
  rewrite Run_turn_nonempty by done.
  rewrite (Warehouse_unfold _ _ _ _ [] batch) by (by apply merge_none_passes).
  simpl merged_items. simpl news_loop. unfold_M.
  set (w0 := snapshot cfg (with_STATS (λ _, []) w)).
  assert (Hcur : cur w0 = [(models.URN e, e)]).
  { unfold w0, snapshot, load_cur. simpl. by rewrite He. }
  assert (Hrows : (items (cur_assoc w0)).*2 = [a2] ∨
                  (items (cur_assoc w0)).*2 = [a1; a2]).
  { unfold w0, snapshot. simpl. rewrite Ha. simpl.
    case_decide; simpl; auto. }
  assert (Htable : ∀ a, a ∈ [a1; a2] →
            a ∈ News_Associations_objects (database w0)).
  { intros a Hin. rewrite <- Ha in Hin. simpl.
    by apply list_elem_of_filter in Hin as [_ ?]. }
  destruct (delete_association_loop_spec env (items (cur_assoc w0)) w0)
    as (w2 & Hrun2 & HN2 & HA2 & Hnext2 & HS2 & Hsame2).
  { done. }
  { unfold obsolete_associations. rewrite filter_all by (intros ? _; simpl; auto).
    destruct Hrows as [-> | ->]; simpl.
    - apply NoDup_singleton.
    - apply NoDup_cons. split; [|apply NoDup_singleton].
      by rewrite list_elem_of_singleton. }
  { unfold obsolete_associations. rewrite filter_all by (intros ? _; simpl; auto).
    intros pk (a & -> & Hain)%list_elem_of_fmap.
    apply list_elem_of_fmap_2, Htable.
    destruct Hrows as [Hr | Hr]; rewrite Hr in Hain.
    - apply list_elem_of_singleton in Hain as ->. by right; left.
    - done. }
  rewrite Hrun2.
  destruct (delete_news_loop_spec env (keys (cur w2)) w2 Hno)
    as (w3 & Hrun3 & Hdb3 & Hcount3 & Hother3 & Hsame3).
  rewrite Hrun3. simpl.
  destruct (delete_news_fold (database w2)
              (obsolete_news (new w2) (keys (cur w2)))) as (HN3 & HA3 & _).
  rewrite <- Hdb3 in HN3, HA3.
  destruct Hsame2 as (Hcur2 & Hnew2 & _). destruct Hsame3 as (Hcur3 & Hnew3 & _).
  rewrite Hcur2, Hcur, Hnew2 in *. simpl in *.
  eexists. split; [done|]. simpl.
  rewrite Hcount3, Hother3, Hother3, HS2 by done. simpl.
  split_and!.
  - unfold persisted_URNs, News_filter_startswith.
    rewrite HN3, HN2. simpl.
    rewrite list_filter_filter.
    rewrite (filter_none _ (News_objects (database w))); [done|].
    intros n Hn [Hpre Hnot].
    assert (n ∈ [e]) as ->%list_elem_of_singleton.
    { rewrite <- He. by apply list_elem_of_filter. }
    apply Hnot. unfold obsolete_news. rewrite filter_cons_True by auto.
    by left.
  - unfold persisted_keys, News_Associations_filter_startswith.
    rewrite HA3, HA2. simpl.
    rewrite !list_filter_filter.
    rewrite (filter_none _ (News_Associations_objects (database w))); [done|].
    intros a Hain [[Hpre Hnot] _].
    assert (Hin : a ∈ [a1; a2]).
    { rewrite <- Ha. by apply list_elem_of_filter. }
    apply Hnot. unfold obsolete_news. rewrite filter_cons_True by auto.
    apply elem_of_cons in Hin as [-> | ->%list_elem_of_singleton];
      rewrite ?H1, ?H2; by left.
  - done.
  - by rewrite last_snoc.
  - by rewrite last_snoc.
Qed.

(** Convergence, under the conditions C1 leaves out.  When the associations
    of the namespace have pairwise distinct keys before the pass (and the
    rows of [News_Associations] distinct primary keys below [next_id]), no
    row of the namespace has the key of a pair of the merged batch while
    referring to a news item outside it, and the pass returns [(True, '')]
    with no write refused, then the URNs of the news items of the namespace
    are those of the merged batch, and the keys of its associations are
    those of the pairs of the merged batch. *)
Theorem convergence (cfg : config) (env : environment) (batch : list p_res)
    (w w' : world) :
  never_raises env →
  Forall has_ResourceID batch →
  NoDup (models.id <$> News_Associations_objects (database w)) →
  Forall (λ a, models.id a < next_id (database w))
    (News_Associations_objects (database w)) →
  NoDup (persisted_keys cfg (database w)) →
  (∀ a, a ∈ News_Associations_filter_startswith (NEWSURNPREFIX cfg) (database w) →
     key_of a ∈ merged_keys (merged_spec cfg batch) →
     models.NewsItem a ∈ merged_URNs (merged_spec cfg batch)) →
  Warehouse_XSEDE_News cfg env batch w = (Normal (true, ""), w') →
  (∀ URN, URN ∈ persisted_URNs cfg (database w') ↔
          URN ∈ merged_URNs (merged_spec cfg batch)) ∧
  (∀ KEY, KEY ∈ persisted_keys cfg (database w') ↔
          KEY ∈ merged_keys (merged_spec cfg batch)).
Proof. apply Warehouse_converges. Qed.

(** Whatever the batch, the tables and the database layer do, the pass does
    not return [(False, msg)]: the two handlers that end in
    [return(False, msg)] raise before they get there, so a pass either
    returns [(True, '')] or raises. *)
Theorem never_returns_False (cfg : config) (env : environment)
    (input_obj : list p_res) (w : world) :
  match (Warehouse_XSEDE_News cfg env input_obj w).1 with
  | Normal (rc, msg) => rc = true ∧ msg = ""
  | Raised _ => True
  end.
Proof.
  unfold Warehouse_XSEDE_News. unfold_M. simpl.
  rewrite load_cur_assoc_ok.
  destruct (merge cfg input_obj) as [[m objs]|e]; [|done]. simpl.
  pose proof (news_loop_no_return cfg env (merged_items m objs)
                (snapshot cfg w)) as Hloop.
  change (with_cur_assoc _ _) with (snapshot cfg w).
  destruct (news_loop _ _ _ _) as [[[r|]|e] w1]; simpl in *.
  - by destruct (Hloop r).
  - destruct (delete_association_loop _ _ _) as [[[]|e] w2]; [|done].
    by destruct (delete_news_loop _ _ _) as [[[]|e] w3].
  - done.
Qed.

(** A turn of [Run] whose fetch gave the empty list, or [None], only resets
    the counters: the pass is not run. *)
Theorem empty_fetch_skips_the_pass (cfg : config) (env : environment)
    (w : world) :
  Run_turn cfg env (Some []) w = (Normal tt, with_STATS (λ _, []) w) ∧
  Run_turn cfg env None w = (Normal tt, with_STATS (λ _, []) w).
Proof. done. Qed.

(** Lines 360 to 364, when the database refuses the delete with [e]: with a
    [message] the failure is logged and the loop goes on; without, as under
    Python 3, the handler raises [AttributeError]. *)
Theorem refused_association_delete (env : environment) (KEY : string)
    (item : models.News_Associations) (w : world) (e : db_error) :
  contains (new_assoc w) KEY = false →
  models.id item ∈ models.id <$> News_Associations_objects (database w) →
  raises env (delete_News_Associations (models.id item)) (database w) = Some e →
  delete_association_body env KEY item w =
    match exn_message e with
    | None => (Raised (AttributeError "message"), w)
    | Some m =>
        (Normal tt,
         with_logger
           (λ l, l ++ [error (Text (type_name e +:+ " deleting Assoc KEY=" +:+
                                    KEY +:+ ": " +:+ m))])
           w)
    end.
Proof.
  intros Hc Hin Hraises. unfold delete_association_body. unfold_M.
  rewrite Hc, bool_decide_true, Hraises by done.
  unfold deleting_handler. unfold_M.
  destruct (exn_message e) as [m|]; [|done]. simpl.
  by rewrite app_empty_r.
Qed.

(** Lines 369 to 374, when the database refuses the delete with [e]: as for
    the associations, and no deletion is counted. *)
Theorem refused_news_delete (env : environment) (URN : string) (w : world)
    (e : db_error) :
  contains (new w) URN = false →
  raises env (delete_News URN) (database w) = Some e →
  delete_news_body env URN w =
    match exn_message e with
    | None => (Raised (AttributeError "message"), w)
    | Some m =>
        (Normal tt,
         with_logger
           (λ l, l ++ [error (Text (type_name e +:+ " deleting News URN=" +:+
                                    URN +:+ ": " +:+ m))])
           w)
    end.
Proof.
  intros Hc Hraises. unfold delete_news_body. unfold_M.
  rewrite Hc, Hraises. unfold deleting_handler. unfold_M.
  destruct (exn_message e) as [m|]; [|done]. simpl.
  by rewrite app_empty_r.
Qed.

(** Lines 337 to 351 for a resource that the merged outage lists twice and
    the snapshot does not have: the test of line 342 fails both times, two
    rows are saved, and [self.new_assoc] keeps the second only. *)
Theorem repeated_resource_saves_two_rows (env : environment) (URN : string)
    (resource : string) (w : world) :
  never_raises env →
  get (cur_assoc w) (KEY_of URN "Resource" resource) = None →
  ∃ w',
    association_loop env URN [resource; resource] w = (Normal None, w') ∧
    News_Associations_objects (database w') =
      News_Associations_objects (database w) ++
        [ {| models.id := next_id (database w); models.NewsItem := URN;
             models.AssociatedType := "Resource";
             models.AssociatedID := resource |};
          {| models.id := S (next_id (database w)); models.NewsItem := URN;
             models.AssociatedType := "Resource";
             models.AssociatedID := resource |} ] ∧
    get (new_assoc w') (KEY_of URN "Resource" resource) =
      Some {| models.id := S (next_id (database w)); models.NewsItem := URN;
              models.AssociatedType := "Resource";
              models.AssociatedID := resource |}.
Proof.
  intros Hno Hget. simpl. unfold_M.
  rewrite association_body_spec, Hget by done.
  rewrite association_body_spec by done. simpl. rewrite Hget.
  eexists. split; [done|]. simpl. split.
  - by rewrite <- app_assoc.
  - rewrite get_set_eq. done.
Qed.

(** * The pass and the rest of the tables

    Whatever the batch and the database layer do, and whether the pass
    returns or raises, the rows of [News] whose URN does not start with
    [NEWSURNPREFIX], and the rows of [News_Associations] that refer to them,
    are after the pass what they were before it, provided the primary keys
    of the associations are distinct. *)
Theorem other_namespaces_are_left_alone (cfg : config) (env : environment)
    (input_obj : list p_res) (w : world) :
  NoDup (models.id <$> News_Associations_objects (database w)) →
  foreign_News (NEWSURNPREFIX cfg)
    (database (Warehouse_XSEDE_News cfg env input_obj w).2) =
    foreign_News (NEWSURNPREFIX cfg) (database w) ∧
  foreign_News_Associations (NEWSURNPREFIX cfg)
    (database (Warehouse_XSEDE_News cfg env input_obj w).2) =
    foreign_News_Associations (NEWSURNPREFIX cfg) (database w).
Proof.
  intros Hids.
  set (prefix := NEWSURNPREFIX cfg).
  set (N := foreign_News prefix (database w)).
  set (A := foreign_News_Associations prefix (database w)).
  pose (R := λ w w', same_snapshot w w' ∧ foreign_rows prefix N A w w').
  assert (HR : R (snapshot cfg w) (Warehouse_XSEDE_News cfg env input_obj w).2).
  { apply (keeps_Warehouse R (λ URN, startswith URN prefix)
             (λ pk, pk ∉ models.id <$> A)).
    - intros w1 f. split; [done|]. by intros H.
    - intros w1 f. split; [done|]. by intros H.
    - intros w1 f. split; [done|]. by intros H.
    - intros w1 k _. split; [done|]. by intros H.
    - intros w1 row Hrow. split; [done|]. intros [HN HA]. simpl.
      split; [|done]. by rewrite foreign_update_or_create.
    - intros w1 URN t i HURN. split; [done|]. intros [HN HA]. simpl.
      split; [done|]. by rewrite foreign_insert_association.
    - intros w1 pk Hpk. split; [done|]. intros [HN HA]. simpl.
      split; [done|]. rewrite foreign_delete_association; [done|by rewrite HA].
    - intros w1 URN HURN. split; [done|]. intros [HN HA]. simpl.
      destruct (foreign_delete_news prefix URN (database w1)) as [-> ->]; done.
    - by intros w1 w2 [].
    - intros s. apply Is_true_true, startswith_app.
    - apply Forall_forall. intros URN HURN%cur_keys.
      apply list_elem_of_fmap in HURN as (item & -> & Hitem).
      by apply list_elem_of_filter in Hitem as [Hitem _].
    - apply Forall_forall. intros kv Hkv%cur_assoc_rows.
      apply list_elem_of_filter in Hkv as [Hns Hkv].
      intros (a & He & Ha)%list_elem_of_fmap.
      apply list_elem_of_filter in Ha as [Hforeign Ha].
      assert (kv.2 = a) as Heq by (by eapply (NoDup_fmap_eq models.id)).
      rewrite Heq in Hns. by apply Hforeign. }
  destruct HR as [_ HR]. by apply HR.
Qed.

(** * The counters of a turn

    [STATS['Skip']], which the summary of line 408 reports, is zero after
    every turn, however it ends: nothing counts the records that the filter
    of line 296 leaves out. *)
Theorem skipped_is_always_zero (cfg : config) (env : environment)
    (SOURCE_DATA : option (list p_res)) (w : world) :
  count (STATS (Run_turn cfg env SOURCE_DATA w).2) "Skip" = 0.
Proof.
  unfold Run_turn. unfold_M. destruct (truthy SOURCE_DATA); [|done].
  pose proof (Warehouse_other_counters cfg env (default [] SOURCE_DATA)
                (with_STATS (λ _, []) w) "Skip") as HW.
  destruct (Warehouse_XSEDE_News _ _ _ _) as [[[rc msg]|e] w1]; simpl in *.
  - destruct rc; simpl; rewrite HW; done.
  - rewrite HW; done.
Qed.

(** When no write is refused and the turn returns, the summary reports as
    updates the number of distinct [OutageID]s among the records that pass
    the filter, as deletes the number of URNs of the namespace that were in
    [News] and are the URN of no such record, and no skip; [FinishActivity]
    gets the same summary. *)
Theorem summary_counts (cfg : config) (env : environment)
    (batch : list p_res) (w w' : world) :
  never_raises env →
  Forall has_ResourceID batch →
  batch ≠ [] →
  NoDup (persisted_URNs cfg (database w)) →
  Run_turn cfg env (Some batch) w = (Normal tt, w') →
  let updates :=
    length (remove_dups (OutageID <$> filter (passes cfg) batch)) in
  let deletes :=
    length (filter (λ URN, URN ∉ URN_of cfg <$> filter (passes cfg) batch)
              (persisted_URNs cfg (database w))) in
  last (logger w') = Some (info (Processed updates deletes 0)) ∧
  last (activity w') = Some (true, Processed updates deletes 0).
Proof.
  intros Hno Hall Hne Hnd Hrun updates deletes.
  rewrite Run_turn_nonempty in Hrun by done.
  set (w0 := with_STATS (λ _, []) w) in *.
  pose proof (Warehouse_other_counters cfg env batch w0 "Skip") as Hskip.
  destruct (merge_correct cfg batch Hall) as (m & objs & Hm & Hinv).
  rewrite (Warehouse_unfold _ _ _ _ _ _ Hm) in Hrun, Hskip.
  pose proof (merged_items_spec _ _ _ _ Hinv) as Hspec.
  destruct (news_loop cfg env (merged_items m objs) (snapshot cfg w0))
    as [[[returned|]|e] w1] eqn:Hloop; [| |done].
  { by pose proof (news_loop_no_return cfg env (merged_items m objs)
                    (snapshot cfg w0) returned) as []; rewrite Hloop. }
  destruct (news_loop_counts _ _ _ _ _ Hloop) as [Hu1 Hd1].
  destruct (news_loop_inv cfg env (snapshot cfg w0) [] _ _ _ _ Hno
              (news_inv_initial (snapshot cfg w0) eq_refl eq_refl) Hloop)
    as [[e [=]] | [_ Hinv1]].
  destruct Hinv1 as (Hcur1 & _ & Hnew1 & _).
  pose proof (delete_association_loop_same env (items (cur_assoc w1)) w1)
    as (HS2 & Hnew2 & Hcur2).
  destruct (delete_association_loop env (items (cur_assoc w1)) w1)
    as [[[]|e] w2]; [|done]. simpl in *.
  destruct (delete_news_loop_spec env (keys (cur w2)) w2 Hno)
    as (w3 & Hrun3 & _ & Hd3 & Hother3 & _).
  rewrite Hrun3 in Hrun, Hskip. simpl in Hrun, Hskip. injection Hrun as <-. simpl.
  rewrite !last_snoc.
  assert (Hupd : count (STATS w3) "Update" = updates).
  { rewrite Hother3, HS2, Hu1 by done. simpl.
    rewrite Hspec. unfold merged_spec. rewrite length_fmap.
    replace (URN_of cfg <$> filter (passes cfg) batch)
      with (String.append (NEWSURNPREFIX cfg) <$>
              (OutageID <$> filter (passes cfg) batch))
      by (by rewrite <- list_fmap_compose).
    apply length_first_seen_fmap, String.app_inj. }
  assert (Hdel : count (STATS w3) "Delete" = deletes).
  { rewrite Hd3, HS2, Hd1, Hnew2, Hcur2, Hcur1. simpl.
    change (load_cur (NEWSURNPREFIX cfg) (database w))
      with (cur (snapshot cfg w)).
    rewrite keys_cur by done. unfold deletes, obsolete_news. f_equal.
    apply list_filter_iff. intros URN.
    rewrite not_contains, Hnew1, Hspec. unfold merged_URNs, merged_spec.
    rewrite <- list_fmap_compose. simpl. rewrite list_fmap_id.
    by rewrite elem_of_first_seen. }
  by rewrite Hupd, Hdel, Hskip.
Qed.

(** * [Setup]

    When [Setup] returns, the scheme of the source is [file], [http] or
    [https], the scheme of the destination is [file], [analyze] or
    [warehouse], they are not both [file], a daemon that is started reads
    from [http] or [https] and writes to the warehouse, the publisher is the
    registered one of [ORGANIZATIONID], and [AFFILIATION], [NEWSURNPREFIX]
    and [INPUTURNPREFIX] are strings. *)
Theorem Setup_validates (args : Router.Args) (config : dict Router.value)
    (env : Router.environment) (peak_sleep offpeak_sleep max_stale : nat)
    (l l' : list log_record) (a : Router.attributes) :
  Router.Setup args config env peak_sleep offpeak_sleep max_stale l =
    (Router.Returns a, l') →
  (∃ s, Router.scheme (Router.src a) = Some s ∧
        s ∈ ["file"; "http"; "https"]) ∧
  (∃ s, Router.scheme (Router.dest a) = Some s ∧
        s ∈ ["file"; "analyze"; "warehouse"]) ∧
  ¬ (Router.scheme (Router.src a) = Some "file" ∧
     Router.scheme (Router.dest a) = Some "file") ∧
  (Router.daemonaction args = Some "start" →
   Router.scheme (Router.src a) ∈ [Some "http"; Some "https"] ∧
   Router.scheme (Router.dest a) = Some "warehouse") ∧
  Router.News_Publisher_get env (Router.ORGANIZATIONID a) =
    Some (Router.PUBLISHER a) ∧
  ∃ x y z, Router.AFFILIATION a = Router.Str x ∧
           Router.NEWSURNPREFIX a = Router.Str y ∧
           Router.INPUTURNPREFIX a = Router.Str z.
Proof.
  intros (Hsrc & Hdest & Hboth & Hstart & _ & _ & HP & Hstr & _)%Setup_returns.
  destruct (Setup_src_returns _ _ _ _ Hsrc) as (_ & s1 & _ & _ & _ & Hs1).
  destruct (Setup_dest_returns _ _ _ _ _ Hdest)
    as (_ & s2 & sch & _ & _ & Hsch & Hin & _).
  split_and!; try done.
  - destruct Hs1 as [[-> _]|(sch1 & p & Hin1 & -> & _)].
    + exists "file". split; [done|]. by left.
    + exists sch1. split; [done|]. by right.
  - eauto.
  - intros Hd. specialize (Hstart Hd). split.
    + destruct (decide (Router.scheme (Router.src a) ∈
                          [Some "http"; Some "https"])); [done|].
      destruct Hstart. by left.
    + destruct (decide (Router.scheme (Router.dest a) = Some "warehouse"))
        as [|Hne]; [done|].
      destruct Hstart. right. by intros He%list_elem_of_singleton.
Qed.

(** When [Setup] returns, [self.src] decomposes the source, which is the
    argument, else [SOURCE_URL] of the configuration, else
    [file:./news.json]: it is its [uri] and its [display], and it reads
    [scheme://path] for [http] and [https], and [file:path], or [file] alone
    with no path, for [file]. *)
Theorem source_uri_is_scheme_and_path (args : Router.Args)
    (config : dict Router.value) (env : Router.environment)
    (peak_sleep offpeak_sleep max_stale : nat) (l l' : list log_record)
    (a : Router.attributes) :
  Router.Setup args config env peak_sleep offpeak_sleep max_stale l =
    (Router.Returns a, l') →
  ∃ s,
    Router.argument_or_config (Router.argument (Router.args_src args)) config
      "SOURCE_URL" "file:./news.json" = Router.Str s ∧
    Router.uri (Router.src a) = Some s ∧
    Router.display (Router.src a) = Some s ∧
    ((Router.scheme (Router.src a) = Some "file" ∧
      (Router.path (Router.src a) = None ∧ s = "file" ∨
       ∃ p, Router.path (Router.src a) = Some p ∧ s = "file:" +:+ p)) ∨
     (∃ sch p, sch ∈ ["http"; "https"] ∧
        Router.scheme (Router.src a) = Some sch ∧
        Router.path (Router.src a) = Some p ∧ s = sch +:+ "://" +:+ p)).
Proof.
  intros (Hsrc & _)%Setup_returns.
  destruct (Setup_src_returns _ _ _ _ Hsrc) as (_ & s & Harg & Hrest).
  exists s. by split.
Qed.

(** [Setup] calls [sys.exit] with no other code than 1, and the last call
    of the logger before it is an error. *)
Theorem Setup_exits_with_1 (args : Router.Args) (config : dict Router.value)
    (env : Router.environment) (peak_sleep offpeak_sleep max_stale : nat)
    (l l' : list log_record) (code : nat) :
  Router.Setup args config env peak_sleep offpeak_sleep max_stale l =
    (Router.Raises (Router.SystemExit code), l') →
  code = 1 ∧ ∃ msg, last l' = Some (error (Text msg)).
Proof.
  intros [[[= ->] Hlast]|[[=]|[=]]]%Setup_raises. done.
Qed.

(** The source [http] or [https] given with nothing after it raises
    [TypeError] and logs nothing: line 134 leaves the path [None], which
    line 139 slices. *)
Theorem scheme_without_colon_raises_TypeError (args : Router.Args)
    (config : dict Router.value) (env : Router.environment)
    (peak_sleep offpeak_sleep max_stale : nat) (l : list log_record)
    (s : string) :
  s ∈ ["http"; "https"] →
  Router.args_src args = Some s →
  Router.Setup args config env peak_sleep offpeak_sleep max_stale l =
    (Router.Raises (Router.Uncaught TypeError), l).
Proof.
  intros Hs Harg. unfold Router.Setup. rewrite Harg.
  assert (Router.argument_or_config (Router.argument (Some s)) config
            "SOURCE_URL" "file:./news.json" = Router.Str s) as ->.
  { apply elem_of_cons in Hs as [->| ->%list_elem_of_singleton]; done. }
  apply elem_of_cons in Hs as [->| ->%list_elem_of_singleton]; done.
Qed.

(** With no [NEWSURNPREFIX] in the configuration and none on the publisher,
    [Setup] does not return: where nothing ends it before, line 194 adds the
    default of line 180, the list [['NONE']], to a string. *)
Theorem no_NEWSURNPREFIX_no_Setup (args : Router.Args)
    (config : dict Router.value) (env : Router.environment)
    (peak_sleep offpeak_sleep max_stale : nat) (l : list log_record) :
  get config "NEWSURNPREFIX" = None →
  (∀ P, Router.News_Publisher_get env
          (Router.config_get config "ORGANIZATIONID" (Router.Str "NONE")) =
          Some P →
        Router.truth (Router.NewsURNPrefix P) = false) →
  ∃ r l',
    Router.Setup args config env peak_sleep offpeak_sleep max_stale l =
      (Router.Raises r, l') ∧
    (r = Router.SystemExit 1 ∨ r = Router.Uncaught TypeError ∨
     r = Router.Uncaught (AttributeError "find")).
Proof.
  intros Hconfig Hpublisher.
  destruct (Router.Setup args config env peak_sleep offpeak_sleep max_stale l)
    as [[a|r] l'] eqn:HSetup.
  - apply Setup_returns in HSetup
      as (_ & _ & _ & _ & Horg & _ & HP & (x & y & z & _ & Hy & _) & HN).
    rewrite Horg in HP. rewrite (Hpublisher _ HP) in HN.
    unfold Router.config_get in HN. rewrite Hconfig in HN. congruence.
  - exists r, l'. split; [done|].
    apply Setup_raises in HSetup as [[-> _]|[->| ->]]; auto.
Qed.

(** * [Read_SOURCE]

    The host and the port of the connection: the port is never empty and
    the host holds no colon; the network location is [host:port], or it is
    [host] or [host:] and the port is 80 for [http] and 443 otherwise. *)
Theorem host_port_returns (u : Router.urlp.t) (l l' : list log_record)
    (host port : string) :
  Router.host_port u l = (Router.Returns (host, port), l') →
  l' = l ∧ port ≠ "" ∧
  Router.has_char host ":" = false ∧
  (Router.urlp.netloc u = host +:+ ":" +:+ port ∨
   (Router.urlp.netloc u = host ∨ Router.urlp.netloc u = host +:+ ":") ∧
   port = if decide (Router.urlp.scheme u = "http") then "80" else "443").
Proof. apply host_port_inv. Qed.

(** A URL of [http] or [https] with a path whose network location holds two
    colons or more, as with an IPv6 address or a password, raises
    [ValueError] at line 230, before anything is sent or logged. *)
Theorem netloc_with_two_colons_raises {A} (net : Router.network A)
    (url a b c : string) (l : list log_record) :
  Router.urlp.scheme (Router.urlparse net url) ∈ ["http"; "https"] →
  Router.urlp.path (Router.urlparse net url) ≠ "" →
  Router.urlp.netloc (Router.urlparse net url) =
    a +:+ ":" +:+ b +:+ ":" +:+ c →
  Router.Read_SOURCE net url l = (Router.Raises (Router.Uncaught ValueError), l).
Proof.
  intros Hscheme Hpath Hnetloc. unfold Router.Read_SOURCE.
  rewrite bool_decide_false.
  2:{ intros [He|[He|He]]; [| |done].
      - rewrite He in Hscheme.
        apply elem_of_cons in Hscheme as [?|?%list_elem_of_singleton]; done.
      - rewrite Hnetloc in He. by destruct a. }
  rewrite bool_decide_false by (by intros []).
  unfold mbind at 1. unfold Router.L_bind at 1.
  rewrite host_port_cases, Hnetloc.
  change (a +:+ ":" +:+ b +:+ ":" +:+ c)
    with (a +:+ String ":" (b +:+ String ":" c)).
  rewrite has_char_app.
  assert (3 ≤ length (Router.split (a +:+ String ":" (b +:+ String ":" c))
                        ":"))%nat as Hlen.
  { rewrite !length_split_app.
    pose proof (split_nonempty a ":"). pose proof (split_nonempty b ":").
    pose proof (split_nonempty c ":").
    destruct (Router.split a ":"), (Router.split b ":"), (Router.split c ":");
      simpl; first [done | lia]. }
  destruct (Router.split (a +:+ _) ":") as [|h [|p [|q t]]]; simpl in Hlen;
    first [done | lia].
Qed.

(** When [Read_SOURCE] returns, the request went to the host and port of
    lines 229 to 234 and got a response; what is returned is what
    [json.loads] made of its body, and [None], after an error in the log,
    when [json.loads] raised [ValueError]. *)
Theorem Read_SOURCE_returns {A} (net : Router.network A) (url : string)
    (l l' : list log_record) (o : option A) :
  Router.Read_SOURCE net url l = (Router.Returns o, l') →
  let u := Router.urlparse net url in
  ∃ host port resp,
    Router.host_port u l = (Router.Returns (host, port), l) ∧
    Router.request net host port (Router.urlp.path u) = None ∧
    Router.getresponse net host port (Router.urlp.path u) =
      Router.Returns resp ∧
    ∃ received,
      match Router.json_loads net (Router.body resp) with
      | inl input_json =>
          o = Some input_json ∧
          l' = l ++ [debug (Text ("HTTP GET  " +:+ url));
                     debug (Text received)]
      | inr e =>
          o = None ∧
          l' = l ++ [debug (Text ("HTTP GET  " +:+ url));
                     debug (Text received);
                     error (Text ("Response not in expected JSON format (" +:+
                                  e +:+ ")"))]
      end.
Proof.
  intros H. cbv zeta. revert H. unfold Router.Read_SOURCE.
  set (u := Router.urlparse net url).
  case_bool_decide; [by unfold_L; simpl|].
  case_bool_decide; [by unfold_L; simpl|].
  unfold mbind at 1. unfold Router.L_bind at 1.
  destruct (Router.host_port u l) as [[[host port]|r] l1] eqn:Hhp; [|done].
  destruct (host_port_inv _ _ _ _ _ Hhp) as [-> _].
  destruct (Router.request net host port _) as [r|] eqn:Hreq; [done|].
  unfold_L. simpl. rewrite app_empty_r.
  destruct (Router.getresponse net host port _) as [resp|r] eqn:Hresp; [|done].
  intros Hrun. exists host, port, resp. split_and!; try done.
  revert Hrun.
  destruct (Router.json_loads net (Router.body resp)) as [input_json|e] eqn:Hj.
  - intros [= <- <-]. eexists. split; [done|].
    rewrite <- app_assoc. reflexivity.
  - intros [= <- <-]. eexists. split; [done|].
    rewrite <- !app_assoc. reflexivity.
Qed.

(** * [Analyze_SOURCE]

    On records that have the four keys, and a length under
    [affected_infrastructure_elements], [Analyze_SOURCE] returns, counts one
    update and logs one line for each record, and leaves the tables alone. *)
Theorem Analyze_SOURCE_counts (input_obj : list (dict Router.value))
    (w : world) :
  Forall analyzable input_obj →
  ∃ w' msgs,
    Analyze_SOURCE input_obj w = (Normal tt, w') ∧
    count (STATS w') "Update" = count (STATS w) "Update" + length input_obj ∧
    logger w' = logger w ++ (info ∘ Text <$> msgs) ∧
    length msgs = length input_obj ∧
    database w' = database w.
Proof.
  intros Hall. revert w. induction Hall as [|p rest Hp _ IH]; intros w.
  - exists w, []. simpl. rewrite app_nil_r. split_and!; try done; lia.
  - destruct (Analyze_body_ok p w Hp) as [msg Hbody].
    destruct (IH (with_logger (λ l, l ++ [info (Text msg)])
                    (with_STATS (λ c, set c "Update" (S (count c "Update"))) w)))
      as (w' & msgs & Hrest & Hcount & Hlog & Hlen & Hdb).
    exists w', (msg :: msgs). simpl in *. unfold_M. rewrite Hbody, Hrest.
    rewrite count_set_eq in Hcount. rewrite <- app_assoc in Hlog.
    split_and!; try done; lia.
Qed.

(** A first record that lacks one of the four keys, [resource_descriptive_name]
    included, which the text of line 258 has no field for, or whose affected
    elements have no length, stops [Analyze_SOURCE] with a [KeyError] of a
    missing key or a [TypeError], once its update is counted and before
    anything is logged. *)
Theorem Analyze_SOURCE_needs_its_keys (p : dict Router.value)
    (rest : list (dict Router.value)) (w : world) :
  ¬ analyzable p →
  ∃ e,
    Analyze_SOURCE (p :: rest) w =
      (Raised e,
       with_STATS (λ c, set c "Update" (S (count c "Update"))) w) ∧
    (e = TypeError ∨ ∃ k, k ∈ analyzed_keys ∧ get p k = None ∧ e = KeyError k).
Proof.
  intros Hnot. simpl. unfold Analyze_body, subscript. unfold_M. unfold modify.
  destruct (get p "view_node") as [a|] eqn:Ha.
  2:{ eexists. split; [done|]. right. exists "view_node".
      split_and!; [by left|done..]. }
  destruct (get p "affected_infrastructure_elements") as [b|] eqn:Hb.
  2:{ eexists. split; [done|]. right.
      exists "affected_infrastructure_elements".
      split_and!; [by right; left|done..]. }
  unfold len. destruct b as [s|tr tx [n|]]; unfold_M.
  3:{ eexists. split; [done|]. by left. }
  all: destruct (get p "start_timestamp") as [c|] eqn:Hc;
    [|eexists; split; [done|]; right; exists "start_timestamp";
      split_and!; [by right; right; left|done..]].
  all: destruct (get p "resource_descriptive_name") as [d|] eqn:Hd;
    [|eexists; split; [done|]; right; exists "resource_descriptive_name";
      split_and!; [by right; right; right; left|done..]].
  all: destruct Hnot; split;
    [unfold analyzed_keys; repeat constructor; by eexists
    |intros ? ?; by rewrite Hb].
Qed.

(** * A pass over tables in step with the batch

    When [News] holds, for every record of the merged batch, the row the
    pass writes for it and no other row of its URN, the associations of the
    namespace have the keys of the merged pairs and no others, and the
    namespace has no news item outside the merged batch, the pass leaves the
    two tables and [next_id] as they are, whatever the database layer
    refuses and whether the pass returns or raises. *)
Theorem pass_in_step_writes_nothing (cfg : config) (env : environment)
    (input_obj : list p_res) (w : world) :
  Forall has_ResourceID input_obj →
  in_step cfg env input_obj (database w) →
  database (Warehouse_XSEDE_News cfg env input_obj w).2 = database w.
Proof. apply Warehouse_in_step. Qed.

(** Whenever the pass returns, [News] holds, for every record of the merged
    batch, a row of its URN, and every row of that URN is the row of lines
    315 to 326 for the record: its subject and content, the start and end
    [parse_datetime] gave, the type of lines 307 to 312, the URL of line
    313 and the affiliation and publisher of the router. *)
Theorem pass_writes_the_rows (cfg : config) (env : environment)
    (input_obj : list p_res) (w w' : world) (returned : bool * string)
    (URN : string) (p : p_res) :
  Forall has_ResourceID input_obj →
  Warehouse_XSEDE_News cfg env input_obj w = (Normal returned, w') →
  (URN, Some p) ∈ merged_spec cfg input_obj →
  holds_news cfg env (database w') URN p.
Proof. intros Hall Hrun Hin. by eapply Warehouse_rows. Qed.

(** A second pass over the same batch, after a pass that returned with no
    write refused, from tables whose associations have distinct primary
    keys below [next_id] and, in the namespace, distinct keys, none of them
    the key of a merged pair for a news item outside the merged batch,
    leaves the two tables and [next_id] as the first pass left them,
    whatever the database layer refuses the second time. *)
Theorem second_pass_writes_nothing (cfg : config) (env env' : environment)
    (input_obj : list p_res) (w w' : world) :
  never_raises env →
  Forall has_ResourceID input_obj →
  NoDup (models.id <$> News_Associations_objects (database w)) →
  Forall (λ a, models.id a < next_id (database w))
    (News_Associations_objects (database w)) →
  NoDup (persisted_keys cfg (database w)) →
  (∀ a, a ∈ News_Associations_filter_startswith (NEWSURNPREFIX cfg)
              (database w) →
     key_of a ∈ merged_keys (merged_spec cfg input_obj) →
     models.NewsItem a ∈ merged_URNs (merged_spec cfg input_obj)) →
  Warehouse_XSEDE_News cfg env input_obj w = (Normal (true, ""), w') →
  parse_datetime env' = parse_datetime env →
  database (Warehouse_XSEDE_News cfg env' input_obj w').2 = database w'.
Proof. apply Warehouse_twice. Qed.

(** * The main program

    Whenever [Setup] does not return, by [sys.exit] or by an exception, the
    program ends with the exit status 1, and the last call of the logger is
    an error. *)
Theorem Setup_failure_exits_with_1 (args : Router.Args)
    (config : dict Router.value) (env : Router.environment)
    (peak_sleep offpeak_sleep max_stale : nat)
    (Run : Router.attributes → Router.L unit)
    (name text : Router.raised → string) (l l1 : list log_record)
    (r : Router.raised) :
  Router.Setup args config env peak_sleep offpeak_sleep max_stale l =
    (Router.Raises r, l1) →
  ∃ l',
    main (Router.Setup args config env peak_sleep offpeak_sleep max_stale)
      Run name text l = (Router.Raises (Router.SystemExit 1), l') ∧
    ∃ msg, last l' = Some (error (Text msg)).
Proof. apply main_Setup_raises. Qed.

(** * A turn for the destination [analyze]

    On a fetch that is not empty and whose records have the keys that
    [Analyze_SOURCE] reads, the turn returns, its last line of log is the
    summary with as many updates as records, no delete and no skip,
    [FinishActivity] is not called, and the tables are as before. *)
Theorem analyze_turn_summary (input_obj : list (dict Router.value))
    (w : world) :
  Forall analyzable input_obj →
  input_obj ≠ [] →
  ∃ w',
    Run_turn_analyze (Some input_obj) w = (Normal tt, w') ∧
    last (logger w') = Some (info (Processed (length input_obj) 0 0)) ∧
    activity w' = activity w ∧
    database w' = database w.
Proof. apply Run_turn_analyze_ok. Qed.

(** * The theorems above on the example of the specification *)

(** [merge_grouping] on the example batch. *)
Lemma merge_grouping_witness :
  Forall has_ResourceID example_batch ∧
  ∃ merged_obj objects,
    merge example_cfg example_batch = Normal (merged_obj, objects) ∧
    length (items merged_obj) =
      length (remove_dups (OutageID <$> filter (passes example_cfg) example_batch)) ∧
    (∀ URN j, get merged_obj URN = Some j →
       ∃ p, example_batch !! j = Some p ∧ passes example_cfg p) ∧
    ∃ merged_obj' objects',
      merge example_cfg (filter (passes example_cfg) example_batch) =
        Normal (merged_obj', objects') ∧
      merged_items merged_obj objects = merged_items merged_obj' objects'.
Proof.
  split; [repeat constructor; by eexists|].
  apply (merge_grouping example_cfg example_batch).
  repeat constructor; by eexists.
Defined.

(** [first_seen_wins] on the example batch: the subject is [S], not
    [ignored]. *)
Lemma first_seen_wins_witness :
  ∃ merged_obj objects r,
    merge example_cfg example_batch = Normal (merged_obj, objects) ∧
    get merged_obj "urn:ogf:glue2:access-ci.org:news:A" = Some 0 ∧
    objects !! 0 = Some r ∧
    Subject r = "S" ∧ OutageType r = "Partial" ∧
    Content r = "" ∧ OutageStart r = None ∧ OutageEnd r = None.
Proof.
  apply (first_seen_wins example_cfg example_batch 0 1
           (feed_record "xsede:1" "A" "r1" "Partial" "S")
           (feed_record "xsede:1" "A" "r2" "Partial" "ignored")).
  - repeat constructor; by eexists.
  - reflexivity.
  - reflexivity.
  - lia.
  - vm_compute. exact I.
  - vm_compute. exact I.
  - reflexivity.
  - intros i' p' Hi'. lia.
Defined.

(** [resource_accumulation] on the example batch and the outage [A]. *)
Lemma resource_accumulation_witness :
  ∃ merged_obj objects,
    merge example_cfg example_batch = Normal (merged_obj, objects) ∧
    match get merged_obj (NEWSURNPREFIX example_cfg +:+ "A") with
    | None =>
        filter (λ p, passes example_cfg p ∧ OutageID p = "A") example_batch = []
    | Some j =>
        ∃ r resources,
          objects !! j = Some r ∧
          AffectedInfrastructure r = Some resources ∧
          length resources =
            length (filter (λ p, passes example_cfg p ∧ OutageID p = "A")
                      example_batch) ∧
          Some <$> resources =
            ResourceID <$>
              filter (λ p, passes example_cfg p ∧ OutageID p = "A") example_batch
    end.
Proof.
  apply (resource_accumulation example_cfg example_batch "A").
  repeat constructor; by eexists.
Defined.

(** [merge_effect_on_input] on the example batch. *)
Lemma merge_effect_on_input_witness :
  ∃ merged_obj objects,
    merge example_cfg example_batch = Normal (merged_obj, objects) ∧
    merged_items merged_obj objects = merged_spec example_cfg example_batch ∧
    length objects = length example_batch ∧
    ∀ i p, example_batch !! i = Some p →
      (first_of_group example_cfg example_batch i →
         objects !! i =
           Some (set_AffectedInfrastructure (pop_ResourceID p)
                   (omap ResourceID
                      (group example_cfg (URN_of example_cfg p) example_batch)))) ∧
      (¬ first_of_group example_cfg example_batch i → objects !! i = Some p).
Proof.
  apply (merge_effect_on_input example_cfg example_batch).
  repeat constructor; by eexists.
Defined.

(** [vanished_outage_is_deleted] on the tables the example batch left, when
    the next batch has one record of another namespace. *)
Lemma vanished_outage_is_deleted_witness :
  ∃ w',
    Run_turn example_cfg no_failure (Some foreign_batch) example_world =
      (Normal tt, w') ∧
    persisted_URNs example_cfg (database w') = [] ∧
    persisted_keys example_cfg (database w') = [] ∧
    count (STATS w') "Delete" = 1 ∧
    last (logger w') = Some (info (Processed 0 1 0)) ∧
    last (activity w') = Some (true, Processed 0 1 0).
Proof.
  apply (vanished_outage_is_deleted example_cfg no_failure foreign_batch
           example_world example_news (example_association 1 "r1")
           (example_association 2 "r2")).
  - intros op db. reflexivity.
  - discriminate.
  - repeat constructor. vm_compute. intros H. exact H.
  - vm_compute. reflexivity.
  - vm_compute. reflexivity.
  - reflexivity.
  - reflexivity.
  - vm_compute. discriminate.
Defined.

(** [convergence] on the tables the example batch left, when the next batch
    has the outage on [r2] only. *)
Lemma convergence_witness :
  ∃ w',
    Warehouse_XSEDE_News example_cfg no_failure moved_batch example_world =
      (Normal (true, ""), w') ∧
    (∀ URN, URN ∈ persisted_URNs example_cfg (database w') ↔
            URN ∈ merged_URNs (merged_spec example_cfg moved_batch)) ∧
    (∀ KEY, KEY ∈ persisted_keys example_cfg (database w') ↔
            KEY ∈ merged_keys (merged_spec example_cfg moved_batch)).
Proof.
  eexists. split; [vm_compute; reflexivity|].
  apply (convergence example_cfg no_failure moved_batch example_world).
  - intros op db. reflexivity.
  - repeat constructor; by eexists.
  - apply (bool_decide_unpack _). vm_compute. exact I.
  - apply (bool_decide_unpack _). vm_compute. exact I.
  - apply (bool_decide_unpack _). vm_compute. exact I.
  - apply (proj1 (Forall_forall
      (λ a, key_of a ∈ merged_keys (merged_spec example_cfg moved_batch) →
            models.NewsItem a ∈
              merged_URNs (merged_spec example_cfg moved_batch)) _)).
    apply (bool_decide_unpack _). vm_compute. exact I.
  - vm_compute. reflexivity.
Defined.

(** [refused_association_delete] for Django's [IntegrityError]. *)
Lemma refused_association_delete_witness :
  delete_association_body (delete_association_fails 1 django_IntegrityError)
    (KEY_of "urn:ogf:glue2:access-ci.org:news:A" "Resource" "r1")
    (example_association 1 "r1") (snapshot example_cfg example_world) =
    (Raised (AttributeError "message"), (snapshot example_cfg example_world)).
Proof.
  apply (refused_association_delete
           (delete_association_fails 1 django_IntegrityError) _
           (example_association 1 "r1") (snapshot example_cfg example_world) django_IntegrityError).
  - reflexivity.
  - apply (bool_decide_unpack _). vm_compute. exact I.
  - reflexivity.
Defined.

(** [refused_news_delete] for an exception object with a [message]. *)
Lemma refused_news_delete_witness :
  delete_news_body
    {| raises := λ _ _, Some DataError_with_message;
       parse_datetime := λ o : option string, Normal (Datetime <$> o) |}
    "urn:ogf:glue2:access-ci.org:news:A" (snapshot example_cfg example_world) =
    (Normal tt,
     with_logger
       (λ l, l ++ [error (Text
         "DataError deleting News URN=urn:ogf:glue2:access-ci.org:news:A: value too long")])
       (snapshot example_cfg example_world)).
Proof.
  apply (refused_news_delete
           {| raises := λ _ _, Some DataError_with_message;
              parse_datetime := λ o : option string, Normal (Datetime <$> o) |}
           "urn:ogf:glue2:access-ci.org:news:A" (snapshot example_cfg example_world)
           DataError_with_message); reflexivity.
Defined.

(** [repeated_resource_saves_two_rows] over empty tables. *)
Lemma repeated_resource_saves_two_rows_witness :
  ∃ w',
    association_loop no_failure "urn:ogf:glue2:access-ci.org:news:A"
      ["r1"; "r1"] (initial_world empty_DB) = (Normal None, w') ∧
    News_Associations_objects (database w') =
      [example_association 1 "r1"; example_association 2 "r1"] ∧
    get (new_assoc w')
      (KEY_of "urn:ogf:glue2:access-ci.org:news:A" "Resource" "r1") =
      Some (example_association 2 "r1").
Proof.
  apply (repeated_resource_saves_two_rows no_failure
           "urn:ogf:glue2:access-ci.org:news:A" "r1" (initial_world empty_DB)).
  - intros op db. reflexivity.
  - reflexivity.
Defined.

(** [other_namespaces_are_left_alone] on the example batch and tables that
    another publisher shares. *)
Lemma other_namespaces_are_left_alone_witness :
  NoDup (models.id <$>
           News_Associations_objects (database (initial_world shared_DB))) ∧
  foreign_News (NEWSURNPREFIX example_cfg)
    (database (Warehouse_XSEDE_News example_cfg no_failure example_batch
                 (initial_world shared_DB)).2) =
    foreign_News (NEWSURNPREFIX example_cfg)
      (database (initial_world shared_DB)) ∧
  foreign_News_Associations (NEWSURNPREFIX example_cfg)
    (database (Warehouse_XSEDE_News example_cfg no_failure example_batch
                 (initial_world shared_DB)).2) =
    foreign_News_Associations (NEWSURNPREFIX example_cfg)
      (database (initial_world shared_DB)).
Proof.
  split; [apply NoDup_singleton|].
  apply (other_namespaces_are_left_alone example_cfg no_failure example_batch
           (initial_world shared_DB)).
  apply NoDup_singleton.
Defined.

(** [summary_counts] on the later batch after the example batch: two
    updates and one delete. *)
Lemma summary_counts_witness :
  last (logger (Run_turn example_cfg no_failure (Some later_batch)
                  example_world).2) =
    Some (info (Processed 2 1 0)) ∧
  last (activity (Run_turn example_cfg no_failure (Some later_batch)
                    example_world).2) =
    Some (true, Processed 2 1 0).
Proof.
  apply (summary_counts example_cfg no_failure later_batch example_world
           (Run_turn example_cfg no_failure (Some later_batch)
              example_world).2).
  - intros op db. reflexivity.
  - repeat constructor; by eexists.
  - discriminate.
  - vm_compute. apply NoDup_singleton.
  - vm_compute. reflexivity.
Defined.

(** [Setup_validates] on the example command line. *)
Lemma Setup_validates_witness :
  ∃ a l',
    Router.Setup example_args example_config example_environment 10 60 120
      [] = (Router.Returns a, l') ∧
    (∃ s, Router.scheme (Router.src a) = Some s ∧
          s ∈ ["file"; "http"; "https"]) ∧
    (∃ s, Router.scheme (Router.dest a) = Some s ∧
          s ∈ ["file"; "analyze"; "warehouse"]) ∧
    ¬ (Router.scheme (Router.src a) = Some "file" ∧
       Router.scheme (Router.dest a) = Some "file") ∧
    (Router.daemonaction example_args = Some "start" →
     Router.scheme (Router.src a) ∈ [Some "http"; Some "https"] ∧
     Router.scheme (Router.dest a) = Some "warehouse") ∧
    Router.News_Publisher_get example_environment (Router.ORGANIZATIONID a) =
      Some (Router.PUBLISHER a) ∧
    ∃ x y z, Router.AFFILIATION a = Router.Str x ∧
             Router.NEWSURNPREFIX a = Router.Str y ∧
             Router.INPUTURNPREFIX a = Router.Str z.
Proof.
  destruct (Router.Setup example_args example_config example_environment
              10 60 120 []) as [[a|r] l'] eqn:HSetup; [|by vm_compute in HSetup].
  exists a, l'. split; [reflexivity|].
  exact (Setup_validates example_args example_config example_environment
           10 60 120 [] l' a HSetup).
Defined.

(** [source_uri_is_scheme_and_path] on the example command line. *)
Lemma source_uri_is_scheme_and_path_witness :
  ∃ a s,
    Router.uri (Router.src a) = Some s ∧
    Router.display (Router.src a) = Some s ∧
    ((Router.scheme (Router.src a) = Some "file" ∧
      (Router.path (Router.src a) = None ∧ s = "file" ∨
       ∃ p, Router.path (Router.src a) = Some p ∧ s = "file:" +:+ p)) ∨
     (∃ sch p, sch ∈ ["http"; "https"] ∧
        Router.scheme (Router.src a) = Some sch ∧
        Router.path (Router.src a) = Some p ∧ s = sch +:+ "://" +:+ p)).
Proof.
  destruct (Router.Setup example_args example_config example_environment
              10 60 120 []) as [[a|r] l'] eqn:HSetup; [|by vm_compute in HSetup].
  destruct (source_uri_is_scheme_and_path _ _ _ _ _ _ _ _ _ HSetup)
    as (s & _ & Hs).
  by exists a, s.
Defined.

(** [Setup_exits_with_1] on a source of the scheme [ftp]. *)
Lemma Setup_exits_with_1_witness :
  1 = 1 ∧
  ∃ msg, last [error (Text "Source not {file, http, https}")] =
           Some (error (Text msg)).
Proof.
  apply (Setup_exits_with_1 ftp_args example_config example_environment
           10 60 120 [] [error (Text "Source not {file, http, https}")] 1).
  vm_compute. reflexivity.
Defined.

(** [scheme_without_colon_raises_TypeError] on the source [https]. *)
Lemma scheme_without_colon_raises_TypeError_witness :
  Router.Setup https_args example_config example_environment 10 60 120 [] =
    (Router.Raises (Router.Uncaught TypeError), []).
Proof.
  apply (scheme_without_colon_raises_TypeError https_args example_config
           example_environment 10 60 120 [] "https").
  - apply list_elem_of_further, list_elem_of_here.
  - reflexivity.
Defined.

(** [no_NEWSURNPREFIX_no_Setup] on a publisher with no URN prefix. *)
Lemma no_NEWSURNPREFIX_no_Setup_witness :
  ∃ r l',
    Router.Setup example_args example_config bare_environment 10 60 120 [] =
      (Router.Raises r, l') ∧
    (r = Router.SystemExit 1 ∨ r = Router.Uncaught TypeError ∨
     r = Router.Uncaught (AttributeError "find")).
Proof.
  apply (no_NEWSURNPREFIX_no_Setup example_args example_config
           bare_environment 10 60 120 []).
  - reflexivity.
  - intros P HP. vm_compute in HP. by injection HP as <-.
Defined.

(** [host_port_returns] on a URL with no port. *)
Lemma host_port_returns_witness :
  [] = @nil log_record ∧ "443" ≠ "" ∧
  Router.has_char "info.xsede.org" ":" = false ∧
  (Router.urlp.netloc example_urlp = "info.xsede.org" +:+ ":" +:+ "443" ∨
   (Router.urlp.netloc example_urlp = "info.xsede.org" ∨
    Router.urlp.netloc example_urlp = "info.xsede.org" +:+ ":") ∧
   "443" = if decide (Router.urlp.scheme example_urlp = "http") then "80"
           else "443").
Proof.
  apply (host_port_returns example_urlp [] [] "info.xsede.org" "443").
  vm_compute. reflexivity.
Defined.

(** [netloc_with_two_colons_raises] on an IPv6 address. *)
Lemma netloc_with_two_colons_raises_witness :
  Router.Read_SOURCE example_network "https://[::1]:8443/outages" [] =
    (Router.Raises (Router.Uncaught ValueError), []).
Proof.
  apply (netloc_with_two_colons_raises example_network
           "https://[::1]:8443/outages" "[" "" "1]:8443" []).
  - vm_compute. apply list_elem_of_further, list_elem_of_here.
  - vm_compute. discriminate.
  - vm_compute. reflexivity.
Defined.

(** [Read_SOURCE_returns] on a server that answers with an empty list. *)
Lemma Read_SOURCE_returns_witness :
  ∃ host port resp,
    Router.host_port example_urlp [] = (Router.Returns (host, port), []) ∧
    Router.request example_network host port (Router.urlp.path example_urlp) = None ∧
    Router.getresponse example_network host port (Router.urlp.path example_urlp) =
      Router.Returns resp ∧
    ∃ received,
      match Router.json_loads example_network (Router.body resp) with
      | inl input_json =>
          Some (@nil (dict Router.value)) = Some input_json ∧
          [debug (Text "HTTP GET  https://info.xsede.org/wh1/outages/v1/outages/Current/");
           debug (Text "HTTP RESP 200 OK (returned 2/bytes)")] =
            [] ++ [debug (Text ("HTTP GET  " +:+
                         "https://info.xsede.org/wh1/outages/v1/outages/Current/"));
                   debug (Text received)]
      | inr e =>
          Some (@nil (dict Router.value)) = None ∧
          [debug (Text "HTTP GET  https://info.xsede.org/wh1/outages/v1/outages/Current/");
           debug (Text "HTTP RESP 200 OK (returned 2/bytes)")] =
            [] ++ [debug (Text ("HTTP GET  " +:+
                         "https://info.xsede.org/wh1/outages/v1/outages/Current/"));
                   debug (Text received);
                   error (Text ("Response not in expected JSON format (" +:+
                                e +:+ ")"))]
      end.
Proof.
  apply (Read_SOURCE_returns example_network
           "https://info.xsede.org/wh1/outages/v1/outages/Current/" []
           [debug (Text "HTTP GET  https://info.xsede.org/wh1/outages/v1/outages/Current/");
            debug (Text "HTTP RESP 200 OK (returned 2/bytes)")]
           (Some [])).
  vm_compute. reflexivity.
Defined.

(** [Analyze_SOURCE_counts] on two records. *)
Lemma Analyze_SOURCE_counts_witness :
  ∃ w' msgs,
    Analyze_SOURCE [analyzed_record; analyzed_record]
      (initial_world empty_DB) = (Normal tt, w') ∧
    count (STATS w') "Update" =
      count (STATS (initial_world empty_DB)) "Update" +
      length [analyzed_record; analyzed_record] ∧
    logger w' = logger (initial_world empty_DB) ++ (info ∘ Text <$> msgs) ∧
    length msgs = length [analyzed_record; analyzed_record] ∧
    database w' = database (initial_world empty_DB).
Proof.
  apply (Analyze_SOURCE_counts [analyzed_record; analyzed_record]
           (initial_world empty_DB)).
  assert (Hp : analyzable analyzed_record).
  { split; [repeat constructor; by eexists|]. intros b text. discriminate. }
  repeat (apply Forall_cons_2; [exact Hp|]). apply Forall_nil_2.
Defined.

(** [Analyze_SOURCE_needs_its_keys] on a record of the outage feed. *)
Lemma Analyze_SOURCE_needs_its_keys_witness :
  ∃ e,
    Analyze_SOURCE [outage_record] (initial_world empty_DB) =
      (Raised e,
       with_STATS (λ c, set c "Update" (S (count c "Update")))
         (initial_world empty_DB)) ∧
    (e = TypeError ∨
     ∃ k, k ∈ analyzed_keys ∧ get outage_record k = None ∧ e = KeyError k).
Proof.
  apply (Analyze_SOURCE_needs_its_keys outage_record [] (initial_world empty_DB)).
  intros [Hkeys _]. apply Forall_cons in Hkeys as [[v Hv] _]. discriminate.
Defined.

(** [pass_in_step_writes_nothing] on the example batch and the tables its
    pass left. *)
Lemma pass_in_step_writes_nothing_witness :
  database (Warehouse_XSEDE_News example_cfg no_failure example_batch
              example_world).2 = database example_world.
Proof.
  apply (pass_in_step_writes_nothing example_cfg no_failure example_batch
           example_world).
  - repeat constructor; by eexists.
  - split_and!.
    + intros URN p Hin. vm_compute in Hin.
      apply list_elem_of_singleton in Hin. injection Hin as -> ->.
      intros start end_ Hstart Hend. vm_compute in Hstart, Hend.
      injection Hstart as <-. injection Hend as <-. split.
      * vm_compute. left.
      * intros item Hitem HURN. vm_compute in Hitem.
        apply list_elem_of_singleton in Hitem. rewrite Hitem.
        vm_compute. reflexivity.
    + intros KEY.
      assert (persisted_keys example_cfg (database example_world) =
              merged_keys (merged_spec example_cfg example_batch)) as ->
        by (vm_compute; reflexivity).
      done.
    + intros URN.
      assert (persisted_URNs example_cfg (database example_world) =
              merged_URNs (merged_spec example_cfg example_batch)) as ->
        by (vm_compute; reflexivity).
      done.
Defined.

(** [pass_writes_the_rows] on the example batch over empty tables. *)
Lemma pass_writes_the_rows_witness :
  holds_news example_cfg no_failure
    (database (Warehouse_XSEDE_News example_cfg no_failure example_batch
                 (initial_world empty_DB)).2)
    "urn:ogf:glue2:access-ci.org:news:A" example_merged.
Proof.
  apply (pass_writes_the_rows example_cfg no_failure example_batch
           (initial_world empty_DB)
           (Warehouse_XSEDE_News example_cfg no_failure example_batch
              (initial_world empty_DB)).2
           (true, "")).
  - repeat constructor; by eexists.
  - vm_compute. reflexivity.
  - vm_compute. left.
Defined.

(** [second_pass_writes_nothing] on the example batch over empty tables. *)
Lemma second_pass_writes_nothing_witness :
  database
    (Warehouse_XSEDE_News example_cfg no_failure example_batch
       (Warehouse_XSEDE_News example_cfg no_failure example_batch
          (initial_world empty_DB)).2).2 =
  database (Warehouse_XSEDE_News example_cfg no_failure example_batch
              (initial_world empty_DB)).2.
Proof.
  apply (second_pass_writes_nothing example_cfg no_failure no_failure
           example_batch (initial_world empty_DB)).
  - intros op db. reflexivity.
  - repeat constructor; by eexists.
  - apply NoDup_nil_2.
  - apply Forall_nil_2.
  - apply NoDup_nil_2.
  - intros a Ha. vm_compute in Ha. by apply elem_of_nil in Ha.
  - vm_compute. reflexivity.
  - reflexivity.
Defined.

(** [Setup_failure_exits_with_1] on the source [https]. *)
Lemma Setup_failure_exits_with_1_witness :
  ∃ l',
    main (Router.Setup https_args example_config example_environment 10 60 120)
      (λ _, mret tt) (λ _, "TypeError")
      (λ _, "'NoneType' object is not subscriptable") [] =
      (Router.Raises (Router.SystemExit 1), l') ∧
    ∃ msg, last l' = Some (error (Text msg)).
Proof.
  apply (Setup_failure_exits_with_1 https_args example_config
           example_environment 10 60 120 (λ _, mret tt) (λ _, "TypeError")
           (λ _, "'NoneType' object is not subscriptable") [] []
           (Router.Uncaught TypeError)).
  vm_compute. reflexivity.
Defined.

(** [analyze_turn_summary] on two records. *)
Lemma analyze_turn_summary_witness :
  ∃ w',
    Run_turn_analyze (Some [analyzed_record; analyzed_record])
      (initial_world empty_DB) = (Normal tt, w') ∧
    last (logger w') =
      Some (info (Processed (length [analyzed_record; analyzed_record]) 0 0)) ∧
    activity w' = activity (initial_world empty_DB) ∧
    database w' = database (initial_world empty_DB).
Proof.
  apply (analyze_turn_summary [analyzed_record; analyzed_record]
           (initial_world empty_DB)).
  - assert (Hp : analyzable analyzed_record).
    { split; [repeat constructor; by eexists|]. intros b text. discriminate. }
    repeat (apply Forall_cons_2; [exact Hp|]). apply Forall_nil_2.
  - discriminate.
Defined.
